(** * Asset generation orchestration engine: a shallow embedding

    The development follows the Python sources of the image pipeline:
    - [application/handlers/assets/image_handler.py] (request parsing, task
      decomposition, per-task execution, status aggregation),
    - [application/services/assets/image/*.py] (prompt composition and the
      reference-image lookup),
    - [application/services/assets/art_style/art_style_service.py] (the four
      art-style resolvers and the temporary-image life cycle),
    - [schemas/dtos/request/*.py] (the pydantic validators).

    Python dictionaries are iterated in insertion order by the code, so they
    are association lists here.  Python [int] is [Z].  Strings are byte
    strings; only ASCII white space is stripped by [strip].  External
    collaborators (AI provider, object storage, configuration files) are
    parameters whose outcome the environment chooses. *)

From Stdlib Require Import String Ascii List ZArith Bool Arith Lia FinFun.
From Stdlib Require Import DecimalString.
From ExtLib Require Import Structures.Monad.
Import ListNotations.
Import MonadNotation.
Local Open Scope string_scope.
Local Open Scope list_scope.

(* ================================================================== *)
(** * Part I. The embedding                                            *)
(* ================================================================== *)

(** ** Python values shared by every module *)

Module Py.

(** Where an exception was raised; the message texts of the source are
    replaced by one constructor per [raise] site. *)
Inductive Reason :=
| UnsupportedModule (module : string)
| ModelUnavailable (model : string)
| PromptOnlyInterface
| FilenameEmpty
| FilenameCharacters
| DescriptionEmpty
| CountOutOfRange
| ResolutionPattern
| ArtStyleMissing
| PresetThemeRequired
| StyleComponentsRequired
| CustomPromptRequired
| AtLeastOneContent
| UnknownPresetTheme (theme : string)
| BasePromptEmpty
| CustomPromptEmpty
| CustomPromptTooLong
| ModelNotForProvider (model provider : string)
| NoTextGeneration (model : string)
| NoImageAnalysis (model : string)
| NeedReferenceImage
| MissingComponentsField
| MissingComponentsOrDescription
| MissingRequiredFields (fields : list string)
| NotValidJson
| NotIterable
| NoSuchAttribute (name : string)
| BadIndex
| Upstream (what : string)
| Wrapped (prefix : string) (inner : Reason).

(** The Python class of a raised exception. *)
Inductive PyExc :=
| ValueError (why : Reason)
| PydanticValidationError (why : Reason)
| HTTPException (status_code : Z) (detail : Reason)
| AttributeError (why : Reason)
| TypeError (why : Reason)
| KeyError (key : string)
| ProviderFailure (why : Reason)
| StorageFailure (why : Reason).

(** [str(e)] keeps the reason of the exception. *)
Definition str_exc (e : PyExc) : Reason :=
  match e with
  | ValueError r | PydanticValidationError r | AttributeError r
  | TypeError r | ProviderFailure r | StorageFailure r => r
  | HTTPException _ r => r
  | KeyError k => Upstream k
  end.

(** A call either raises or returns. *)
Definition result (A : Type) : Type := (PyExc + A)%type.

Definition raise {A : Type} (e : PyExc) : result A := inl e.

#[global] Instance Monad_result : Monad result :=
  {| ret := fun _ x => inr x;
     bind := fun _ _ c k => match c with inl e => inl e | inr x => k x end |}.

Definition is_ok {A : Type} (r : result A) : bool :=
  match r with inr _ => true | inl _ => false end.

(** [sep.join(parts)] *)
Fixpoint join (sep : string) (parts : list string) : string :=
  match parts with
  | [] => ""
  | [p] => p
  | p :: rest => (p ++ sep ++ join sep rest)%string
  end.

(** A text is the UTF-8 encoding of a Python [str]; a character is one
    code point, encoded on one to four bytes. *)

(** A continuation byte of a character of several bytes. *)
Definition is_continuation (c : ascii) : bool :=
  let n := nat_of_ascii c in ((128 <=? n) && (n <=? 191))%nat.

(** [len(s)]: the number of characters. *)
Fixpoint len (s : string) : nat :=
  match s with
  | EmptyString => 0
  | String c s' => if is_continuation c then len s' else S (len s')
  end.

(** The white space of [str.strip()], which is that of [str.isspace()]: on
    one byte, U+0009 to U+000D and U+001C to U+0020; *)
Definition is_space (c : ascii) : bool :=
  let n := nat_of_ascii c in
  (((9 <=? n) && (n <=? 13)) || ((28 <=? n) && (n <=? 32)))%nat.

(** on two bytes, U+0085 and U+00A0; *)
Definition is_space2 (c1 c2 : ascii) : bool :=
  let n1 := nat_of_ascii c1 in
  let n2 := nat_of_ascii c2 in
  ((n1 =? 194) && ((n2 =? 133) || (n2 =? 160)))%nat.

(** on three bytes, U+1680, U+2000 to U+200A, U+2028, U+2029, U+202F,
    U+205F and U+3000. *)
Definition is_space3 (c1 c2 c3 : ascii) : bool :=
  let n1 := nat_of_ascii c1 in
  let n2 := nat_of_ascii c2 in
  let n3 := nat_of_ascii c3 in
  (((n1 =? 225) && (n2 =? 154) && (n3 =? 128))
   || ((n1 =? 226) && (n2 =? 128)
       && (((128 <=? n3) && (n3 <=? 138)) || (n3 =? 168) || (n3 =? 169)
           || (n3 =? 175)))
   || ((n1 =? 226) && (n2 =? 129) && (n3 =? 159))
   || ((n1 =? 227) && (n2 =? 128) && (n3 =? 128)))%nat.

Fixpoint lstrip (s : string) : string :=
  match s with
  | String c1 s1 =>
      if is_space c1 then lstrip s1
      else
        match s1 with
        | String c2 s2 =>
            if is_space2 c1 c2 then lstrip s2
            else
              match s2 with
              | String c3 s3 => if is_space3 c1 c2 c3 then lstrip s3 else s
              | EmptyString => s
              end
        | EmptyString => s
        end
  | EmptyString => EmptyString
  end.

(** The text starts with a white-space character. *)
Definition starts_with_space (s : string) : bool :=
  match s with
  | String c1 s1 =>
      is_space c1
      || match s1 with
         | String c2 s2 =>
             is_space2 c1 c2
             || match s2 with
                | String c3 _ => is_space3 c1 c2 c3
                | EmptyString => false
                end
         | EmptyString => false
         end
  | EmptyString => false
  end.

(** From the right: a byte goes when all that follows its character has
    gone and the character is white space. *)
Fixpoint rstrip (s : string) : string :=
  match s with
  | String c1 s' =>
      match rstrip s' with
      | EmptyString =>
          if is_space c1 then EmptyString else String c1 EmptyString
      | String c2 EmptyString as t =>
          if is_space2 c1 c2 then EmptyString else String c1 t
      | String c2 (String c3 EmptyString) as t =>
          if is_space3 c1 c2 c3 then EmptyString else String c1 t
      | t => String c1 t
      end
  | EmptyString => EmptyString
  end.

Definition strip (s : string) : string := rstrip (lstrip s).

(** Truth value of a string: [bool(s)]. *)
Definition truthy (s : string) : bool :=
  match s with EmptyString => false | _ => true end.

(** [bool(o)] for an optional string ([None] is falsy). *)
Definition truthy_opt (o : option string) : bool :=
  match o with Some s => truthy s | None => false end.

(** [a or b] on an optional string with a string default. *)
Definition or_default (o : option string) (d : string) : string :=
  match o with
  | Some s => if truthy s then s else d
  | None => d
  end.

(** [d.get(k, default)] when the value, if present, is a string. *)
Definition get_default (o : option string) (d : string) : string :=
  match o with Some s => s | None => d end.

(** [pat in s] on strings: substring test. *)
Fixpoint contains (pat s : string) : bool :=
  String.prefix pat s
  || match s with
     | String _ s' => contains pat s'
     | EmptyString => false
     end.

(** [k in d] and [d[k]] on a dictionary. *)
Fixpoint lookup {V : Type} (k : string) (d : list (string * V)) : option V :=
  match d with
  | [] => None
  | (k', v) :: d' => if String.eqb k k' then Some v else lookup k d'
  end.

Definition has_key {V : Type} (k : string) (d : list (string * V)) : bool :=
  match lookup k d with Some _ => true | None => false end.

(** [d[k] = v] on a dictionary: in place when the key exists, appended
    otherwise. *)
Fixpoint store {V : Type} (k : string) (v : V) (d : list (string * V))
  : list (string * V) :=
  match d with
  | [] => [(k, v)]
  | (k', v') :: d' =>
      if String.eqb k k' then (k', v) :: d' else (k', v') :: store k v d'
  end.

(** [range(1, n + 1)] *)
Definition range1 (n : Z) : list Z :=
  map (fun i => Z.of_nat i) (seq 1 (Z.to_nat n)).

(** [enumerate(l)]: the elements with their positions, from 0. *)
Definition enumerate {A : Type} (l : list A) : list (nat * A) :=
  combine (seq 0 (length l)) l.

Definition is_digit (c : ascii) : bool :=
  let n := nat_of_ascii c in ((48 <=? n) && (n <=? 57))%nat.

Definition is_alpha (c : ascii) : bool :=
  let n := nat_of_ascii c in
  (((65 <=? n) && (n <=? 90)) || ((97 <=? n) && (n <=? 122)))%nat.

Fixpoint all_chars (p : ascii -> bool) (s : string) : bool :=
  match s with
  | EmptyString => true
  | String c s' => p c && all_chars p s'
  end.

(** The decimal digits that [\d] matches in a pattern on text: the
    characters of category Nd (Unicode 14.0), as ranges of code points. *)
Definition decimal_ranges : list (N * N) :=
  [(48, 57); (1632, 1641); (1776, 1785); (1984, 1993); (2406, 2415);
   (2534, 2543); (2662, 2671); (2790, 2799); (2918, 2927); (3046, 3055);
   (3174, 3183); (3302, 3311); (3430, 3439); (3558, 3567); (3664, 3673);
   (3792, 3801); (3872, 3881); (4160, 4169); (4240, 4249); (6112, 6121);
   (6160, 6169); (6470, 6479); (6608, 6617); (6784, 6793); (6800, 6809);
   (6992, 7001); (7088, 7097); (7232, 7241); (7248, 7257); (42528, 42537);
   (43216, 43225); (43264, 43273); (43472, 43481); (43504, 43513);
   (43600, 43609); (44016, 44025); (65296, 65305); (66720, 66729);
   (68912, 68921); (69734, 69743); (69872, 69881); (69942, 69951);
   (70096, 70105); (70384, 70393); (70736, 70745); (70864, 70873);
   (71248, 71257); (71360, 71369); (71472, 71481); (71904, 71913);
   (72016, 72025); (72784, 72793); (73040, 73049); (73120, 73129);
   (92768, 92777); (92864, 92873); (93008, 93017); (120782, 120831);
   (123200, 123209); (123632, 123641); (125264, 125273);
   (130032, 130041)]%N.

Definition is_decimal (code_point : N) : bool :=
  existsb (fun '(first, last) =>
             (first <=? code_point)%N && (code_point <=? last)%N)
    decimal_ranges.

(** A decimal digit encoded on one, two, three and four bytes. *)
Definition decimal1 (c1 : ascii) : bool :=
  (N_of_ascii c1 <? 128)%N && is_decimal (N_of_ascii c1).

Definition decimal2 (c1 c2 : ascii) : bool :=
  let n1 := N_of_ascii c1 in
  let n2 := N_of_ascii c2 in
  (194 <=? n1)%N && (n1 <=? 223)%N && is_continuation c2
  && is_decimal ((n1 - 192) * 64 + (n2 - 128))%N.

Definition decimal3 (c1 c2 c3 : ascii) : bool :=
  let n1 := N_of_ascii c1 in
  let n2 := N_of_ascii c2 in
  let n3 := N_of_ascii c3 in
  let code_point := ((n1 - 224) * 4096 + (n2 - 128) * 64 + (n3 - 128))%N in
  (224 <=? n1)%N && (n1 <=? 239)%N && is_continuation c2 && is_continuation c3
  && (2048 <=? code_point)%N && is_decimal code_point.

Definition decimal4 (c1 c2 c3 c4 : ascii) : bool :=
  let n1 := N_of_ascii c1 in
  let n2 := N_of_ascii c2 in
  let n3 := N_of_ascii c3 in
  let n4 := N_of_ascii c4 in
  let code_point :=
    ((n1 - 240) * 262144 + (n2 - 128) * 4096 + (n3 - 128) * 64 + (n4 - 128))%N in
  (240 <=? n1)%N && (n1 <=? 244)%N && is_continuation c2 && is_continuation c3
  && is_continuation c4 && (65536 <=? code_point)%N && is_decimal code_point.

(** The leading run of decimal digits of a text, and what follows it:
    what [\d*] matches at the start, and the rest. *)
Fixpoint span_decimal (s : string) : string * string :=
  match s with
  | String c1 s1 =>
      if decimal1 c1
      then let (w, rest) := span_decimal s1 in (String c1 w, rest)
      else
        match s1 with
        | String c2 s2 =>
            if decimal2 c1 c2
            then let (w, rest) := span_decimal s2 in
                 (String c1 (String c2 w), rest)
            else
              match s2 with
              | String c3 s3 =>
                  if decimal3 c1 c2 c3
                  then let (w, rest) := span_decimal s3 in
                       (String c1 (String c2 (String c3 w)), rest)
                  else
                    match s3 with
                    | String c4 s4 =>
                        if decimal4 c1 c2 c3 c4
                        then let (w, rest) := span_decimal s4 in
                             (String c1 (String c2 (String c3 (String c4 w))),
                              rest)
                        else (EmptyString, s)
                    | EmptyString => (EmptyString, s)
                    end
              | EmptyString => (EmptyString, s)
              end
        | EmptyString => (EmptyString, s)
        end
  | EmptyString => (EmptyString, EmptyString)
  end.

(** Every character of the text is a decimal digit. *)
Definition all_decimal (s : string) : bool :=
  match snd (span_decimal s) with
  | EmptyString => true
  | String _ _ => false
  end.

(** A decoded JSON document, as [json.loads] returns it. *)
#[local] Set Warnings "-register-all".
Inductive json :=
| JNull
| JBool (b : bool)
| JNum (n : Z)
| JStr (s : string)
| JArr (items : list json)
| JObj (fields : list (string * json)).

(** [bool(v)] of a decoded JSON value. *)
Definition json_truthy (v : json) : bool :=
  match v with
  | JNull => false
  | JBool b => b
  | JNum n => negb (n =? 0)%Z
  | JStr s => truthy s
  | JArr l => match l with [] => false | _ => true end
  | JObj f => match f with [] => false | _ => true end
  end.

End Py.

Import Py.
Local Open Scope monad_scope.

(** ** Request data ([schemas/dtos/request/image_request.py]) *)

(** [ImageAssetItem] *)
Module Item.
Record t := mk {
  filename : string;
  description : string;
  count : Z;
  resolution : option string
}.
End Item.

(** A generation task: the [task_info] dictionary built by the handler. *)
Module Task.
Record t := mk {
  category : string;
  subcategory : string;
  filename : string;
  description : string;
  index : Z;
  resolution : string;
  has_template : bool;
  from_reference : bool
}.
End Task.

(** [Dict[str, List[ImageAssetItem]]]: subcategory name to items. *)
Definition CategoryData := list (string * list Item.t).

Module Dto.

(** [re.match(r'^[a-zA-Z0-9_\-]+$', v)] *)
Definition filename_chars (s : string) : bool :=
  truthy s
  && all_chars (fun c => is_alpha c || is_digit c
                         || Ascii.eqb c "_"%char || Ascii.eqb c "-"%char) s.

(** [pattern=r'^\d+x\d+$'] *)
Definition resolution_pattern (s : string) : bool :=
  let (w, rest) := span_decimal s in
  match w, rest with
  | String _ _, String c h =>
      Ascii.eqb c "x"%char && truthy h && all_decimal h
  | _, _ => false
  end.

(** Construction of an [ImageAssetItem]: the fields are checked in the order
    of their declaration; the two field validators store the stripped
    text. *)
Definition ImageAssetItem (raw : Item.t) : result Item.t :=
  if negb (truthy (Item.filename raw))
     || negb (truthy (strip (Item.filename raw)))
  then raise (PydanticValidationError FilenameEmpty)
  else if negb (filename_chars (strip (Item.filename raw)))
  then raise (PydanticValidationError FilenameCharacters)
  else if negb (truthy (Item.description raw))
          || negb (truthy (strip (Item.description raw)))
  then raise (PydanticValidationError DescriptionEmpty)
  else if negb ((1 <=? Item.count raw)%Z && (Item.count raw <=? 10)%Z)
  then raise (PydanticValidationError CountOutOfRange)
  else if match Item.resolution raw with
          | Some r => negb (resolution_pattern r)
          | None => false
          end
  then raise (PydanticValidationError ResolutionPattern)
  else ret (Item.mk (strip (Item.filename raw))
                    (strip (Item.description raw))
                    (Item.count raw) (Item.resolution raw)).

Fixpoint validate_items (l : list Item.t) : result (list Item.t) :=
  match l with
  | [] => ret []
  | i :: rest =>
      i' <- ImageAssetItem i ;;
      rest' <- validate_items rest ;;
      ret (i' :: rest')
  end.

Fixpoint validate_category (d : CategoryData) : result CategoryData :=
  match d with
  | [] => ret []
  | (sub, items) :: rest =>
      items' <- validate_items items ;;
      rest' <- validate_category rest ;;
      ret ((sub, items') :: rest')
  end.

Definition validate_bucket (o : option CategoryData)
  : result (option CategoryData) :=
  match o with
  | None => ret None
  | Some d => d' <- validate_category d ;; ret (Some d')
  end.

End Dto.

(** [ArtStyleMode] *)
Inductive ArtStyleMode := PRESET | CUSTOM_DIRECT | CUSTOM_AI_ENHANCED | REFERENCE_IMAGE.

Definition ArtStyleMode_value (m : ArtStyleMode) : string :=
  match m with
  | PRESET => "preset"
  | CUSTOM_DIRECT => "custom_direct"
  | CUSTOM_AI_ENHANCED => "custom_ai_enhanced"
  | REFERENCE_IMAGE => "reference_image"
  end.

Definition ArtStyleMode_of_string (s : string) : option ArtStyleMode :=
  if s =? "preset" then Some PRESET
  else if s =? "custom_direct" then Some CUSTOM_DIRECT
  else if s =? "custom_ai_enhanced" then Some CUSTOM_AI_ENHANCED
  else if s =? "reference_image" then Some REFERENCE_IMAGE
  else None.

(** [ArtStyleConfig]; [style_components] is an untyped dictionary there. *)
Module ArtStyleConfig.
Record t := mk {
  mode : ArtStyleMode;
  preset_theme : option string;
  style_components : option (list (string * json));
  custom_prompt : option string;
  ai_provider : option string;
  ai_model : option string
}.
End ArtStyleConfig.

(** The [art_style] entry of a request before validation. *)
Module RawArtStyle.
Record t := mk {
  mode : string;
  preset_theme : option string;
  style_components : option (list (string * json));
  custom_prompt : option string;
  ai_provider : option string;
  ai_model : option string
}.
End RawArtStyle.

(** The three parameter classes of the modules. *)
Inductive GenerationInput :=
| SymbolsGenerationInput (art_style : ArtStyleConfig.t)
    (base_symbols special_symbols custom_content : option CategoryData)
    (default_resolution : string)
| UIGenerationInput (art_style : ArtStyleConfig.t)
    (buttons panels custom_content : option CategoryData)
    (default_resolution : string)
| BackgroundsGenerationInput (art_style : ArtStyleConfig.t)
    (background_set custom_content : option CategoryData)
    (default_resolution : string).

(** The [generation_params] dictionary of a request before validation:
    [buckets] holds every key whose value is a category dictionary. *)
Module RawParams.
Record t := mk {
  art_style : option RawArtStyle.t;
  buckets : list (string * CategoryData);
  default_resolution : option string
}.
End RawParams.

Module Params.

Definition art_style (p : GenerationInput) : ArtStyleConfig.t :=
  match p with
  | SymbolsGenerationInput a _ _ _ _ => a
  | UIGenerationInput a _ _ _ _ => a
  | BackgroundsGenerationInput a _ _ _ => a
  end.

Definition default_resolution (p : GenerationInput) : string :=
  match p with
  | SymbolsGenerationInput _ _ _ _ d => d
  | UIGenerationInput _ _ _ _ d => d
  | BackgroundsGenerationInput _ _ _ d => d
  end.

Definition custom_content (p : GenerationInput) : option CategoryData :=
  match p with
  | SymbolsGenerationInput _ _ _ c _ => c
  | UIGenerationInput _ _ _ c _ => c
  | BackgroundsGenerationInput _ _ c _ => c
  end.

(** [getattr(params, name, None)] for a category attribute. *)
Definition getattr (p : GenerationInput) (name : string) : option CategoryData :=
  match p with
  | SymbolsGenerationInput _ b s c _ =>
      if name =? "base_symbols" then b
      else if name =? "special_symbols" then s
      else if name =? "custom_content" then c else None
  | UIGenerationInput _ b pn c _ =>
      if name =? "buttons" then b
      else if name =? "panels" then pn
      else if name =? "custom_content" then c else None
  | BackgroundsGenerationInput _ b c _ =>
      if name =? "background_set" then b
      else if name =? "custom_content" then c else None
  end.

End Params.

(** Truth value of an optional dictionary. *)
Definition bucket_truthy {A : Type} (o : option (list A)) : bool :=
  match o with Some (_ :: _) => true | _ => false end.

Module DtoParams.

(** Construction of an [ArtStyleConfig], with [validate_mode_requirements]. *)
Definition ArtStyleConfig_init (raw : RawArtStyle.t) : result ArtStyleConfig.t :=
  match ArtStyleMode_of_string (RawArtStyle.mode raw) with
  | None => raise (PydanticValidationError ArtStyleMissing)
  | Some m =>
      let cfg := ArtStyleConfig.mk m (RawArtStyle.preset_theme raw)
                   (RawArtStyle.style_components raw)
                   (RawArtStyle.custom_prompt raw)
                   (Some (get_default (RawArtStyle.ai_provider raw) "openai"))
                   (Some (get_default (RawArtStyle.ai_model raw) "gpt-4o")) in
      match m with
      | PRESET =>
          if negb (truthy_opt (RawArtStyle.preset_theme raw))
          then raise (PydanticValidationError PresetThemeRequired) else ret cfg
      | CUSTOM_DIRECT =>
          if negb (bucket_truthy (RawArtStyle.style_components raw))
          then raise (PydanticValidationError StyleComponentsRequired) else ret cfg
      | CUSTOM_AI_ENHANCED =>
          if negb (truthy_opt (RawArtStyle.custom_prompt raw))
          then raise (PydanticValidationError CustomPromptRequired) else ret cfg
      | REFERENCE_IMAGE => ret cfg
      end
  end.

Definition art_style_field (raw : RawParams.t) : result ArtStyleConfig.t :=
  match RawParams.art_style raw with
  | None => raise (PydanticValidationError ArtStyleMissing)
  | Some a => ArtStyleConfig_init a
  end.

Definition bucket_field (raw : RawParams.t) (name : string)
  : result (option CategoryData) :=
  Dto.validate_bucket (lookup name (RawParams.buckets raw)).

(** [validate_at_least_one_content]: [any([...])] over the buckets. *)
Definition at_least_one_content (bs : list (option CategoryData)) : bool :=
  existsb bucket_truthy bs.

Definition SymbolsGenerationInput_init (raw : RawParams.t) : result GenerationInput :=
  a <- art_style_field raw ;;
  b <- bucket_field raw "base_symbols" ;;
  s <- bucket_field raw "special_symbols" ;;
  c <- bucket_field raw "custom_content" ;;
  if negb (at_least_one_content [b; s; c])
  then raise (PydanticValidationError AtLeastOneContent)
  else ret (SymbolsGenerationInput a b s c
              (get_default (RawParams.default_resolution raw) "1024x1024")).

Definition UIGenerationInput_init (raw : RawParams.t) : result GenerationInput :=
  a <- art_style_field raw ;;
  b <- bucket_field raw "buttons" ;;
  p <- bucket_field raw "panels" ;;
  c <- bucket_field raw "custom_content" ;;
  if negb (at_least_one_content [b; p; c])
  then raise (PydanticValidationError AtLeastOneContent)
  else ret (UIGenerationInput a b p c
              (get_default (RawParams.default_resolution raw) "1024x1024")).

Definition BackgroundsGenerationInput_init (raw : RawParams.t) : result GenerationInput :=
  a <- art_style_field raw ;;
  b <- bucket_field raw "background_set" ;;
  c <- bucket_field raw "custom_content" ;;
  if negb (at_least_one_content [b; c])
  then raise (PydanticValidationError AtLeastOneContent)
  else ret (BackgroundsGenerationInput a b c
              (get_default (RawParams.default_resolution raw) "1920x1080")).

End DtoParams.

(** ** Task decomposition ([ImageHandler], [image_handler.py]) *)

Module Decomposer.

(** The body of the innermost loop of [_parse_category_tasks]. *)
Definition item_tasks (category_name subcategory_name : string)
    (default_resolution : string) (item : Item.t) : list Task.t :=
  map (fun index =>
         Task.mk category_name subcategory_name
           (Item.filename item) (Item.description item) index
           (or_default (Item.resolution item) default_resolution)
           false false)
      (range1 (Item.count item)).

Definition _parse_category_tasks (category_name : string)
    (category_data : CategoryData) (default_resolution : string) : list Task.t :=
  flat_map (fun '(subcategory_name, items) =>
              flat_map (item_tasks category_name subcategory_name
                          default_resolution) items)
           category_data.

Definition _parse_custom_content_tasks (custom_content : CategoryData)
    (default_resolution : string) : list Task.t :=
  flat_map (fun '(custom_name, items) =>
              flat_map (item_tasks "custom" custom_name default_resolution) items)
           custom_content.

(** [category_attrs[module_type]] *)
Definition category_attrs (p : GenerationInput) : list string :=
  match p with
  | SymbolsGenerationInput _ _ _ _ _ => ["base_symbols"; "special_symbols"]
  | UIGenerationInput _ _ _ _ _ => ["buttons"; "panels"]
  | BackgroundsGenerationInput _ _ _ _ => ["background_set"]
  end.

Definition _parse_generation_tasks (params : GenerationInput) : list Task.t :=
  flat_map (fun category_name =>
              match Params.getattr params category_name with
              | Some (e :: d) =>
                  _parse_category_tasks category_name (e :: d)
                    (Params.default_resolution params)
              | _ => []
              end)
           (category_attrs params)
  ++ match Params.custom_content params with
     | Some (e :: d) =>
         _parse_custom_content_tasks (e :: d) (Params.default_resolution params)
     | _ => []
     end.

End Decomposer.


(** ** The decomposition of the base service ([base_image_service.py]) *)

(** An item given as a dictionary; [None] is an absent key. *)
Module DictItem.
Record t := mk {
  filename : option string;
  description : option string;
  count : option Z;
  resolution : option string
}.
End DictItem.

(** An element of an item list: a dictionary, or any other object. *)
Inductive ServiceItem :=
| ItemDict (d : DictItem.t)
| ItemObject (i : Item.t).

(** The [task_info] dictionary built by the base service. *)
Module ServiceTask.
Record t := mk {
  category : string;
  subcategory : string;
  filename : option string;
  description : option string;
  index : Z;
  resolution : string;
  format_version : string
}.
End ServiceTask.

Module BaseImageService.

(** The body of the loop over the items: a dictionary is expanded, any
    other object is skipped with a warning. *)
Definition item_tasks (category_name subcategory_name : string)
    (default_resolution : string) (item : ServiceItem) : list ServiceTask.t :=
  match item with
  | ItemDict d =>
      let filename := DictItem.filename d in
      let description :=
        match DictItem.description d with
        | Some text => Some text
        | None => filename
        end in
      let count := match DictItem.count d with Some c => c | None => 1%Z end in
      let resolution := get_default (DictItem.resolution d) default_resolution in
      map (fun index =>
             ServiceTask.mk category_name subcategory_name filename description
               index resolution "new")
          (range1 count)
  | ItemObject _ => []
  end.

Definition _parse_category_tasks (category_name : string)
    (category_data : list (string * list ServiceItem))
    (default_resolution : string) : list ServiceTask.t :=
  flat_map (fun '(subcategory_name, items) =>
              flat_map (item_tasks category_name subcategory_name
                          default_resolution) items)
           category_data.

End BaseImageService.

(** ** Style and reference data handed to the compositor *)

(** The [art_style_data] dictionary; [None] is an absent key. *)
Module StyleData.
Record t := mk {
  style_prompt : option string;
  mode : option string;
  components : option (list (string * json));
  quality_tags : option string
}.
End StyleData.

(** An item of the tree built from an ingested archive
    ([_convert_to_asset_items] drops the keys whose value is [None]). *)
Module RefItem.
Record t := mk {
  filename : string;
  description : string;
  count : option Z;
  resolution : option string
}.
End RefItem.

Definition RefTree := list (string * list (string * list RefItem.t)).

(** The [reference_data] dictionary; [None] is an absent key. *)
Module ReferenceData.
Record t := mk {
  asset_description : option string;
  reference_prompts : option (list (string * string));
  asset_items : option RefTree;
  image_urls : option (list (string * string));
  reference_prompt : option string;
  reference_image_urls : option (list string);
  style_description : option string;
  style_guidance : option string
}.

(** The empty dictionary. *)
Definition empty : t := mk None None None None None None None None.

(** [bool(reference_data)]: some key is present. *)
Definition nonempty (r : t) : bool :=
  match asset_description r, reference_prompts r, asset_items r, image_urls r,
        reference_prompt r, reference_image_urls r, style_description r,
        style_guidance r with
  | None, None, None, None, None, None, None, None => false
  | _, _, _, _, _, _, _, _ => true
  end.
End ReferenceData.

(** ** Prompt composition ([services/assets/image/*.py]) *)

(** The abstract methods of [BaseImageService]. *)
Module ImageService.
Record t := mk {
  get_module_name : string;
  _get_category_names : list string;
  build_content_prompt : Task.t -> StyleData.t -> string
}.
End ImageService.

Module Prompt.

Definition Templates := list (string * list (string * list string)).

(** The lookup shared by the three [_get_category_requirements] methods:
    the clauses of the subcategory, else those of the first subcategory of
    a known category, else the generic clauses. *)
Definition category_requirements (category_templates : Templates)
    (generic : string -> list string) (category subcategory : string)
  : list string :=
  match lookup category category_templates with
  | Some subs =>
      match lookup subcategory subs with
      | Some clauses => clauses
      | None =>
          match subs with
          | (_, clauses) :: _ => clauses
          | [] => []
          end
      end
  | None => generic category
  end.

Module Symbols.
Definition category_templates : Templates :=
  [("base_symbols",
    [("low_value",
      ["designed as a lower-value game symbol";
       "clean and recognizable design";
       "suitable for frequent appearance"]);
     ("high_value",
      ["designed as a high-value premium symbol";
       "ornate and eye-catching appearance";
       "detailed and luxurious design"])]);
   ("special_symbols",
    [("wild",
      ["designed as a WILD symbol with powerful visual impact";
       "magical or mystical elements";
       "glowing effects";
       "besides main element, should have a frame, may include 'WILD' text and optional multiplier values in the same row"]);
     ("scatter",
      ["designed as a SCATTER symbol with dynamic energy";
       "radiating or explosive visual elements";
       "sparkling effects";
       "conveys bonus trigger functionality";
       "besides main element, should have a frame"]);
     ("bonus",
      ["designed as a BONUS symbol representing rewards";
       "treasure or prize-like elements";
       "golden glow or valuable appearance"])])].

Definition generic (category : string) : list string :=
  [("designed as a " ++ category ++ " symbol")%string;
   "distinctive and clear design";
   "optimized for game use"].

Definition _get_category_requirements := category_requirements category_templates generic.

Definition build_content_prompt (task_info : Task.t) (art_style_data : StyleData.t)
  : string :=
  let base_requirements :=
    [("Create a slot machine symbol: " ++ Task.description task_info)%string;
     "high quality game asset";
     "centered composition";
     "clear silhouette";
     "suitable for slot machine gameplay"] in
  join ", " (base_requirements
             ++ _get_category_requirements (Task.category task_info)
                  (Task.subcategory task_info)).
End Symbols.

Module UI.
Definition category_templates : Templates :=
  [("buttons",
    [("main_controls",
      ["primary action button design";
       "includes Normal, Hover, and Press states";
       "prominent and easily clickable";
       "consistent shape and spacing"]);
     ("toggle_controls",
      ["toggle button showing On and Off states";
       "clear visual distinction between states";
       "includes appropriate icons"]);
     ("icon_buttons",
      ["icon-style button with clear symbol";
       "square or rounded base design";
       "clean silhouette for recognition"])]);
   ("panels",
    [("info_panels",
      ["information display panel design";
       "clear and readable layout";
       "suitable for displaying game statistics"]);
     ("game_area",
      ["game area background panel";
       "provides context without distraction";
       "balanced visual weight"])])].

Definition generic (category : string) : list string :=
  [("designed as a " ++ category ++ " UI element")%string;
   "functional and user-friendly design";
   "game interface appropriate"].

Definition _get_category_requirements := category_requirements category_templates generic.

Definition build_content_prompt (task_info : Task.t) (art_style_data : StyleData.t)
  : string :=
  let base_requirements :=
    [("Create a game UI element: " ++ Task.description task_info)%string;
     "modern and intuitive design";
     "suitable for slot machine games";
     "clean and functional appearance"] in
  join ", " (base_requirements
             ++ _get_category_requirements (Task.category task_info)
                  (Task.subcategory task_info)).
End UI.

Module Backgrounds.
Definition category_templates : Templates :=
  [("background_set",
    [("background_scene",
      ["main backdrop for slot machine game";
       "immersive and detailed environment";
       "consistent with all UI elements"]);
     ("panel_frame",
      ["panel frame with transparent center";
       "surrounds the game area like reels";
       "ornate symmetrical border";
       "designed to fit 3x5 tile layout"]);
     ("filled_panel_frame",
      ["panel frame with soft inner background fill";
       "identical shape to transparent version";
       "used as direct overlay panel";
       "maintain shape and proportions"]);
     ("tile_area",
      ["3x5 tile grid background";
       "fits seamlessly inside panel frame";
       "evenly sized tiles forming game grid";
       "textured and aligned with frame"])])].

Definition generic (category : string) : list string :=
  [("designed as a " ++ category ++ " background")%string;
   "atmospheric and engaging";
   "game-appropriate composition"].

Definition _get_category_requirements := category_requirements category_templates generic.

Definition build_content_prompt (task_info : Task.t) (art_style_data : StyleData.t)
  : string :=
  let base_requirements :=
    [("Create a game background: " ++ Task.description task_info)%string;
     "atmospheric and immersive scene";
     "suitable for slot machine games";
     "detailed but not distracting"] in
  join ", " (base_requirements
             ++ _get_category_requirements (Task.category task_info)
                  (Task.subcategory task_info)).
End Backgrounds.

Definition SymbolsService : ImageService.t :=
  ImageService.mk "symbols" ["base_symbols"; "special_symbols"]
    Symbols.build_content_prompt.

Definition UIService : ImageService.t :=
  ImageService.mk "ui" ["buttons"; "panels"] UI.build_content_prompt.

Definition BackgroundsService : ImageService.t :=
  ImageService.mk "backgrounds" ["background_set"]
    Backgrounds.build_content_prompt.

(** The clauses appended under [if reference_data:]. *)
Definition reference_parts (reference_data : option ReferenceData.t) : list string :=
  match reference_data with
  | Some r =>
      if ReferenceData.nonempty r then
        (if truthy_opt (ReferenceData.asset_description r)
         then [("Reference: " ++ get_default (ReferenceData.asset_description r) "")%string]
         else [])
        ++ (if truthy_opt (ReferenceData.reference_prompt r)
            then [("Asset reference: "
                   ++ get_default (ReferenceData.reference_prompt r) "")%string]
            else [])
      else []
  | None => []
  end.

(** [BaseImageService.build_complete_prompt] *)
Definition build_complete_prompt (self : ImageService.t) (task_info : Task.t)
    (art_style_data : StyleData.t) (reference_data : option ReferenceData.t)
  : string :=
  let content_prompt := ImageService.build_content_prompt self task_info art_style_data in
  let style_prompt :=
    get_default (StyleData.style_prompt art_style_data) "high quality artwork" in
  let quality_tags :=
    get_default (StyleData.quality_tags art_style_data)
      "high quality, professional design" in
  let prompt_parts :=
    [content_prompt;
     ("Art style: " ++ style_prompt)%string;
     ("Category: " ++ Task.category task_info
        ++ ", Subcategory: " ++ Task.subcategory task_info)%string] in
  let prompt_parts := prompt_parts ++ reference_parts reference_data in
  let resolution := Task.resolution task_info in
  let prompt_parts :=
    prompt_parts
    ++ [("Technical specs: " ++ resolution
           ++ " resolution, isolated on transparent background")%string;
        ("Quality: " ++ quality_tags)%string] in
  join ", " prompt_parts.

End Prompt.


(** ** Reference lookups ([file_processing_service.py]) *)

Module FileProcessing.

(** The three lookup paths, in the order of the source. *)
Definition lookup_paths (task_info : Task.t) : list string :=
  [(Task.category task_info ++ "." ++ Task.subcategory task_info
      ++ "." ++ Task.filename task_info)%string;
   (Task.category task_info ++ "." ++ Task.subcategory task_info)%string;
   Task.category task_info].

Definition get_reference_image_urls_for_task (task_info : Task.t)
    (image_urls : list (string * string)) : list string :=
  let category := Task.category task_info in
  let subcategory := Task.subcategory task_info in
  let filename := Task.filename task_info in
  let found_urls :=
    flat_map (fun path =>
                match lookup path image_urls with
                | Some url => [url]
                | None => []
                end) (lookup_paths task_info) in
  match found_urls with
  | [] =>
      flat_map (fun '(key, url) =>
                  if (contains category key && contains subcategory key)
                     || contains filename key
                  then [url] else []) image_urls
  | _ :: _ => found_urls
  end.

(** The sibling lookup of reference prompts returns at the first hit. *)
Definition get_reference_prompt_for_task (task_info : Task.t)
    (reference_prompts : list (string * string)) : option string :=
  let fix first (paths : list string) : option string :=
    match paths with
    | [] => None
    | path :: rest =>
        match lookup path reference_prompts with
        | Some prompt => Some prompt
        | None => first rest
        end
    end in
  first (lookup_paths task_info).

End FileProcessing.

(** ** External collaborators *)

Module InferenceParams.
Record t := mk {
  prompt : string;
  size : string;
  quality : string;
  image_url : option string;
  image_urls : option (list string);
  reference_image_description : option string;
  style_guidance : option string
}.
End InferenceParams.

(** What is asked of [run_inference]; the fixed instruction texts of the
    two style requests are not spelled out. *)
Inductive Request :=
| GenerateImage (params : InferenceParams.t)
| EnhanceStyle (custom_prompt : string) (json_response_format : bool)
| AnalyzeImages (image_urls : list string) (json_response_format : bool).

Module AiService.
Record t := mk {
  validate_model : string -> bool;
  available_models : list string;
  (** capabilities of a model; [None] when no model information exists *)
  get_model_info : string -> option (list string);
  run_inference : string -> Request -> result string
}.
End AiService.

(** An uploaded file. *)
Module UploadFile.
Record t := mk {
  filename : option string;
  content_type : string;
  content : string
}.
End UploadFile.

(** The date that [datetime.utcnow()] shows. *)
Module Date.
Record t := mk {
  year : Z;
  month : Z;
  day : Z
}.
End Date.

(** Configuration, clock, AI provider factory, JSON decoder and object
    storage. *)
Module Env.
Record t := mk {
  get_module_supported_models : string -> list string;
  get_module_default_provider : string -> string;
  (** [datetime.utcnow()] as [build_s3_output_path] reads it, at every call,
      when the image of a task is saved; the call is that of a module, of a
      job and of the position of the task in the task list of the job *)
  utcnow : string -> string -> nat -> Date.t;
  (** [build_s3_output_path] on the date read: module, job, category and
      subcategory *)
  build_s3_output_path : Date.t -> string -> string -> string -> string -> string;
  get_service : string -> result AiService.t;
  json_loads : string -> option json;
  (** upload of a generated image under a key: url and size *)
  upload_file_sync : string -> string -> result (string * Z);
  (** upload of the i-th temporary image under a file name: its key *)
  upload_temp_file : nat -> string -> result string;
  generate_presigned_url : string -> result string;
  delete_file : string -> result bool
}.
End Env.

(** ** The image handler ([image_handler.py]) *)

Inductive ImageGenerationMode := PROMPT_ONLY | REFERENCE_ASSETS.

Definition ImageGenerationMode_of_string (s : string) : option ImageGenerationMode :=
  if s =? "prompt_only" then Some PROMPT_ONLY
  else if s =? "reference_assets" then Some REFERENCE_ASSETS
  else None.

Module RequestData.
Record t := mk {
  module : string;
  model : string;
  provider : option string;
  generation_mode : ImageGenerationMode;
  generation_params : GenerationInput;
  service : ImageService.t
}.
End RequestData.

(** One generated image, as [_save_image] returns it. *)
Module Output.
Record t := mk {
  file_name : string;
  s3_key : string;
  url : string;
  category : string;
  subcategory : string;
  filename : string;
  description : string;
  index : Z;
  resolution : string;
  file_size : Z;
  has_template : bool
}.
End Output.

Inductive Status := completed | partial_completed | failed.

Module Metadata.
Record t := mk {
  total_tasks : Z;
  completed_tasks : Z;
  failed_tasks : Z
}.
End Metadata.

(** The dictionary built by [_build_result] (without the clock readings). *)
Module JobResult.
Record t := mk {
  task_id : string;
  module : string;
  status : Status;
  num_outputs : Z;
  outputs : list Output.t;
  art_style_used : StyleData.t;
  model : string;
  provider : option string;
  metadata : Metadata.t
}.
End JobResult.

(** One entry of the dictionary built by [_execute_parallel_modules]. *)
Module ModuleResult.
Record t := mk {
  module : string;
  status : Status;
  error : option Reason;
  num_outputs : Z;
  outputs : list Output.t;
  metadata : option Metadata.t
}.
End ModuleResult.

Module CompleteResult.
Record t := mk {
  task_id : string;
  status : Status;
  total_outputs : Z;
  module_results : list (string * ModuleResult.t);
  successful_modules : list string;
  failed_modules : list string
}.
End CompleteResult.

Module Handler.

Import Decomposer.

(** [self.services.get(module)] followed by the check of [_get_service]. *)
Definition _get_service (module : string) : result ImageService.t :=
  if module =? "symbols" then ret Prompt.SymbolsService
  else if module =? "ui" then ret Prompt.UIService
  else if module =? "backgrounds" then ret Prompt.BackgroundsService
  else raise (ValueError (UnsupportedModule module)).

(** [param_classes.get(module)] applied to the request dictionary. *)
Definition param_class (module : string)
  : option (RawParams.t -> result GenerationInput) :=
  if module =? "symbols" then Some DtoParams.SymbolsGenerationInput_init
  else if module =? "ui" then Some DtoParams.UIGenerationInput_init
  else if module =? "backgrounds" then Some DtoParams.BackgroundsGenerationInput_init
  else None.

Definition _parse_request (env : Env.t) (module model generation_mode : string)
    (generation_params : RawParams.t) (provider : option string)
  : result RequestData.t :=
  service <- _get_service module ;;
  match param_class module with
  | None => raise (ValueError (UnsupportedModule module))
  | Some init =>
      gen_params <- init generation_params ;;
      if negb (existsb (String.eqb model)
                 (Env.get_module_supported_models env
                    (ImageService.get_module_name service)))
      then raise (ValueError (ModelUnavailable model))
      else
        match ImageGenerationMode_of_string generation_mode with
        | None => raise (ValueError (Upstream generation_mode))
        | Some mode =>
            ret (RequestData.mk module model provider mode gen_params service)
        end
  end.

Definition _parse_generation_tasks_from_references (asset_items : RefTree)
    (generation_params : GenerationInput) : list Task.t :=
  let default_resolution := Params.default_resolution generation_params in
  flat_map (fun '(category, subcategories) =>
    flat_map (fun '(subcategory, items) =>
      flat_map (fun item =>
        map (fun index =>
               Task.mk category subcategory (RefItem.filename item)
                 (RefItem.description item) index
                 (get_default (RefItem.resolution item) default_resolution)
                 false true)
            (range1 (match RefItem.count item with Some c => c | None => 1%Z end)))
        items) subcategories) asset_items.

(** [BaseImageService.prepare_inference_params]; the entry
    [reference_image_urls] is a list here (the source also accepts a single
    string, which it stores as [image_url]). *)
Definition prepare_inference_params (base_prompt : string) (task_info : Task.t)
    (reference_data : option ReferenceData.t) : InferenceParams.t :=
  let resolution := Task.resolution task_info in
  let urls :=
    match reference_data with
    | Some r =>
        match ReferenceData.reference_image_urls r with
        | Some (u :: l) => Some (u :: l)
        | _ => None
        end
    | None => None
    end in
  let descr :=
    match reference_data with
    | Some r => if truthy_opt (ReferenceData.style_description r)
                then ReferenceData.style_description r else None
    | None => None
    end in
  let guidance :=
    match reference_data with
    | Some r => if truthy_opt (ReferenceData.style_guidance r)
                then ReferenceData.style_guidance r else None
    | None => None
    end in
  InferenceParams.mk base_prompt resolution "standard" None urls descr guidance.

(** The block of [_generate_single_image] that attaches the reference
    images found for the task. *)
Definition attach_reference_images (generation_mode : ImageGenerationMode)
    (task_info : Task.t) (reference_data : ReferenceData.t)
    (inference_params : InferenceParams.t) : InferenceParams.t :=
  match generation_mode, ReferenceData.image_urls reference_data with
  | REFERENCE_ASSETS, Some (e :: m) =>
      match FileProcessing.get_reference_image_urls_for_task task_info (e :: m) with
      | [] => inference_params
      | [url] =>
          InferenceParams.mk (InferenceParams.prompt inference_params)
            (InferenceParams.size inference_params)
            (InferenceParams.quality inference_params)
            (Some url)
            (InferenceParams.image_urls inference_params)
            (InferenceParams.reference_image_description inference_params)
            (InferenceParams.style_guidance inference_params)
      | urls =>
          InferenceParams.mk (InferenceParams.prompt inference_params)
            (InferenceParams.size inference_params)
            (InferenceParams.quality inference_params)
            (InferenceParams.image_url inference_params)
            (Some urls)
            (InferenceParams.reference_image_description inference_params)
            (InferenceParams.style_guidance inference_params)
      end
  | _, _ => inference_params
  end.

(** [f"{index:02d}"] *)
Definition format_02d (n : Z) : string :=
  let digits := NilZero.string_of_uint (N.to_uint (Z.abs_N n)) in
  if (n <? 0)%Z then ("-" ++ digits)%string
  else if (String.length digits <? 2)%nat then ("0" ++ digits)%string
  else digits.

(** [position] is the position of the task in the task list of the job; it
    tells which reading of the clock the call makes. *)
Definition _save_image (env : Env.t) (generated_data : string)
    (task_info : Task.t) (request_data : RequestData.t) (task_id : string)
    (position : nat) : result Output.t :=
  let now :=
    Env.utcnow env (RequestData.module request_data) task_id position in
  let output_path :=
    Env.build_s3_output_path env now (RequestData.module request_data) task_id
      (Task.category task_info) (Task.subcategory task_info) in
  let file_name :=
    (Task.filename task_info ++ "_" ++ format_02d (Task.index task_info)
       ++ ".png")%string in
  let s3_key := (output_path ++ file_name)%string in
  upload_result <- Env.upload_file_sync env s3_key generated_data ;;
  ret (Output.mk file_name s3_key (fst upload_result)
         (Task.category task_info) (Task.subcategory task_info)
         (Task.filename task_info) (Task.description task_info)
         (Task.index task_info) (Task.resolution task_info)
         (snd upload_result) (Task.has_template task_info)).

Definition _generate_single_image (env : Env.t) (task_info : Task.t)
    (request_data : RequestData.t) (art_style_data : StyleData.t)
    (reference_data : ReferenceData.t) (task_id : string) (position : nat)
  : result Output.t :=
  let service := RequestData.service request_data in
  let base_prompt :=
    Prompt.build_complete_prompt service task_info art_style_data
      (Some reference_data) in
  let inference_params :=
    prepare_inference_params base_prompt task_info (Some reference_data) in
  let inference_params :=
    attach_reference_images (RequestData.generation_mode request_data)
      task_info reference_data inference_params in
  let provider_name :=
    or_default (RequestData.provider request_data)
      (Env.get_module_default_provider env (RequestData.module request_data)) in
  ai_service <- Env.get_service env provider_name ;;
  generated <- AiService.run_inference ai_service (RequestData.model request_data)
                 (GenerateImage inference_params) ;;
  _save_image env generated task_info request_data task_id position.

(** The task list chosen by [_execute_generation]. *)
Definition generation_tasks (request_data : RequestData.t)
    (reference_data : option ReferenceData.t) : list Task.t :=
  match RequestData.generation_mode request_data, reference_data with
  | REFERENCE_ASSETS, Some r =>
      match ReferenceData.nonempty r, ReferenceData.asset_items r with
      | true, Some (c :: t) =>
          _parse_generation_tasks_from_references (c :: t)
            (RequestData.generation_params request_data)
      | _, _ => _parse_generation_tasks (RequestData.generation_params request_data)
      end
  | _, _ => _parse_generation_tasks (RequestData.generation_params request_data)
  end.

(** [asyncio.gather(..., return_exceptions=True)] over the tasks. *)
Definition gather_tasks (env : Env.t) (request_data : RequestData.t)
    (art_style_data : StyleData.t) (task_id : string)
    (reference_data : option ReferenceData.t) : list (result Output.t) :=
  map (fun numbered =>
         _generate_single_image env (snd numbered) request_data art_style_data
           (match reference_data with
            | Some r => r
            | None => ReferenceData.empty
            end) task_id (fst numbered))
      (enumerate (generation_tasks request_data reference_data)).

(** The results that are not exceptions, in task order. *)
Fixpoint successful_results (results : list (result Output.t)) : list Output.t :=
  match results with
  | [] => []
  | inr r :: rest => r :: successful_results rest
  | inl _ :: rest => successful_results rest
  end.

Definition _execute_generation (env : Env.t) (request_data : RequestData.t)
    (art_style_data : StyleData.t) (task_id : string)
    (reference_data : option ReferenceData.t) : list Output.t :=
  successful_results
    (gather_tasks env request_data art_style_data task_id reference_data).

(** The status expression of [_build_result] and of
    [_execute_parallel_modules]. *)
Definition status_of (outputs : list Output.t) (total_tasks : nat) : Status :=
  if (length outputs =? total_tasks)%nat then completed
  else match outputs with
       | _ :: _ => partial_completed
       | [] => failed
       end.

Definition metadata_of (outputs : list Output.t) (total_tasks : nat) : Metadata.t :=
  Metadata.mk (Z.of_nat total_tasks) (Z.of_nat (length outputs))
    (Z.of_nat total_tasks - Z.of_nat (length outputs)).

Definition _build_result (outputs : list Output.t) (request_data : RequestData.t)
    (task_id : string) (art_style_data : StyleData.t) : JobResult.t :=
  let total_tasks :=
    length (_parse_generation_tasks (RequestData.generation_params request_data)) in
  let status := status_of outputs total_tasks in
  JobResult.mk task_id (RequestData.module request_data) status
    (Z.of_nat (length outputs)) outputs art_style_data
    (RequestData.model request_data) (RequestData.provider request_data)
    (metadata_of outputs total_tasks).

(** The entry built for one module from what [gather] returned for it. *)
Definition module_result (module_name : string) (request_data : RequestData.t)
    (result : Py.result (list Output.t)) : ModuleResult.t :=
  match result with
  | inl e =>
      ModuleResult.mk module_name failed (Some (str_exc e)) 0 [] None
  | inr outputs =>
      let total_tasks :=
        length (_parse_generation_tasks
                  (RequestData.generation_params request_data)) in
      let status := status_of outputs total_tasks in
      ModuleResult.mk module_name status None (Z.of_nat (length outputs))
        outputs (Some (metadata_of outputs total_tasks))
  end.

Definition _execute_parallel_modules (env : Env.t)
    (module_requests : list (string * (RequestData.t * StyleData.t)))
    (reference_data : option ReferenceData.t) (task_id : string)
  : list (string * ModuleResult.t) :=
  map (fun '(module_name, (request_data, art_style_data)) =>
         (module_name,
          module_result module_name request_data
            (ret (_execute_generation env request_data art_style_data task_id
                    reference_data))))
      module_requests.

Definition status_eqb (a b : Status) : bool :=
  match a, b with
  | completed, completed | partial_completed, partial_completed
  | failed, failed => true
  | _, _ => false
  end.

Definition _build_complete_result
    (module_results : list (string * ModuleResult.t)) (task_id : string)
  : CompleteResult.t :=
  let statuses := map (fun '(_, r) => ModuleResult.status r) module_results in
  let total_outputs :=
    fold_right Z.add 0%Z
      (map (fun '(_, r) => ModuleResult.num_outputs r) module_results) in
  let all_completed := forallb (status_eqb completed) statuses in
  let any_completed :=
    existsb (fun st => status_eqb st completed || status_eqb st partial_completed)
      statuses in
  let overall_status :=
    if all_completed then completed
    else if any_completed then partial_completed else failed in
  CompleteResult.mk task_id overall_status total_outputs module_results
    (map fst (filter (fun '(_, r) => status_eqb (ModuleResult.status r) completed)
                module_results))
    (map fst (filter (fun '(_, r) => status_eqb (ModuleResult.status r) failed)
                module_results)).

End Handler.


(** ** Art style resolution ([art_style_service.py]) *)

(** [ArtStyleComponents] *)
Module ArtStyleComponents.
Record t := mk {
  base_prompt : string;
  color_palette : option string;
  effects : option string;
  materials : option string;
  lighting : option string;
  description : option string
}.

(** Construction with [validate_base_prompt]. *)
Definition init (raw : t) : result t :=
  if negb (truthy (base_prompt raw)) || negb (truthy (strip (base_prompt raw)))
  then raise (PydanticValidationError BasePromptEmpty)
  else ret (mk (strip (base_prompt raw)) (color_palette raw) (effects raw)
              (materials raw) (lighting raw) (description raw)).
End ArtStyleComponents.

Module ThemeConfig.
Record t := mk {
  name : string;
  base_prompt : string;
  color_palette : string;
  effects : string;
  materials : string;
  lighting : string;
  description : string
}.
End ThemeConfig.

(** What [_upload_temp_image] returns. *)
Module UploadResult.
Record t := mk {
  presigned_url : string;
  s3_key : string
}.
End UploadResult.

Module ArtStyle.

Definition preset_themes : list (string * ThemeConfig.t) :=
  [("fantasy_medieval",
    ThemeConfig.mk "Fantasy Medieval"
      "fantasy art, medieval style, detailed illustration"
      "rich gold, deep red, royal blue, ancient bronze"
      "glowing magical effect, mystical aura"
      "aged parchment, worn metal, mystical gems"
      "warm torchlight, mysterious shadows"
      "Medieval fantasy style with rich colors and magical elements");
   ("cyberpunk_neon",
    ThemeConfig.mk "Cyberpunk Neon"
      "cyberpunk style, neon aesthetic, futuristic design"
      "electric blue, hot pink, acid green, chrome silver"
      "neon glow, holographic shimmer, digital distortion"
      "sleek metal, glass panels, LED strips"
      "harsh neon lighting, dramatic shadows"
      "Futuristic cyberpunk with neon colors and high-tech aesthetics");
   ("steampunk_bronze",
    ThemeConfig.mk "Steampunk Bronze"
      "steampunk style, Victorian era, mechanical design"
      "brass, copper, bronze, dark leather brown"
      "steam effects, gear mechanisms, clockwork details"
      "polished brass, worn leather, riveted metal"
      "warm gas lamp glow, industrial shadows"
      "Victorian steampunk with brass and mechanical elements");
   ("cosmic_space",
    ThemeConfig.mk "Cosmic Space"
      "cosmic space theme, sci-fi aesthetic, stellar design"
      "deep purple, starlight blue, cosmic gold, void black"
      "stellar glow, nebula patterns, cosmic energy"
      "crystalline structures, energy fields, metallic hull"
      "starlight, cosmic radiation glow"
      "Space-themed design with cosmic colors and stellar effects");
   ("nature_organic",
    ThemeConfig.mk "Nature Organic"
      "organic nature style, natural elements, earthy design"
      "forest green, earth brown, sky blue, sunset orange"
      "natural texture, organic growth patterns, flowing forms"
      "wood grain, stone texture, flowing water"
      "natural sunlight, forest dappled light"
      "Natural organic style with earth tones and organic shapes");
   ("dark_gothic",
    ThemeConfig.mk "Dark Gothic"
      "dark gothic style, ornate details, dramatic atmosphere"
      "deep black, blood red, silver, dark purple"
      "dramatic shadows, ornate patterns, gothic details"
      "carved stone, wrought iron, stained glass"
      "candlelight, moonlight, dramatic chiaroscuro"
      "Gothic architecture style with dark colors and ornate details");
   ("chinese_traditional",
    ThemeConfig.mk "Chinese Traditional"
      "traditional Chinese art style, ink painting, classical design"
      "imperial red, golden yellow, jade green, ink black"
      "ink wash effects, flowing brush strokes, traditional patterns"
      "silk texture, bamboo elements, jade stones, rice paper"
      "soft natural light, traditional lantern glow"
      "Traditional Chinese art with classical colors and cultural elements");
   ("space_scifi",
    ThemeConfig.mk "Space Sci-Fi"
      "space science fiction, futuristic technology, stellar environment"
      "electric blue, plasma purple, tech silver, void black"
      "energy fields, holographic displays, stellar phenomena"
      "advanced alloys, energy crystals, quantum materials"
      "artificial tech lighting, star field glow, energy emissions"
      "Advanced sci-fi space theme with high-tech elements and cosmic setting")].

Definition quality_tags : string :=
  "high quality, game asset style, professional design".

(** The three clauses closing every style prompt. *)
Definition closing_parts : list json :=
  [JStr "isolated on transparent background";
   JStr "centered design, game asset style";
   JStr "high quality, professional design"].

(** [[part for part in style_parts if part and part.strip()]]: a falsy part
    is dropped, a truthy part must have a [strip] method. *)
Fixpoint filter_parts (parts : list json) : result (list string) :=
  match parts with
  | [] => ret []
  | part :: rest =>
      if negb (json_truthy part) then filter_parts rest
      else match part with
           | JStr text =>
               rest' <- filter_parts rest ;;
               ret (if truthy (strip text) then text :: rest' else rest')
           | _ => raise (AttributeError (NoSuchAttribute "strip"))
           end
  end.

Definition JOpt (o : option string) : json :=
  match o with Some text => JStr text | None => JNull end.

(** [d.get(k, default)] on a decoded object. *)
Definition get_json (k : string) (d : list (string * json)) (default : json) : json :=
  match lookup k d with Some v => v | None => default end.

Definition validate_preset_theme (theme_name : string) : bool :=
  has_key theme_name preset_themes.

Definition generate_preset_style (preset_theme : string) : result StyleData.t :=
  if negb (truthy preset_theme) then raise (ValueError (UnknownPresetTheme preset_theme))
  else
    match lookup preset_theme preset_themes with
    | None => raise (ValueError (UnknownPresetTheme preset_theme))
    | Some theme_config =>
        let style_components :=
          [ThemeConfig.base_prompt theme_config;
           ThemeConfig.color_palette theme_config;
           ThemeConfig.effects theme_config;
           ThemeConfig.materials theme_config;
           ThemeConfig.lighting theme_config;
           "isolated on transparent background";
           "centered design, game asset style";
           "high quality, professional design"] in
        let style_components :=
          filter (fun comp => truthy (strip comp)) style_components in
        ret (StyleData.mk (Some (join ", " style_components)) (Some "preset")
               (Some [("base_prompt", JStr (ThemeConfig.base_prompt theme_config));
                      ("color_palette", JStr (ThemeConfig.color_palette theme_config));
                      ("effects", JStr (ThemeConfig.effects theme_config));
                      ("materials", JStr (ThemeConfig.materials theme_config));
                      ("lighting", JStr (ThemeConfig.lighting theme_config));
                      ("description", JStr (ThemeConfig.description theme_config))])
               (Some quality_tags))
    end.

Definition generate_custom_direct_style (style_components : ArtStyleComponents.t)
  : result StyleData.t :=
  let c := style_components in
  style_parts <-
    filter_parts
      ([JStr (ArtStyleComponents.base_prompt c);
        JOpt (ArtStyleComponents.color_palette c);
        JOpt (ArtStyleComponents.effects c);
        JOpt (ArtStyleComponents.materials c);
        JOpt (ArtStyleComponents.lighting c)] ++ closing_parts) ;;
  ret (StyleData.mk (Some (join ", " style_parts)) (Some "custom_direct")
         (Some [("base_prompt", JStr (ArtStyleComponents.base_prompt c));
                ("color_palette", JOpt (ArtStyleComponents.color_palette c));
                ("effects", JOpt (ArtStyleComponents.effects c));
                ("materials", JOpt (ArtStyleComponents.materials c));
                ("lighting", JOpt (ArtStyleComponents.lighting c))])
         (Some quality_tags)).

(** [key in value] on a decoded document. *)
Definition py_in (key : string) (value : json) : result bool :=
  match value with
  | JObj fields => ret (has_key key fields)
  | JStr text => ret (contains key text)
  | JArr items =>
      ret (existsb (fun e => match e with
                             | JStr text => String.eqb text key
                             | _ => false
                             end) items)
  | _ => raise (TypeError NotIterable)
  end.

(** [value[key]] with a string key. *)
Definition py_getitem (value : json) (key : string) : result json :=
  match value with
  | JObj fields =>
      match lookup key fields with
      | Some v => ret v
      | None => raise (KeyError key)
      end
  | _ => raise (TypeError BadIndex)
  end.

Definition required_fields : list string :=
  ["base_prompt"; "color_palette"; "effects"; "materials"; "lighting";
   "description"].

(** The loop collecting [missing_fields]. *)
Fixpoint missing_fields (fields : list string) (components : json)
  : result (list string) :=
  match fields with
  | [] => ret []
  | field :: rest =>
      present <- py_in field components ;;
      rest' <- missing_fields rest components ;;
      ret (if present then rest' else field :: rest')
  end.

(** [if components[field] is None: components[field] = ""] over [fields]. *)
Fixpoint none_to_empty (fields : list string) (components : list (string * json))
  : list (string * json) :=
  match fields with
  | [] => components
  | field :: rest =>
      none_to_empty rest
        (match lookup field components with
         | Some JNull => store field (JStr "") components
         | _ => components
         end)
  end.

Definition json_models : list string := ["gpt-4o"; "gpt-4-turbo"; "gpt-3.5-turbo"].
Definition json_vision_models : list string := ["gpt-4o"; "gpt-4-turbo"].

(** The part of [_generate_enhanced_style_with_components] that follows
    the inference call: decoding and validation of the response. *)
Definition parse_enhanced_response (env : Env.t) (custom_prompt response : string)
  : result (list (string * json) * json) :=
  match Env.json_loads env (strip response) with
  | None => raise (ValueError NotValidJson)
  | Some parsed_result =>
      present <- py_in "components" parsed_result ;;
      if negb present then raise (ValueError MissingComponentsField)
      else
        components <- py_getitem parsed_result "components" ;;
        missing <- missing_fields required_fields components ;;
        match missing with
        | _ :: _ => raise (ValueError (MissingRequiredFields missing))
        | [] =>
            match components, parsed_result with
            | JObj fields, JObj top =>
                let base := get_json "base_prompt" fields JNull in
                fields1 <-
                  (if negb (json_truthy base)
                   then ret (store "base_prompt" (JStr custom_prompt) fields)
                   else match base with
                        | JStr text =>
                            ret (if negb (truthy (strip text))
                                 then store "base_prompt" (JStr custom_prompt) fields
                                 else fields)
                        | _ => raise (AttributeError (NoSuchAttribute "strip"))
                        end) ;;
                let fields2 :=
                  none_to_empty ["color_palette"; "effects"; "materials";
                                 "lighting"; "description"] fields1 in
                ret (fields2, get_json "enhanced_prompt" top (JStr custom_prompt))
            | _, _ => raise (AttributeError (NoSuchAttribute "get"))
            end
        end
  end.

Definition _generate_enhanced_style_with_components (env : Env.t)
    (custom_prompt provider model : string)
  : result (list (string * json) * json) :=
  ai_service <- Env.get_service env provider ;;
  response <- AiService.run_inference ai_service model
                (EnhanceStyle custom_prompt (existsb (String.eqb model) json_models)) ;;
  parse_enhanced_response env custom_prompt response.

(** The checks opening both AI resolvers. *)
Definition check_model (env : Env.t) (provider model capability1 capability2 : string)
    (missing : Reason) : result AiService.t :=
  ai_service <- Env.get_service env provider ;;
  if negb (AiService.validate_model ai_service model)
  then raise (ValueError (ModelNotForProvider model provider))
  else
    match AiService.get_model_info ai_service model with
    | Some capabilities =>
        if negb (existsb (String.eqb capability1) capabilities)
           && negb (existsb (String.eqb capability2) capabilities)
        then raise (ValueError missing)
        else ret ai_service
    | None => ret ai_service
    end.

Definition generate_custom_ai_enhanced_style (env : Env.t)
    (custom_prompt provider model : string) : result StyleData.t :=
  _ <- check_model env provider model "text_generation" "text_generation"
         (NoTextGeneration model) ;;
  let custom_prompt := strip custom_prompt in
  ai_result <- _generate_enhanced_style_with_components env custom_prompt
                 provider model ;;
  let enhanced_components := fst ai_result in
  style_parts <-
    filter_parts
      ([get_json "base_prompt" enhanced_components (JStr "");
        get_json "color_palette" enhanced_components (JStr "");
        get_json "effects" enhanced_components (JStr "");
        get_json "materials" enhanced_components (JStr "");
        get_json "lighting" enhanced_components (JStr "")] ++ closing_parts) ;;
  ret (StyleData.mk (Some (join ", " style_parts)) (Some "custom_ai_enhanced")
         (Some enhanced_components) (Some quality_tags)).

(** The part of [_analyze_images_and_generate_components] that follows the
    inference call; the decoded document is returned with its components
    updated in place. *)
Definition parse_analysis_response (env : Env.t) (response : string)
  : result (list (string * json)) :=
  match Env.json_loads env (strip response) with
  | None => raise (ValueError NotValidJson)
  | Some parsed_result =>
      has_components <- py_in "components" parsed_result ;;
      has_description <-
        (if has_components then py_in "style_description" parsed_result
         else ret false) ;;
      if negb has_components || negb has_description
      then raise (ValueError MissingComponentsOrDescription)
      else
        components <- py_getitem parsed_result "components" ;;
        missing <- missing_fields required_fields components ;;
        match missing with
        | _ :: _ => raise (ValueError (MissingRequiredFields missing))
        | [] =>
            match components, parsed_result with
            | JObj fields, JObj top =>
                ret (store "components"
                       (JObj (none_to_empty required_fields fields)) top)
            | _, _ => raise (TypeError BadIndex)
            end
        end
  end.

Definition _analyze_images_and_generate_components (env : Env.t)
    (image_urls : list string) (provider model : string)
  : result (list (string * json)) :=
  ai_service <- Env.get_service env provider ;;
  response <- AiService.run_inference ai_service model
                (AnalyzeImages image_urls
                   (existsb (String.eqb model) json_vision_models)) ;;
  parse_analysis_response env response.

End ArtStyle.

(** ** Temporary reference images ([art_style_service.py]) *)

(** Calls that reach the object storage, in the order they are made. *)
Inductive StorageEvent :=
| Uploaded (key : string)
| DeleteInvoked (key : string).

Module Storage.

(** The storage log and the local list [upload_results] of
    [generate_reference_image_style]. *)
Record State := mkState {
  events : list StorageEvent;
  upload_results : list UploadResult.t
}.

Definition initial : State := mkState [] [].

(** A computation that reads and extends the state and may raise. *)
Definition M (A : Type) : Type := State -> State * result A.

#[global] Instance Monad_M : Monad M :=
  {| ret := fun _ x st => (st, inr x);
     bind := fun _ _ c k st =>
               match c st with
               | (st', inl e) => (st', inl e)
               | (st', inr x) => k x st'
               end |}.

Definition lift {A : Type} (r : result A) : M A := fun st => (st, r).

Definition emit (e : StorageEvent) : M unit :=
  fun st => (mkState (events st ++ [e]) (upload_results st), inr tt).

Definition append_upload_result (u : UploadResult.t) : M unit :=
  fun st => (mkState (events st) (upload_results st ++ [u]), inr tt).

Definition get_upload_results : M (list UploadResult.t) :=
  fun st => (st, inr (upload_results st)).

(** [try: body finally: final]; an exception of [final] replaces the
    outcome of [body]. *)
Definition try_finally {A : Type} (body : M A) (final : M unit) : M A :=
  fun st =>
    match body st with
    | (st1, outcome) =>
        match final st1 with
        | (st2, inl e) => (st2, inl e)
        | (st2, inr _) => (st2, outcome)
        end
    end.

End Storage.

Module TempImages.

Import Storage.

(** [name.rsplit('.', 1)] when it has two parts. *)
Fixpoint rsplit_dot (name : string) : option (string * string) :=
  match name with
  | EmptyString => None
  | String c rest =>
      match rsplit_dot rest with
      | Some (a, b) => Some (String c a, b)
      | None => if Ascii.eqb c "."%char then Some (EmptyString, rest) else None
      end
  end.

Definition suffixed_name (original_name suffix : string) : string :=
  if truthy suffix then
    match rsplit_dot original_name with
    | Some (stem, extension) => (stem ++ suffix ++ "." ++ extension)%string
    | None => (original_name ++ suffix)%string
    end
  else original_name.

(** [_upload_temp_image] for the i-th image: upload, then signed URL. *)
Definition _upload_temp_image (env : Env.t) (i : nat) (image_file : UploadFile.t)
    (suffix : string) : M UploadResult.t :=
  let original_name := or_default (UploadFile.filename image_file) "image" in
  let file_name := suffixed_name original_name suffix in
  key <- lift (Env.upload_temp_file env i file_name) ;;
  emit (Uploaded key) ;;
  presigned_url <- lift (Env.generate_presigned_url env key) ;;
  ret (UploadResult.mk presigned_url key).

(** [_cleanup_temp_image]: every exception of the delete is caught. *)
Definition _cleanup_temp_image (env : Env.t) (s3_key : string) : M bool :=
  emit (DeleteInvoked s3_key) ;;
  match Env.delete_file env s3_key with
  | inr success => ret success
  | inl _ => ret false
  end.

(** The [finally] block: one cleanup per recorded upload result. *)
Fixpoint cleanup_each (env : Env.t) (results : list UploadResult.t) : M unit :=
  match results with
  | [] => ret tt
  | upload_result :: rest =>
      _cleanup_temp_image env (UploadResult.s3_key upload_result) ;;
      cleanup_each env rest
  end.

Definition cleanup_all (env : Env.t) : M unit :=
  results <- get_upload_results ;;
  cleanup_each env results.

(** The upload loop, from index [i] on; it returns the signed URLs. *)
Fixpoint upload_each (env : Env.t) (i : nat) (images : list UploadFile.t)
  : M (list string) :=
  match images with
  | [] => ret []
  | image :: rest =>
      upload_result <-
        _upload_temp_image env i image
          ("_img_" ++ NilZero.string_of_uint (Nat.to_uint i))%string ;;
      append_upload_result upload_result ;;
      urls <- upload_each env (S i) rest ;;
      ret (UploadResult.presigned_url upload_result :: urls)
  end.

(** [reference_images[:max_images]] *)
Definition take (max_images : Z) (images : list UploadFile.t) : list UploadFile.t :=
  if (0 <=? max_images)%Z then firstn (Z.to_nat max_images) images
  else firstn (Z.to_nat (Z.of_nat (length images) + max_images)) images.

(** The [try] block of [generate_reference_image_style]. *)
Definition resolve (env : Env.t) (reference_images : list UploadFile.t)
    (provider model : string) (max_images : Z) : M StyleData.t :=
  _ <- lift (ArtStyle.check_model env provider model "image_analysis"
               "multimodal" (NoImageAnalysis model)) ;;
  match reference_images with
  | [] => lift (raise (ValueError NeedReferenceImage))
  | _ :: _ =>
      let reference_images :=
        if (max_images <? Z.of_nat (length reference_images))%Z
        then take max_images reference_images else reference_images in
      presigned_urls <- upload_each env 0 reference_images ;;
      analysis_result <-
        lift (ArtStyle._analyze_images_and_generate_components env
                presigned_urls provider model) ;;
      match ArtStyle.get_json "components" analysis_result JNull with
      | JObj enhanced_components =>
          style_parts <-
            lift (ArtStyle.filter_parts
                    ([ArtStyle.get_json "style_description" analysis_result (JStr "");
                      ArtStyle.get_json "color_palette" enhanced_components (JStr "");
                      ArtStyle.get_json "effects" enhanced_components (JStr "");
                      ArtStyle.get_json "materials" enhanced_components (JStr "");
                      ArtStyle.get_json "lighting" enhanced_components (JStr "")]
                     ++ ArtStyle.closing_parts)) ;;
          ret (StyleData.mk (Some (join ", " style_parts)) (Some "reference_image")
                 (Some enhanced_components) (Some ArtStyle.quality_tags))
      | _ => lift (raise (AttributeError (NoSuchAttribute "get")))
      end
  end.

Definition generate_reference_image_style (env : Env.t)
    (reference_images : list UploadFile.t) (provider model : string)
    (max_images : Z) : M StyleData.t :=
  try_finally (resolve env reference_images provider model max_images)
    (cleanup_all env).

(** One call, from an empty log. *)
Definition run (env : Env.t) (reference_images : list UploadFile.t)
    (provider model : string) (max_images : Z)
  : State * result StyleData.t :=
  generate_reference_image_style env reference_images provider model max_images
    Storage.initial.

(** The keys uploaded, and the keys whose deletion was invoked. *)
Definition uploaded_keys (log : list StorageEvent) : list string :=
  flat_map (fun e => match e with Uploaded k => [k] | _ => [] end) log.

Definition deleted_keys (log : list StorageEvent) : list string :=
  flat_map (fun e => match e with DeleteInvoked k => [k] | _ => [] end) log.

(** The same collaborators with another [delete_file]. *)
Definition with_delete_file (env : Env.t) (delete_file : string -> result bool)
  : Env.t :=
  Env.mk (Env.get_module_supported_models env) (Env.get_module_default_provider env)
    (Env.utcnow env) (Env.build_s3_output_path env) (Env.get_service env)
    (Env.json_loads env)
    (Env.upload_file_sync env) (Env.upload_temp_file env)
    (Env.generate_presigned_url env) delete_file.

(** The same collaborators with another [generate_presigned_url]. *)
Definition with_presigned_url (env : Env.t) (presign : string -> result string)
  : Env.t :=
  Env.mk (Env.get_module_supported_models env) (Env.get_module_default_provider env)
    (Env.utcnow env) (Env.build_s3_output_path env) (Env.get_service env)
    (Env.json_loads env)
    (Env.upload_file_sync env) (Env.upload_temp_file env)
    presign (Env.delete_file env).

End TempImages.

(** ** Emptiness of a component *)

(** A [base_prompt] that is empty after parsing: a falsy value or blank
    text. *)
Definition base_prompt_empty (v : json) : bool :=
  negb (json_truthy v)
  || match v with
     | JStr text => negb (truthy (strip text))
     | _ => false
     end.

(** [components.base_prompt] of a style descriptor is the empty string, is
    null, or is absent. *)
Definition base_prompt_missing (style : StyleData.t) : bool :=
  match StyleData.components style with
  | Some components =>
      match lookup "base_prompt" components with
      | Some v => negb (json_truthy v)
      | None => true
      end
  | None => true
  end.

Definition optional_fields : list string :=
  ["color_palette"; "effects"; "materials"; "lighting"; "description"].

(** ** The art style handler ([art_style_handler.py]) *)

Module ArtStyleHandler.

(** [except HTTPException: raise] and
    [except Exception as e: raise HTTPException(500, prefix + str(e))]. *)
Definition wrap500 {A : Type} (prefix : string) (r : result A) : result A :=
  match r with
  | inl (HTTPException code detail) => inl (HTTPException code detail)
  | inl e => inl (HTTPException 500 (Wrapped prefix (str_exc e)))
  | inr x => inr x
  end.

Definition handle_preset_style_generation (preset_theme : option string)
  : result StyleData.t :=
  wrap500 "preset"
    (match preset_theme with
     | Some theme =>
         if negb (ArtStyle.validate_preset_theme theme)
         then raise (HTTPException 400 (UnknownPresetTheme theme))
         else ArtStyle.generate_preset_style theme
     | None => raise (HTTPException 400 (UnknownPresetTheme "None"))
     end).

(** The argument is an [ArtStyleComponents] object, or, when the image
    handler passes [ArtStyleConfig.style_components] on, a plain dictionary
    (or [None]), which has no attribute [base_prompt]. *)
Definition handle_custom_direct_style_generation
    (style_components : ArtStyleComponents.t + option (list (string * json)))
  : result StyleData.t :=
  wrap500 "custom_direct"
    (match style_components with
     | inl components =>
         if negb (truthy (ArtStyleComponents.base_prompt components))
         then raise (HTTPException 400 BasePromptEmpty)
         else ArtStyle.generate_custom_direct_style components
     | inr _ => raise (AttributeError (NoSuchAttribute "base_prompt"))
     end).

Definition handle_custom_ai_enhanced_style_generation (env : Env.t)
    (custom_prompt : option string) (provider model : string)
  : result StyleData.t :=
  wrap500 "custom_ai_enhanced"
    (match custom_prompt with
     | Some text =>
         if negb (truthy text) || negb (truthy (strip text))
         then raise (HTTPException 400 CustomPromptEmpty)
         else if (500 <? len (strip text))%nat
         then raise (HTTPException 400 CustomPromptTooLong)
         else ArtStyle.generate_custom_ai_enhanced_style env (strip text)
                provider model
     | None => raise (HTTPException 400 CustomPromptEmpty)
     end).

End ArtStyleHandler.

(** ** Entry points of the image handler *)

Module ImageHandler.

Import Handler.

(** The style substituted when the resolution raises. *)
Definition fallback_style : StyleData.t :=
  StyleData.mk (Some "high quality, detailed artwork") (Some "fallback")
    (Some [("base_prompt", JStr "high quality artwork");
           ("description", JStr "使用回退风格")])
    (Some "high quality, professional design").

Definition _generate_art_style (env : Env.t) (art_style_config : ArtStyleConfig.t)
  : StyleData.t :=
  let provider := get_default (ArtStyleConfig.ai_provider art_style_config) "None" in
  let model := get_default (ArtStyleConfig.ai_model art_style_config) "None" in
  let outcome :=
    match ArtStyleConfig.mode art_style_config with
    | PRESET =>
        ArtStyleHandler.handle_preset_style_generation
          (ArtStyleConfig.preset_theme art_style_config)
    | CUSTOM_DIRECT =>
        ArtStyleHandler.handle_custom_direct_style_generation
          (inr (ArtStyleConfig.style_components art_style_config))
    | CUSTOM_AI_ENHANCED =>
        ArtStyleHandler.handle_custom_ai_enhanced_style_generation env
          (ArtStyleConfig.custom_prompt art_style_config) provider model
    | REFERENCE_IMAGE => raise (ValueError (Upstream "reference_image"))
    end in
  match outcome with
  | inr style => style
  | inl _ => fallback_style
  end.

(** [except Exception as e: raise HTTPException(400, str(e))] *)
Definition wrap400 {A : Type} (r : result A) : result A :=
  match r with
  | inl e => inl (HTTPException 400 (str_exc e))
  | inr x => inr x
  end.

Definition handle_module_generation_json (env : Env.t)
    (module model generation_mode : string) (generation_params : RawParams.t)
    (provider : option string) (task_id : string) : result JobResult.t :=
  wrap400
    (if negb (generation_mode =? "prompt_only")
     then raise (ValueError PromptOnlyInterface)
     else
       request_data <- _parse_request env module model generation_mode
                         generation_params provider ;;
       let art_style_data :=
         _generate_art_style env
           (Params.art_style (RequestData.generation_params request_data)) in
       let outputs :=
         _execute_generation env request_data art_style_data task_id None in
       ret (_build_result outputs request_data task_id art_style_data)).

(** The content attributes of the parameter class of a module. *)
Definition content_buckets (module : string) : list string :=
  if module =? "symbols" then ["base_symbols"; "special_symbols"; "custom_content"]
  else if module =? "ui" then ["buttons"; "panels"; "custom_content"]
  else if module =? "backgrounds" then ["background_set"; "custom_content"]
  else [].

(** No content bucket of the request contains an item. *)
Definition no_item_declared (module : string) (raw : RawParams.t) : bool :=
  forallb (fun name =>
             match lookup name (RawParams.buckets raw) with
             | Some d => forallb (fun '(_, items) =>
                                    match items with [] => true | _ => false end) d
             | None => true
             end)
          (content_buckets module).

(** Every content bucket of the request is absent or an empty
    dictionary. *)
Definition no_bucket_provided (module : string) (raw : RawParams.t) : bool :=
  forallb (fun name => negb (bucket_truthy (lookup name (RawParams.buckets raw))))
          (content_buckets module).

Definition recognized (module : string) : bool :=
  (module =? "symbols") || (module =? "ui") || (module =? "backgrounds").

End ImageHandler.

(** ** The clauses as the specification words them *)

Module Worded.

(** The prompt in the order and with the clauses of the specification: the
    technical clause is exactly "{resolution} resolution, isolated on
    transparent background". *)
Definition complete_prompt (self : ImageService.t) (task_info : Task.t)
    (art_style_data : StyleData.t) (reference_data : option ReferenceData.t)
  : string :=
  join ", "
    ([ImageService.build_content_prompt self task_info art_style_data;
      ("Art style: "
         ++ get_default (StyleData.style_prompt art_style_data)
              "high quality artwork")%string;
      ("Category: " ++ Task.category task_info
         ++ ", Subcategory: " ++ Task.subcategory task_info)%string]
     ++ Prompt.reference_parts reference_data
     ++ [(Task.resolution task_info
            ++ " resolution, isolated on transparent background")%string;
         ("Quality: "
            ++ get_default (StyleData.quality_tags art_style_data)
                 "high quality, professional design")%string]).

(** The lookup of the specification: the URL under the highest-priority
    key that is present, and nothing else. *)
Definition best_match (task_info : Task.t) (image_urls : list (string * string))
  : list string :=
  let fix first (paths : list string) : list string :=
    match paths with
    | [] => []
    | path :: rest =>
        match lookup path image_urls with
        | Some url => [url]
        | None => first rest
        end
    end in
  first (FileProcessing.lookup_paths task_info).

End Worded.

(** The clauses of the reference data as they appear in the prompt, each
    preceded by the separator. *)
Definition reference_clauses (reference_data : option ReferenceData.t) : string :=
  fold_right (fun clause rest => (", " ++ clause ++ rest)%string) ""
    (Prompt.reference_parts reference_data).

(** The URLs found under the three lookup keys, in priority order. *)
Definition present_urls (task_info : Task.t) (image_urls : list (string * string))
  : list string :=
  flat_map (fun path =>
              match lookup path image_urls with
              | Some url => [url]
              | None => []
              end) (FileProcessing.lookup_paths task_info).

(** The fuzzy fallback of [get_reference_image_urls_for_task]. *)
Definition fuzzy_matches (task_info : Task.t) (image_urls : list (string * string))
  : list string :=
  flat_map (fun '(key, url) =>
              if (contains (Task.category task_info) key
                  && contains (Task.subcategory task_info) key)
                 || contains (Task.filename task_info) key
              then [url] else []) image_urls.

(** ** Reference data kept by the handler *)

(** What [process_asset_references] returns for an archive. *)
Module AssetResult.
Record t := mk {
  processing_success : bool;
  reference_prompts : list (string * string);
  asset_items : RefTree;
  image_urls : list (string * string)
}.
End AssetResult.

(** Step 2 of [_process_files_and_art_style]: the [reference_data] built
    from the outcome of the ingestion of the archive [asset_references]. *)
Definition reference_data_of (generation_mode : ImageGenerationMode)
    (asset_references : option UploadFile.t)
    (asset_result : result AssetResult.t) : ReferenceData.t :=
  match generation_mode, asset_references with
  | REFERENCE_ASSETS, Some archive =>
      let name := get_default (UploadFile.filename archive) "None" in
      match asset_result with
      | inr found =>
          if AssetResult.processing_success found then
            ReferenceData.mk (Some ("Asset references from " ++ name)%string)
              (Some (AssetResult.reference_prompts found))
              (Some (AssetResult.asset_items found))
              None None None None None
          else ReferenceData.empty
      | inl _ =>
          ReferenceData.mk (Some ("Asset references: " ++ name)%string)
            None None None None None None None
      end
  | _, _ => ReferenceData.empty
  end.

(** ** The status rule as the specification words it *)

(** [completed] iff successes == total > 0, [partial_completed] iff
    0 < successes < total, [failed] iff successes == 0. *)
Definition status_rule_of_spec (st : Status) (successes total : nat) : Prop :=
  (st = completed <-> successes = total /\ 0 < total)
  /\ (st = partial_completed <-> 0 < successes /\ successes < total)
  /\ (st = failed <-> successes = 0).

(** The rule the handler applies. *)
Definition status_rule_of_code (st : Status) (successes total : nat) : Prop :=
  (st = completed <-> successes = total)
  /\ (st = partial_completed <-> 0 < successes /\ successes < total)
  /\ (st = failed <-> successes = 0 /\ 0 < total).

(** ** Concrete collaborators and requests used in examples *)

Module Scenario.

(** A provider whose every call succeeds and answers with [answer]. *)
Definition ai_answering (answer : string) : AiService.t :=
  AiService.mk (fun _ => true) ["gpt-4o"; "gpt_image_1"]
    (fun _ => Some ["text_generation"; "multimodal"])
    (fun _ _ => ret answer).

(** A provider that fails on the tasks whose prompt mentions [needle]. *)
Definition ai_failing_on (needle : string) : AiService.t :=
  AiService.mk (fun _ => true) ["gpt-4o"; "gpt_image_1"]
    (fun _ => Some ["text_generation"; "multimodal"])
    (fun _ request =>
       match request with
       | GenerateImage params =>
           if contains needle (InferenceParams.prompt params)
           then raise (ProviderFailure (Upstream "inference failed"))
           else ret "aW1hZ2U="
       | _ => ret "{}"
       end).

(** Storage and configuration that always succeed; the JSON decoder knows
    the documents listed in [documents]. *)
Definition env_with (ai : AiService.t) (documents : list (string * json)) : Env.t :=
  Env.mk (fun _ => ["gpt_image_1"]) (fun _ => "openai")
    (fun module task_id position => Date.mk 2025 1 31)
    (fun now module task_id category subcategory =>
       ("out/" ++ module ++ "/" ++ category ++ "/" ++ subcategory ++ "/")%string)
    (fun _ => ret ai)
    (fun text => lookup text documents)
    (fun key _ => ret (("https://bucket/" ++ key)%string, 5%Z))
    (fun i file_name => ret ("art-style/temp/" ++ file_name)%string)
    (fun key => ret ("https://signed/" ++ key)%string)
    (fun _ => ret true).

Definition env_ok : Env.t := env_with (ai_answering "aW1hZ2U=") [].

(** The same collaborators when the day changes after the first save of a
    job and the output path is the default one of the settings,
    [image_assets_output/{year}-{month}-{day}/{task_id}/{module}/]. *)
Definition env_at_midnight : Env.t :=
  Env.mk (Env.get_module_supported_models env_ok)
    (Env.get_module_default_provider env_ok)
    (fun module task_id position =>
       match position with
       | O => Date.mk 2025 1 31
       | S _ => Date.mk 2025 2 1
       end)
    (fun now module task_id category subcategory =>
       ("image_assets_output/"
        ++ NilZero.string_of_uint (N.to_uint (Z.abs_N (Date.year now)))
        ++ "-" ++ Handler.format_02d (Date.month now)
        ++ "-" ++ Handler.format_02d (Date.day now)
        ++ "/" ++ task_id ++ "/" ++ module ++ "/")%string)
    (Env.get_service env_ok) (Env.json_loads env_ok)
    (Env.upload_file_sync env_ok) (Env.upload_temp_file env_ok)
    (Env.generate_presigned_url env_ok) (Env.delete_file env_ok).

Definition preset_config : ArtStyleConfig.t :=
  ArtStyleConfig.mk PRESET (Some "fantasy_medieval") None None
    (Some "openai") (Some "gpt-4o").

(** A symbols request whose only bucket names a subcategory without
    items. *)
Definition empty_list_request : RequestData.t :=
  RequestData.mk "symbols" "gpt_image_1" None PROMPT_ONLY
    (SymbolsGenerationInput preset_config (Some [("low_value", [])]) None None
       "1024x1024")
    Prompt.SymbolsService.

(** Three declared items with counts 2, 1 and 3. *)
Definition six_task_request : RequestData.t :=
  RequestData.mk "symbols" "gpt_image_1" None PROMPT_ONLY
    (SymbolsGenerationInput preset_config
       (Some [("low_value",
               [Item.mk "heart_ace" "Ace of Hearts" 2 (Some "512x512");
                Item.mk "spade_king" "King of Spades" 1 None])])
       (Some [("wild", [Item.mk "dragon_wild" "Mystical dragon" 3 None])])
       None "1024x1024")
    Prompt.SymbolsService.

(** A reference-driven request: one declared item, two items in the
    ingested archive. *)
Definition reference_request : RequestData.t :=
  RequestData.mk "symbols" "gpt_image_1" None REFERENCE_ASSETS
    (SymbolsGenerationInput preset_config
       (Some [("low_value", [Item.mk "heart_ace" "Ace of Hearts" 1 None])])
       None None "1024x1024")
    Prompt.SymbolsService.

Definition reference_bundle : ReferenceData.t :=
  ReferenceData.mk (Some "Asset references from refs.zip") (Some [])
    (Some [("base_symbols",
            [("low_value",
              [RefItem.mk "ace" "Ace" (Some 1%Z) None;
               RefItem.mk "king" "King" (Some 1%Z) None])])])
    None None None None None.

(** The answer of the model to a style request, and its decoding. *)
Definition blank_base_answer : string := "{blank base_prompt, null lighting}".

Definition blank_base_document : json :=
  JObj [("components",
         JObj [("base_prompt", JStr "  ");
               ("color_palette", JStr "gold, crimson");
               ("effects", JStr "soft glow");
               ("materials", JStr "silk");
               ("lighting", JNull);
               ("description", JStr "festive")]);
        ("enhanced_prompt", JStr "festive style, gold, crimson, soft glow")].

Definition enhance_env : Env.t :=
  env_with (ai_answering blank_base_answer)
    [(blank_base_answer, blank_base_document)].

(** The answer of the model to an image analysis whose components carry an
    empty [base_prompt]. *)
Definition empty_base_answer : string := "{analysis, empty base_prompt}".

Definition empty_base_document : json :=
  JObj [("style_description", JStr "flat vector art, pastel colors");
        ("components",
         JObj [("base_prompt", JStr "");
               ("color_palette", JStr "pastel pink, mint");
               ("effects", JStr "none");
               ("materials", JStr "paper");
               ("lighting", JStr "even");
               ("description", JStr "flat pastel vector")])].

Definition analysis_env : Env.t :=
  env_with (ai_answering empty_base_answer)
    [(empty_base_answer, empty_base_document)].

Definition one_image : list UploadFile.t :=
  [UploadFile.mk (Some "ref.png") "image/png" "bytes"].

Definition two_images : list UploadFile.t :=
  [UploadFile.mk (Some "a.png") "image/png" "bytes";
   UploadFile.mk (Some "b.jpg") "image/jpeg" "bytes"].

(** Storage whose signed-URL generation fails. *)
Definition presign_failing_env : Env.t :=
  TempImages.with_presigned_url analysis_env
    (fun _ => raise (StorageFailure (Upstream "presign failed"))).

(** Storage whose delete raises. *)
Definition delete_raising_env : Env.t :=
  TempImages.with_delete_file analysis_env
    (fun _ => raise (StorageFailure (Upstream "delete failed"))).

Definition preset_raw : RawArtStyle.t :=
  RawArtStyle.mk "preset" (Some "fantasy_medieval") None None None None.

(** A request whose only bucket names a subcategory without items. *)
Definition empty_list_params : RawParams.t :=
  RawParams.mk (Some preset_raw) [("base_symbols", [("low_value", [])])] None.

(** A request without any bucket. *)
Definition no_bucket_params : RawParams.t :=
  RawParams.mk (Some preset_raw) [] None.

Definition ace_task : Task.t :=
  Task.mk "base_symbols" "low_value" "ace" "Ace of Hearts" 1 "512x512"
    false true.

(** An image-URL map holding the exact key and the subcategory key. *)
Definition two_level_urls : list (string * string) :=
  [("base_symbols.low_value.ace", "https://signed/ace");
   ("base_symbols.low_value", "https://signed/low_value")].

Definition preset_style : StyleData.t :=
  StyleData.mk (Some "fantasy art, medieval style") (Some "preset")
    (Some [("base_prompt", JStr "fantasy art, medieval style")])
    (Some "high quality, game asset style, professional design").

Definition described_bundle : ReferenceData.t :=
  ReferenceData.mk (Some "Asset references from refs.zip") None None None
    None None None None.

Definition url_bundle : ReferenceData.t :=
  ReferenceData.mk (Some "Asset references from refs.zip") None None
    (Some two_level_urls) None None None None.

End Scenario.


(** ** Validation entry points and composite jobs ([image_handler.py]) *)

(** One entry of [preset_details] in [get_available_presets]. *)
Module PresetDetail.
Record t := mk {
  name : string;
  description : string;
  color_palette : string;
  example_prompt : string
}.
End PresetDetail.

(** The values of the dictionary returned by [get_available_presets]. *)
Inductive PresetsValue :=
| PNames (names : list string)
| PDetails (details : list (string * PresetDetail.t))
| PCount (n : Z).

(** The message of an art-style validation report. *)
Inductive ValidationMessage :=
| PresetThemeValid
| PresetThemeUnknown (theme : option string)
| DirectStyleValid
| AiConfigValid
| AiConfigInvalid
| ValidationFailed (why : Reason).

Module StyleValidation.
Record t := mk {
  valid : bool;
  mode : ArtStyleMode;
  message : ValidationMessage
}.
End StyleValidation.

(** What [validate_module_config] returns. *)
Inductive ModuleValidation :=
| Invalid (error : Reason)
| Valid (estimated_outputs : Z) (by_category : list (string * Z))
    (art_style_validation : StyleValidation.t).

(** The [global_config] dictionary of a composite job; [None] is an absent
    key. *)
Module GlobalConfig.
Record t := mk {
  global_art_style : option RawArtStyle.t;
  model : option string;
  provider : option string;
  generation_mode : option string
}.
End GlobalConfig.

Module Validation.

Import Handler ImageHandler.

(** [ArtStyleService.get_available_presets] *)
Definition get_available_presets : list (string * PresetsValue) :=
  [("available_presets", PNames (map fst ArtStyle.preset_themes));
   ("preset_details",
    PDetails
      (map (fun '(theme_name, config) =>
              (theme_name,
               PresetDetail.mk (ThemeConfig.name config)
                 (ThemeConfig.description config)
                 (ThemeConfig.color_palette config)
                 (ThemeConfig.base_prompt config ++ ", "
                    ++ ThemeConfig.color_palette config)%string))
           ArtStyle.preset_themes));
   ("total_count", PCount (Z.of_nat (length ArtStyle.preset_themes)))].

(** [theme in available_presets.get("presets", {})] *)
Definition theme_in_presets (theme : option string)
    (available_presets : list (string * PresetsValue)) : result bool :=
  match lookup "presets" available_presets with
  | None => ret false
  | Some (PNames names) =>
      ret (match theme with
           | Some t => existsb (String.eqb t) names
           | None => false
           end)
  | Some (PDetails details) =>
      ret (match theme with
           | Some t => has_key t details
           | None => false
           end)
  | Some (PCount _) => raise (TypeError NotIterable)
  end.

(** [_validate_art_style_config]; [validate_ai_model] is the lookup of the
    AI configuration. *)
Definition _validate_art_style_config
    (validate_ai_model : option string -> option string -> bool)
    (art_style_config : ArtStyleConfig.t) : StyleValidation.t :=
  let mode := ArtStyleConfig.mode art_style_config in
  match mode with
  | PRESET =>
      match theme_in_presets (ArtStyleConfig.preset_theme art_style_config)
              get_available_presets with
      | inr is_valid =>
          StyleValidation.mk is_valid mode
            (if is_valid then PresetThemeValid
             else PresetThemeUnknown (ArtStyleConfig.preset_theme art_style_config))
      | inl e => StyleValidation.mk false mode (ValidationFailed (str_exc e))
      end
  | CUSTOM_DIRECT => StyleValidation.mk true mode DirectStyleValid
  | CUSTOM_AI_ENHANCED | REFERENCE_IMAGE =>
      let ai_validation :=
        validate_ai_model (ArtStyleConfig.ai_provider art_style_config)
          (ArtStyleConfig.ai_model art_style_config) in
      StyleValidation.mk ai_validation mode
        (if ai_validation then AiConfigValid else AiConfigInvalid)
  end.

(** [_count_tasks_by_category] *)
Definition _count_tasks_by_category (tasks : list Task.t) : list (string * Z) :=
  fold_left (fun category_counts task =>
               store (Task.category task)
                 (match lookup (Task.category task) category_counts with
                  | Some n => n
                  | None => 0
                  end + 1)%Z
                 category_counts)
            tasks [].

(** [validate_module_config] *)
Definition validate_module_config (env : Env.t)
    (validate_ai_model : option string -> option string -> bool)
    (module model : string) (generation_params : RawParams.t) : ModuleValidation :=
  match _parse_request env module model "prompt_only" generation_params None with
  | inr request_data =>
      let tasks :=
        Decomposer._parse_generation_tasks
          (RequestData.generation_params request_data) in
      Valid (Z.of_nat (length tasks)) (_count_tasks_by_category tasks)
        (_validate_art_style_config validate_ai_model
           (Params.art_style (RequestData.generation_params request_data)))
  | inl e => Invalid (str_exc e)
  end.

(** [module_config["art_style"] = global_config.get("global_art_style")]
    when the module has no art style of its own. *)
Definition with_global_art_style (global_config : GlobalConfig.t)
    (module_config : RawParams.t) : RawParams.t :=
  match RawParams.art_style module_config with
  | Some _ => module_config
  | None =>
      RawParams.mk (GlobalConfig.global_art_style global_config)
        (RawParams.buckets module_config)
        (RawParams.default_resolution module_config)
  end.

(** [_build_module_requests] *)
Fixpoint _build_module_requests (env : Env.t) (global_config : GlobalConfig.t)
    (modules_config : list (string * RawParams.t))
  : result (list (string * (RequestData.t * StyleData.t))) :=
  match modules_config with
  | [] => ret []
  | (module_name, module_config) :: rest =>
      request_data <-
        _parse_request env module_name
          (get_default (GlobalConfig.model global_config) "gpt_image_1")
          (get_default (GlobalConfig.generation_mode global_config) "prompt_only")
          (with_global_art_style global_config module_config)
          (GlobalConfig.provider global_config) ;;
      let art_style_data :=
        _generate_art_style env
          (Params.art_style (RequestData.generation_params request_data)) in
      rest' <- _build_module_requests env global_config rest ;;
      ret ((module_name, (request_data, art_style_data)) :: rest')
  end.

(** [handle_complete_game_generation_json] *)
Definition handle_complete_game_generation_json (env : Env.t)
    (global_config : GlobalConfig.t)
    (modules_config : list (string * RawParams.t)) (task_id : string)
  : result CompleteResult.t :=
  wrap400
    (if negb (match GlobalConfig.generation_mode global_config with
              | Some mode => mode =? "prompt_only"
              | None => false
              end)
     then raise (ValueError PromptOnlyInterface)
     else
       module_requests <- _build_module_requests env global_config modules_config ;;
       let module_results :=
         _execute_parallel_modules env module_requests
           (Some ReferenceData.empty) task_id in
       ret (_build_complete_result module_results task_id)).

End Validation.

(** ** Measures used in the statements *)

(** The identity of a task and of an output: category, subcategory,
    filename and index. *)
Definition task_identity (t : Task.t) : string * string * string * Z :=
  (Task.category t, Task.subcategory t, Task.filename t, Task.index t).

Definition output_identity (o : Output.t) : string * string * string * Z :=
  (Output.category o, Output.subcategory o, Output.filename o, Output.index o).

(** The number of tasks that the items of a bucket ask for. *)
Definition requested_count (items : list Item.t) : nat :=
  list_sum (map (fun item => Z.to_nat (Item.count item)) items).

Definition bucket_count (bucket : option CategoryData) : nat :=
  match bucket with
  | Some d => list_sum (map (fun '(_, items) => requested_count items) d)
  | None => 0
  end.

Definition bucket_items (bucket : option CategoryData) : nat :=
  match bucket with
  | Some d => list_sum (map (fun '(_, items) => length items) d)
  | None => 0
  end.

(** The buckets of a parameter object, fixed categories first. *)
Definition buckets_of (params : GenerationInput) : list (option CategoryData) :=
  match params with
  | SymbolsGenerationInput _ b s c _ => [b; s; c]
  | UIGenerationInput _ b p c _ => [b; p; c]
  | BackgroundsGenerationInput _ b c _ => [b; c]
  end.

(** Every item of the parameter object satisfies the count bounds of
    [ImageAssetItem]. *)
Definition counts_in_range (params : GenerationInput) : Prop :=
  forall bucket d sub items item,
    In bucket (buckets_of params) -> bucket = Some d ->
    In (sub, items) d -> In item items ->
    (1 <= Item.count item <= 10)%Z.

(** The number of tasks of a category in a task list. *)
Definition category_count (category : string) (tasks : list Task.t) : nat :=
  length (filter (fun t => Task.category t =? category) tasks).

Definition sum_counts (counts : list (string * Z)) : Z :=
  fold_right Z.add 0%Z (map snd counts).

(** ** Requests used in the examples of Part III *)

Module Sample.

(** The declaration of [Scenario.six_task_request] before validation. *)
Definition six_task_params : RawParams.t :=
  RawParams.mk (Some Scenario.preset_raw)
    [("base_symbols",
      [("low_value",
        [Item.mk "heart_ace" "Ace of Hearts" 2 (Some "512x512");
         Item.mk "spade_king" "King of Spades" 1 None])]);
     ("special_symbols",
      [("wild", [Item.mk "dragon_wild" "Mystical dragon" 3 None])])]
    None.

Definition button_params : RawParams.t :=
  RawParams.mk None
    [("buttons", [("main", [Item.mk "spin_button" "Spin button" 2 None])])]
    (Some "256x256").

Definition prompt_only_config : GlobalConfig.t :=
  GlobalConfig.mk (Some Scenario.preset_raw) None None (Some "prompt_only").

End Sample.

(** The body of the loop of [_count_tasks_by_category]. *)
Definition count_step (category_counts : list (string * Z)) (task : Task.t)
  : list (string * Z) :=
  store (Task.category task)
    (match lookup (Task.category task) category_counts with
     | Some n => n
     | None => 0
     end + 1)%Z
    category_counts.

(** The request that [_build_module_requests] parses for one entry of the
    module configuration. *)
Definition module_request (env : Env.t) (global_config : GlobalConfig.t)
    (entry : string * RawParams.t) : result RequestData.t :=
  Handler._parse_request env (fst entry)
    (get_default (GlobalConfig.model global_config) "gpt_image_1")
    (get_default (GlobalConfig.generation_mode global_config) "prompt_only")
    (Validation.with_global_art_style global_config (snd entry))
    (GlobalConfig.provider global_config).

(** ** Ingestion of a reference archive ([file_processing_service.py]) *)

(** The [file_info] dictionary built for a file of the archive; [None] is
    an absent key or a [None] value. *)
Module FileInfo.
Record t := mk {
  filename : string;
  full_filename : string;
  description : string;
  path : string;
  resolution : option string;
  is_image : bool;
  count : option Z;
  presigned_url : option string
}.
End FileInfo.

(** [asset_structure]: category to subcategory to files. *)
Definition AssetStructure := list (string * list (string * list FileInfo.t)).

Module Ingestion.

(** A match of [\d+x\d+] starting at the first character of [s]: the
    longest run of digits, an [x], the longest run of digits (ASCII digits,
    as in [Dto.resolution_pattern]). *)
Definition match_resolution_here (s : string) : option string :=
  let (w, rest) := span_decimal s in
  match w, rest with
  | String _ _, String c h =>
      if Ascii.eqb c "x"%char then
        let (h1, _) := span_decimal h in
        match h1 with
        | EmptyString => None
        | String _ _ => Some (w ++ "x" ++ h1)%string
        end
      else None
  | _, _ => None
  end.

(** [re.search(r'(\d+x\d+)', filename)]: the leftmost match. *)
Fixpoint _extract_resolution_from_filename (filename : string) : option string :=
  match filename with
  | EmptyString => None
  | String _ rest =>
      match match_resolution_here filename with
      | Some resolution => Some resolution
      | None => _extract_resolution_from_filename rest
      end
  end.

(** [_convert_to_asset_items]; the keys whose value is [None] are dropped,
    which a [None] field stands for. *)
Definition _convert_to_asset_items (asset_structure : AssetStructure) : RefTree :=
  map (fun '(category, subcategories) =>
         (category,
          map (fun '(subcategory, files) =>
                 (subcategory,
                  map (fun file_info =>
                         RefItem.mk (FileInfo.filename file_info)
                           (FileInfo.description file_info)
                           (Some (match FileInfo.count file_info with
                                  | Some c => c
                                  | None => 1%Z
                                  end))
                           (FileInfo.resolution file_info))
                      files))
              subcategories))
      asset_structure.

(** [_build_reference_prompt_v2].  The template of a recognised module has
    one placeholder, which [format] replaces by the description; for any
    other module the text is built from the module and the description and
    then passed to [str.format], here [str_format]. *)
Definition _build_reference_prompt_v2
    (str_format : string -> string -> result string)
    (module category subcategory filename description : string)
    (file_info : FileInfo.t) : result string :=
  base <-
    (if module =? "symbols"
     then ret ("Create a slot machine symbol for " ++ description)%string
     else if module =? "ui"
     then ret ("Create a user interface element for " ++ description)%string
     else if module =? "backgrounds"
     then ret ("Create a background scene for " ++ description)%string
     else str_format ("Create a " ++ module ++ " asset for " ++ description)%string
            description) ;;
  let prompt_parts :=
    [base;
     ("in " ++ category ++ " category")%string;
     (subcategory ++ " subcategory")%string] in
  let prompt_parts :=
    if truthy_opt (FileInfo.resolution file_info)
    then prompt_parts
         ++ [("with " ++ get_default (FileInfo.resolution file_info) ""
                ++ " resolution")%string]
    else prompt_parts in
  let prompt_parts :=
    if FileInfo.is_image file_info && truthy_opt (FileInfo.presigned_url file_info)
    then prompt_parts
         ++ ["matching the style and composition of the reference image"]
    else prompt_parts
         ++ [("based on the reference file "
                ++ FileInfo.full_filename file_info)%string] in
  let prompt_parts :=
    prompt_parts
    ++ ["Maintain consistent visual style with other assets";
        "Keep the same artistic approach and quality level"] in
  ret (join ", " prompt_parts).

(** A loop whose body may raise. *)
Fixpoint for_each {A B : Type} (body : B -> A -> result B) (l : list A) (acc : B)
  : result B :=
  match l with
  | [] => ret acc
  | x :: rest => acc' <- body acc x ;; for_each body rest acc'
  end.

(** The body of the innermost loop of [_generate_reference_prompts_v2]. *)
Definition add_reference_prompt (str_format : string -> string -> result string)
    (module category subcategory : string)
    (reference_prompts : list (string * string)) (file_info : FileInfo.t)
  : result (list (string * string)) :=
  let filename := FileInfo.filename file_info in
  let description := FileInfo.description file_info in
  prompt <- _build_reference_prompt_v2 str_format module category subcategory
              filename description file_info ;;
  let reference_prompts :=
    store (category ++ "." ++ subcategory ++ "." ++ filename)%string prompt
      reference_prompts in
  let subcategory_key := (category ++ "." ++ subcategory)%string in
  let reference_prompts :=
    if negb (has_key subcategory_key reference_prompts)
    then store subcategory_key prompt reference_prompts
    else reference_prompts in
  let category_key := category in
  let reference_prompts :=
    if negb (has_key category_key reference_prompts)
    then store category_key prompt reference_prompts
    else reference_prompts in
  ret reference_prompts.

Definition _generate_reference_prompts_v2
    (str_format : string -> string -> result string)
    (asset_structure : AssetStructure) (module : string)
  : result (list (string * string)) :=
  for_each (fun reference_prompts '(category, subcategories) =>
              for_each (fun reference_prompts '(subcategory, files) =>
                          for_each (add_reference_prompt str_format module
                                      category subcategory)
                            files reference_prompts)
                subcategories reference_prompts)
    asset_structure [].

End Ingestion.

(** The files of an archive with their category and subcategory, in the
    order of the loops. *)
Definition files_of (asset_structure : AssetStructure)
  : list (string * string * FileInfo.t) :=
  flat_map (fun '(category, subcategories) =>
              flat_map (fun '(subcategory, files) =>
                          map (fun file_info => (category, subcategory, file_info))
                            files)
                subcategories)
    asset_structure.

(** The exact lookup key of a file. *)
Definition exact_key (file : string * string * FileInfo.t) : string :=
  let '(category, subcategory, file_info) := file in
  (category ++ "." ++ subcategory ++ "." ++ FileInfo.filename file_info)%string.

(** The prompt built for a file. *)
Definition prompt_of (str_format : string -> string -> result string)
    (module : string) (file : string * string * FileInfo.t) : result string :=
  let '(category, subcategory, file_info) := file in
  Ingestion._build_reference_prompt_v2 str_format module category subcategory
    (FileInfo.filename file_info) (FileInfo.description file_info) file_info.

(** An archive of two symbol files and one background file. *)
Definition sample_archive : AssetStructure :=
  [("base_symbols",
    [("low_value",
      [FileInfo.mk "ace_512x512" "ace_512x512.png" "Ace" "base_symbols/low_value/ace_512x512.png"
         (Some "512x512") true (Some 1%Z) (Some "https://signed/ace");
       FileInfo.mk "king" "king.txt" "King" "base_symbols/low_value/king.txt"
         None false (Some 1%Z) None])]);
   ("special_symbols",
    [("wild",
      [FileInfo.mk "dragon" "dragon.png" "Dragon" "special_symbols/wild/dragon.png"
         None true (Some 1%Z) None])])].

(** The names under which a task and a file are looked up. *)
Definition task_names (t : Task.t) : string * string * string :=
  (Task.category t, Task.subcategory t, Task.filename t).

Definition file_names (file : string * string * FileInfo.t)
  : string * string * string :=
  let '(category, subcategory, file_info) := file in
  (category, subcategory, FileInfo.filename file_info).

(** [d[k] = v] unless [k in d]. *)
Definition store_if_absent (k : string) (v : string) (d : list (string * string))
  : list (string * string) :=
  if negb (has_key k d) then store k v d else d.

(** The body of the three nested loops of [_generate_reference_prompts_v2]
    as a function of the file. *)
Definition add_file (str_format : string -> string -> result string)
    (module : string) (reference_prompts : list (string * string))
    (file : string * string * FileInfo.t) : result (list (string * string)) :=
  let '(category, subcategory, file_info) := file in
  Ingestion.add_reference_prompt str_format module category subcategory
    reference_prompts file_info.

(** ** The OpenAI provider ([services/external/openai_service.py]) *)

(** An entry of [available_models]; [None] is an absent key. *)
Module ModelInfo.
Record t := mk {
  model_type : option string;
  capabilities : option (list string);
  supported_sizes : option (list string);
  output_format : option string;
  max_tokens : option Z
}.
End ModelInfo.

(** The value under [image_urls]: a list, or a single text, which the
    service wraps in a list. *)
Inductive ImageUrls :=
| UrlList (urls : list string)
| UrlText (url : string).

(** The value under [image_data]: bytes, or any other value given by its
    [str]. *)
Inductive ImageData :=
| DataBytes (content : string)
| DataOther (text : string).

(** The [input_data] dictionary of an inference call; [None] is an absent
    key.  The temperature, a number handed on unchanged, is left out. *)
Module InputData.
Record t := mk {
  prompt : option string;
  size : option string;
  quality : option string;
  image_urls : option ImageUrls;
  image_url : option string;
  image_data : option ImageData;
  reference_image_description : option string;
  style_guidance : option string;
  reference_prompt : option string;
  system_prompt : option string;
  max_tokens : option Z;
  response_format : option (option string)
}.
End InputData.

(** An element of a multimodal message. *)
Inductive ContentPart :=
| TextPart (text : string)
| ImagePart (url : string).

(** The content of the user message of a chat completion. *)
Inductive UserContent :=
| Multimodal (parts : list ContentPart)
| PlainText (text : string).

(** The request body of [/images/generations]. *)
Module ImagePayload.
Record t := mk {
  model : string;
  prompt : string;
  n : Z;
  size : string;
  quality : option string;
  response_format : option string
}.
End ImagePayload.

(** The request body of [/chat/completions], without the temperature. *)
Module TextPayload.
Record t := mk {
  model : string;
  system : option string;
  user : UserContent;
  max_tokens : Z;
  response_format : option string
}.
End TextPayload.

(** What the provider raises before any request is sent. *)
Inductive ProviderError :=
| UnsupportedModel (model : string)
| UnsupportedModelType (model : string) (model_type : option string)
| NoneHasNoGet
| ListIndexOutOfRange.

(** The request that [run_inference] sends. *)
Inductive ProviderRequest :=
| ImageGeneration (payload : ImagePayload.t)
| ChatCompletion (payload : TextPayload.t).

Module OpenAI.

Definition newline : string := String (ascii_of_nat 10) EmptyString.

Definition paragraph_break : string := (newline ++ newline)%string.

Section Service.

(** [self.available_models] and [base64.b64encode(...).decode('utf-8')]. *)
Variable available_models : list (string * ModelInfo.t).
Variable b64encode : string -> string.

Definition validate_model (model : string) : bool := has_key model available_models.

Definition get_model_info (model : string) : option ModelInfo.t :=
  lookup model available_models.

Definition get_model_type (model : string) : option string :=
  match get_model_info model with
  | Some model_info => ModelInfo.model_type model_info
  | None => None
  end.

Definition _supports_image_input (model : string) : bool :=
  match get_model_info model with
  | None => false
  | Some model_info =>
      let capabilities :=
        match ModelInfo.capabilities model_info with
        | Some l => l
        | None => []
        end in
      existsb (fun cap => existsb (String.eqb cap) capabilities)
        ["image_analysis"; "multimodal"]
  end.

(** [bool(input_data["image_urls"])] *)
Definition image_urls_truthy (urls : ImageUrls) : bool :=
  match urls with
  | UrlList [] => false
  | UrlList (_ :: _) => true
  | UrlText url => truthy url
  end.

Definition _process_image_inputs (input_data : InputData.t) (model : string)
  : list ContentPart :=
  let text_content := get_default (InputData.prompt input_data) "" in
  let content_parts := if truthy text_content then [TextPart text_content] else [] in
  if negb (_supports_image_input model) then content_parts
  else
    match InputData.image_urls input_data with
    | Some urls =>
        if image_urls_truthy urls then
          let image_urls :=
            match urls with
            | UrlList l => l
            | UrlText url => [url]
            end in
          let max_images := if model =? "gpt-4o" then 10 else 3 in
          let image_urls :=
            if (max_images <? length image_urls)%nat
            then firstn max_images image_urls else image_urls in
          content_parts ++ map ImagePart image_urls
        else
          match InputData.image_url input_data, InputData.image_data input_data with
          | Some url, _ => content_parts ++ [ImagePart url]
          | None, Some image_data =>
              let image_base64 :=
                match image_data with
                | DataBytes content => b64encode content
                | DataOther text => text
                end in
              content_parts
              ++ [ImagePart ("data:image/jpeg;base64," ++ image_base64)%string]
          | None, None => content_parts
          end
    | None =>
        match InputData.image_url input_data, InputData.image_data input_data with
        | Some url, _ => content_parts ++ [ImagePart url]
        | None, Some image_data =>
            let image_base64 :=
              match image_data with
              | DataBytes content => b64encode content
              | DataOther text => text
              end in
            content_parts
            ++ [ImagePart ("data:image/jpeg;base64," ++ image_base64)%string]
        | None, None => content_parts
        end
    end.

Definition is_some {A : Type} (o : option A) : bool :=
  match o with Some _ => true | None => false end.

Definition _build_final_prompt (input_data : InputData.t) : string :=
  let base_prompt := get_default (InputData.prompt input_data) "" in
  let reference_parts :=
    (match InputData.reference_image_description input_data with
     | Some text => [("Reference style: " ++ text)%string]
     | None => []
     end)
    ++ (match InputData.style_guidance input_data with
        | Some text => [("Style guidance: " ++ text)%string]
        | None => []
        end)
    ++ (match InputData.reference_prompt input_data with
        | Some text => [("Reference asset: " ++ text)%string]
        | None => []
        end)
    ++ (if negb (_supports_image_input "dummy")
        then if is_some (InputData.image_urls input_data)
                || is_some (InputData.image_url input_data)
             then ["Note: Reference images provided but not directly processable"]
             else []
        else []) in
  match reference_parts with
  | _ :: _ =>
      (base_prompt ++ paragraph_break ++ join paragraph_break reference_parts)%string
  | [] => base_prompt
  end.

(** [input_data["reference_image_description"] = ...] *)
Definition with_reference_image_description (input_data : InputData.t)
    (text : string) : InputData.t :=
  InputData.mk (InputData.prompt input_data) (InputData.size input_data)
    (InputData.quality input_data) (InputData.image_urls input_data)
    (InputData.image_url input_data) (InputData.image_data input_data)
    (Some text) (InputData.style_guidance input_data)
    (InputData.reference_prompt input_data) (InputData.system_prompt input_data)
    (InputData.max_tokens input_data) (InputData.response_format input_data).

(** The request body built by [_run_image_inference]. *)
Definition image_payload (model : string) (input_data : InputData.t)
  : ProviderError + ImagePayload.t :=
  let has_reference_images :=
    is_some (InputData.image_urls input_data)
    || is_some (InputData.image_url input_data)
    || is_some (InputData.image_data input_data) in
  let supports_image_input := _supports_image_input model in
  let input_data :=
    if has_reference_images && negb supports_image_input
    then if negb (is_some (InputData.reference_image_description input_data))
         then with_reference_image_description input_data
                "Reference images provided but not supported by this model"
         else input_data
    else input_data in
  let final_prompt := _build_final_prompt input_data in
  match get_model_info model with
  | None => inl NoneHasNoGet
  | Some model_info =>
      let supported_sizes :=
        match ModelInfo.supported_sizes model_info with
        | Some sizes => sizes
        | None => ["1024x1024"]
        end in
      let requested_size := get_default (InputData.size input_data) "1024x1024" in
      match
        (if negb (existsb (String.eqb requested_size) supported_sizes)
         then match supported_sizes with
              | first :: _ => inr first
              | [] => inl ListIndexOutOfRange
              end
         else inr requested_size)
      with
      | inl e => inl e
      | inr size =>
          inr (if model =? "dall-e-3"
               then ImagePayload.mk model final_prompt 1 size
                      (Some (get_default (InputData.quality input_data) "standard"))
                      (Some "b64_json")
               else if match ModelInfo.output_format model_info with
                       | Some format => format =? "b64_json"
                       | None => false
                       end
               then ImagePayload.mk model final_prompt 1 size None (Some "b64_json")
               else ImagePayload.mk model final_prompt 1 size None None)
      end
  end.

(** The request body built by [_run_text_inference]. *)
Definition text_payload (model : string) (input_data : InputData.t)
  : TextPayload.t :=
  let content_parts := _process_image_inputs input_data model in
  let user :=
    if (1 <? length content_parts)%nat then Multimodal content_parts
    else PlainText (_build_final_prompt input_data) in
  let max_tokens :=
    match get_model_info model with
    | Some model_info =>
        match ModelInfo.max_tokens model_info with
        | Some n => n
        | None => 4096%Z
        end
    | None => 4096%Z
    end in
  let requested_tokens :=
    match InputData.max_tokens input_data with
    | Some n => n
    | None => 500%Z
    end in
  let actual_max_tokens := Z.min max_tokens requested_tokens in
  let response_format :=
    match InputData.response_format input_data with
    | Some format =>
        if existsb (String.eqb model) ["gpt-4o"; "gpt-4-turbo"; "gpt-3.5-turbo"]
           && match format with
              | Some type => type =? "json_object"
              | None => false
              end
        then format else None
    | None => None
    end in
  TextPayload.mk model (InputData.system_prompt input_data) user
    actual_max_tokens response_format.

(** [run_inference], up to the request that is sent. *)
Definition run_inference (model : string) (input_data : InputData.t)
  : ProviderError + ProviderRequest :=
  if negb (validate_model model) then inl (UnsupportedModel model)
  else
    let model_type := get_model_type model in
    match model_type with
    | Some type =>
        if type =? "image_generation" then
          match image_payload model input_data with
          | inl e => inl e
          | inr payload => inr (ImageGeneration payload)
          end
        else if type =? "text_generation" then
          inr (ChatCompletion (text_payload model input_data))
        else inl (UnsupportedModelType model model_type)
    | None => inl (UnsupportedModelType model model_type)
    end.

End Service.

End OpenAI.

(** The image URLs of a user message. *)
Definition images_of (content : UserContent) : list string :=
  match content with
  | Multimodal parts =>
      flat_map (fun part => match part with
                            | ImagePart url => [url]
                            | TextPart _ => []
                            end) parts
  | PlainText _ => []
  end.

(** The limit on the images of one message. *)
Definition image_limit (model : string) : nat :=
  if model =? "gpt-4o" then 10 else 3.

(** The same call with other image URLs. *)
Definition with_image_urls (input_data : InputData.t) (urls : ImageUrls)
    (url : string) : InputData.t :=
  InputData.mk (InputData.prompt input_data) (InputData.size input_data)
    (InputData.quality input_data)
    (match InputData.image_urls input_data with
     | Some _ => Some urls
     | None => None
     end)
    (match InputData.image_url input_data with
     | Some _ => Some url
     | None => None
     end)
    (InputData.image_data input_data)
    (InputData.reference_image_description input_data)
    (InputData.style_guidance input_data)
    (InputData.reference_prompt input_data) (InputData.system_prompt input_data)
    (InputData.max_tokens input_data) (InputData.response_format input_data).

(** A configuration with an image model and a multimodal text model. *)
Definition sample_models : list (string * ModelInfo.t) :=
  [("gpt_image_1",
    ModelInfo.mk (Some "image_generation") (Some ["image_generation"])
      (Some ["1024x1024"; "1536x1024"; "1024x1536"]) (Some "b64_json") None);
   ("gpt-4o",
    ModelInfo.mk (Some "text_generation")
      (Some ["text_generation"; "image_analysis"; "multimodal"]) None None
      (Some 4096%Z))].

(** The input of the generation of one image with an attached reference
    image. *)
Definition sample_image_input : InputData.t :=
  InputData.mk (Some "Create a slot machine symbol: Ace") (Some "512x512")
    (Some "standard") None (Some "https://signed/ace") None None None None None
    None None.

(** ** Module models of the asset settings ([config/assets/asset_settings.py]) *)

(** An entry of [module_models]; [None] is an absent key. *)
Module ModuleModels.
Record t := mk {
  default_provider : option string;
  default_model : option string;
  supported_models : option (list string)
}.
End ModuleModels.

Module AssetSettings.

Section Settings.

(** [self._asset_models_config.get("module_models", {})] *)
Variable module_models : list (string * ModuleModels.t).

Definition get_module_default_provider (module : string) : string :=
  match lookup module module_models with
  | Some module_config => get_default (ModuleModels.default_provider module_config) "openai"
  | None => "openai"
  end.

Definition get_module_supported_models (module : string) : list string :=
  match lookup module module_models with
  | Some module_config =>
      match ModuleModels.supported_models module_config with
      | Some models => models
      | None => ["gpt-image-1"]
      end
  | None => ["gpt-image-1"]
  end.

(** The collaborators of the handler when the settings are read from
    [module_models]. *)
Definition with_module_models (env : Env.t) : Env.t :=
  Env.mk get_module_supported_models get_module_default_provider
    (Env.utcnow env) (Env.build_s3_output_path env) (Env.get_service env)
    (Env.json_loads env)
    (Env.upload_file_sync env) (Env.upload_temp_file env)
    (Env.generate_presigned_url env) (Env.delete_file env).

End Settings.

End AssetSettings.

(** ** Proof automation *)

(** One step of a computation in [result]. *)
Ltac result_step :=
  cbn [bind ret raise Monad_result ArtStyle.py_in ArtStyle.py_getitem negb].

(* ================================================================== *)
(** * Part II. Properties                                              *)
(* ================================================================== *)

Lemma range1_length (n : Z) : length (range1 n) = Z.to_nat n.
Proof. unfold range1. now rewrite length_map, length_seq. Qed.

(** ** Task decomposition *)

Section Decomposition.

Variables (category_name default_resolution : string).

Lemma range1_spec (n i : Z) : In i (range1 n) <-> (1 <= i <= n)%Z.
Proof.
  unfold range1. rewrite in_map_iff. split.
  - intros (k & <- & Hk). apply in_seq in Hk. lia.
  - intros H. exists (Z.to_nat i). split; [lia |]. apply in_seq. lia.
Qed.

Lemma range1_NoDup (n : Z) : NoDup (range1 n).
Proof.
  unfold range1. apply Injective_map_NoDup.
  - intros a b H. lia.
  - apply seq_NoDup.
Qed.

Lemma item_tasks_index (sub : string) (item : Item.t) :
  map Task.index (Decomposer.item_tasks category_name sub default_resolution item)
  = range1 (Item.count item).
Proof.
  unfold Decomposer.item_tasks. rewrite map_map. simpl. apply map_id.
Qed.

Lemma item_tasks_fields (sub : string) (item : Item.t) (t : Task.t) :
  In t (Decomposer.item_tasks category_name sub default_resolution item) ->
  Task.category t = category_name /\ Task.subcategory t = sub
  /\ Task.filename t = Item.filename item
  /\ Task.description t = Item.description item
  /\ Task.resolution t = or_default (Item.resolution item) default_resolution
  /\ Task.has_template t = false /\ Task.from_reference t = false.
Proof.
  unfold Decomposer.item_tasks. rewrite in_map_iff.
  intros (i & <- & _). simpl. repeat split.
Qed.

Lemma parse_category_tasks_app (d1 d2 : CategoryData) :
  Decomposer._parse_category_tasks category_name (d1 ++ d2) default_resolution
  = Decomposer._parse_category_tasks category_name d1 default_resolution
    ++ Decomposer._parse_category_tasks category_name d2 default_resolution.
Proof. unfold Decomposer._parse_category_tasks. apply flat_map_app. Qed.

Lemma parse_category_tasks_cons (sub : string) (items : list Item.t)
    (d : CategoryData) :
  Decomposer._parse_category_tasks category_name ((sub, items) :: d)
    default_resolution
  = flat_map (Decomposer.item_tasks category_name sub default_resolution) items
    ++ Decomposer._parse_category_tasks category_name d default_resolution.
Proof. reflexivity. Qed.

End Decomposition.

Lemma resolution_pattern_nonempty (r : string) :
  Dto.resolution_pattern r = true -> r <> "".
Proof. intros H ->. discriminate. Qed.

Lemma or_default_override (o : option string) (d : string) :
  (forall r, o = Some r -> Dto.resolution_pattern r = true) ->
  or_default o d = match o with Some r => r | None => d end.
Proof.
  destruct o as [r |]; simpl; [| reflexivity].
  intros H. specialize (H r eq_refl).
  destruct r; [discriminate | reflexivity].
Qed.

(** What the validation of an [ImageAssetItem] guarantees. *)
Lemma validated_item (raw item : Item.t) :
  Dto.ImageAssetItem raw = inr item ->
  (1 <= Item.count item <= 10)%Z
  /\ (forall r, Item.resolution item = Some r -> Dto.resolution_pattern r = true)
  /\ Item.filename item <> "" /\ Item.description item <> "".
Proof.
  unfold Dto.ImageAssetItem.
  destruct (truthy (Item.filename raw)); cbn [negb orb]; [| discriminate].
  destruct (truthy (strip (Item.filename raw))) eqn:Ef; cbn [negb]; [| discriminate].
  destruct (Dto.filename_chars (strip (Item.filename raw))); cbn [negb];
    [| discriminate].
  destruct (truthy (Item.description raw)); cbn [negb orb]; [| discriminate].
  destruct (truthy (strip (Item.description raw))) eqn:Ed; cbn [negb];
    [| discriminate].
  destruct ((1 <=? Item.count raw)%Z && (Item.count raw <=? 10)%Z) eqn:Ec;
    cbn [negb]; [| discriminate].
  apply andb_true_iff in Ec. destruct Ec as [E1 E2].
  destruct (Item.resolution raw) as [r |] eqn:Er.
  - destruct (Dto.resolution_pattern r) eqn:Ep; cbn [negb]; [| discriminate].
    intros [= <-]. cbn. repeat split; try lia.
    + intros r' [= <-]. exact Ep.
    + intros H. rewrite H in Ef. discriminate.
    + intros H. rewrite H in Ed. discriminate.
  - intros [= <-]. cbn. repeat split; try lia.
    + discriminate.
    + intros H. rewrite H in Ef. discriminate.
    + intros H. rewrite H in Ed. discriminate.
Qed.

Lemma nested_flat_map_insert {A B : Type} (g : string -> A -> list B)
    (before after : list (string * list A)) (sub : string)
    (items_before items_after : list A) (x : A) :
  let F := fun '(s, items) => flat_map (g s) items in
  flat_map F (before ++ (sub, items_before ++ x :: items_after) :: after)
  = (flat_map F before ++ flat_map (g sub) items_before)
    ++ g sub x
    ++ (flat_map (g sub) items_after ++ flat_map F after)
  /\ flat_map F (before ++ (sub, items_before ++ items_after) :: after)
     = (flat_map F before ++ flat_map (g sub) items_before)
       ++ (flat_map (g sub) items_after ++ flat_map F after).
Proof.
  cbv zeta. rewrite !flat_map_app. cbn [flat_map].
  rewrite !flat_map_app. cbn [flat_map].
  now rewrite <- !app_assoc.
Qed.

(** C2.  An item with [count = N >= 1], declared under a category and a
    subcategory, contributes one contiguous block of exactly [N] tasks to the
    decomposition; what precedes and follows the block is the decomposition
    of the same content with the item removed.  The indices of the block are
    1..N, each exactly once, and every task of the block carries the
    category, subcategory, filename and description of the item and the same
    resolution: the item's override when it has one (a validated override
    matches the resolution pattern), the request default otherwise.  This
    holds for [_parse_category_tasks] of the handler and, on items given as
    dictionaries, for [_parse_category_tasks] of the base service. *)
Theorem parse_category_tasks_item_expansion
    (category_name default_resolution subcategory_name : string) (N : Z) :
  (1 <= N)%Z ->
  (forall (before after : CategoryData) (items_before items_after : list Item.t)
          (item : Item.t),
      Item.count item = N ->
      (forall r, Item.resolution item = Some r -> Dto.resolution_pattern r = true) ->
      exists P block Q : list Task.t,
        Decomposer._parse_category_tasks category_name
          (before ++ (subcategory_name, items_before ++ item :: items_after) :: after)
          default_resolution = P ++ block ++ Q
        /\ Decomposer._parse_category_tasks category_name
             (before ++ (subcategory_name, items_before ++ items_after) :: after)
             default_resolution = P ++ Q
        /\ Z.of_nat (length block) = N
        /\ map Task.index block = map Z.of_nat (seq 1 (Z.to_nat N))
        /\ NoDup (map Task.index block)
        /\ (forall i, In i (map Task.index block) <-> (1 <= i <= N)%Z)
        /\ Forall (fun t =>
                     Task.category t = category_name
                     /\ Task.subcategory t = subcategory_name
                     /\ Task.filename t = Item.filename item
                     /\ Task.description t = Item.description item
                     /\ Task.resolution t =
                          match Item.resolution item with
                          | Some r => r
                          | None => default_resolution
                          end) block)
  /\ (forall (before after : list (string * list ServiceItem))
             (items_before items_after : list ServiceItem) (d : DictItem.t),
        DictItem.count d = Some N ->
        exists P block Q : list ServiceTask.t,
          BaseImageService._parse_category_tasks category_name
            (before ++ (subcategory_name, items_before ++ ItemDict d :: items_after)
                    :: after)
            default_resolution = P ++ block ++ Q
          /\ BaseImageService._parse_category_tasks category_name
               (before ++ (subcategory_name, items_before ++ items_after) :: after)
               default_resolution = P ++ Q
          /\ Z.of_nat (length block) = N
          /\ map ServiceTask.index block = map Z.of_nat (seq 1 (Z.to_nat N))
          /\ NoDup (map ServiceTask.index block)
          /\ (forall i, In i (map ServiceTask.index block) <-> (1 <= i <= N)%Z)
          /\ Forall (fun t =>
                       ServiceTask.category t = category_name
                       /\ ServiceTask.subcategory t = subcategory_name
                       /\ ServiceTask.filename t = DictItem.filename d
                       /\ ServiceTask.description t =
                            match DictItem.description d with
                            | Some text => Some text
                            | None => DictItem.filename d
                            end
                       /\ ServiceTask.resolution t =
                            match DictItem.resolution d with
                            | Some r => r
                            | None => default_resolution
                            end) block).
Proof.
  intros Hpos. split.
  - intros before after items_before items_after item HN Hres.
    destruct (nested_flat_map_insert
                (fun s => Decomposer.item_tasks category_name s default_resolution)
                before after subcategory_name items_before items_after item)
      as [Hwith Hwithout].
    eexists. exists (Decomposer.item_tasks category_name subcategory_name
                       default_resolution item). eexists.
    split; [exact Hwith |]. split; [exact Hwithout |].
    split; [| split; [| split; [| split]]].
    + unfold Decomposer.item_tasks. rewrite length_map, range1_length. lia.
    + rewrite item_tasks_index, HN. reflexivity.
    + rewrite item_tasks_index. apply range1_NoDup.
    + intros i. rewrite item_tasks_index, HN. apply range1_spec.
    + apply Forall_forall. intros t Ht.
      apply item_tasks_fields in Ht.
      destruct Ht as (Hc & Hs & Hf & Hd & Hr & _).
      rewrite Hr, (or_default_override _ _ Hres). auto.
  - intros before after items_before items_after d HN.
    destruct (nested_flat_map_insert
                (fun s => BaseImageService.item_tasks category_name s
                            default_resolution)
                before after subcategory_name items_before items_after (ItemDict d))
      as [Hwith Hwithout].
    eexists. exists (BaseImageService.item_tasks category_name subcategory_name
                       default_resolution (ItemDict d)). eexists.
    split; [exact Hwith |]. split; [exact Hwithout |].
    assert (Hidx : map ServiceTask.index
                     (BaseImageService.item_tasks category_name subcategory_name
                        default_resolution (ItemDict d)) = range1 N).
    { unfold BaseImageService.item_tasks. rewrite HN, map_map. apply map_id. }
    split; [| split; [| split; [| split]]].
    + rewrite <- (length_map ServiceTask.index), Hidx, range1_length. lia.
    + rewrite Hidx. reflexivity.
    + rewrite Hidx. apply range1_NoDup.
    + intros i. rewrite Hidx. apply range1_spec.
    + apply Forall_forall. intros t Ht.
      unfold BaseImageService.item_tasks in Ht. apply in_map_iff in Ht.
      destruct Ht as (i & <- & _). cbn. repeat split.
Qed.

Lemma parse_category_tasks_item_expansion_witness :
  (exists P block Q : list Task.t,
      Decomposer._parse_category_tasks "base_symbols"
        ([("low_value", [Item.mk "heart_ace" "Ace of Hearts" 2 (Some "512x512");
                         Item.mk "spade_king" "King of Spades" 1 None])])
        "1024x1024" = P ++ block ++ Q
      /\ map Task.index block = [1%Z; 2%Z]
      /\ Forall (fun t => Task.resolution t = "512x512") block)
  /\ (exists P block Q : list ServiceTask.t,
        BaseImageService._parse_category_tasks "base_symbols"
          ([("low_value",
             [ItemDict (DictItem.mk (Some "heart_ace") (Some "Ace of Hearts")
                          (Some 2%Z) None)])])
          "1024x1024" = P ++ block ++ Q
        /\ map ServiceTask.index block = [1%Z; 2%Z]
        /\ Forall (fun t => ServiceTask.resolution t = "1024x1024") block).
Proof.
  destruct (parse_category_tasks_item_expansion "base_symbols" "1024x1024"
              "low_value" 2 ltac:(lia)) as [Hhandler Hservice].
  split.
  - destruct (Hhandler [] [] [] [Item.mk "spade_king" "King of Spades" 1 None]
                (Item.mk "heart_ace" "Ace of Hearts" 2 (Some "512x512")) eq_refl)
      as (P & block & Q & H1 & _ & _ & H4 & _ & _ & H7).
    + intros r [= <-]. reflexivity.
    + exists P, block, Q. split; [exact H1 |]. split; [exact H4 |].
      eapply Forall_impl; [| exact H7]. simpl. intros t H. apply H.
  - destruct (Hservice [] [] [] []
                (DictItem.mk (Some "heart_ace") (Some "Ace of Hearts")
                   (Some 2%Z) None) eq_refl)
      as (P & block & Q & H1 & _ & _ & H4 & _ & _ & H7).
    exists P, block, Q. split; [exact H1 |]. split; [exact H4 |].
    eapply Forall_impl; [| exact H7]. simpl. intros t H. apply H.
Defined.

(** ** Status aggregation *)

Section StatusRule.

Import Handler.

Lemma successful_results_le (results : list (result Output.t)) :
  length (successful_results results) <= length results.
Proof.
  induction results as [| [e | r] rest IH]; simpl; lia.
Qed.

Lemma status_of_completed (outputs : list Output.t) (total : nat) :
  status_of outputs total = completed <-> length outputs = total.
Proof.
  unfold status_of. destruct (Nat.eqb_spec (length outputs) total) as [E | E].
  - tauto.
  - destruct outputs; split; intros H; try discriminate; contradiction.
Qed.

Lemma status_of_partial (outputs : list Output.t) (total : nat) :
  status_of outputs total = partial_completed
  <-> length outputs <> total /\ 0 < length outputs.
Proof.
  unfold status_of. destruct (Nat.eqb_spec (length outputs) total) as [E | E].
  - split; [discriminate | tauto].
  - destruct outputs; simpl; split; intros H; try discriminate;
      try (split; [assumption | lia]); try reflexivity.
    destruct H; lia.
Qed.

Lemma status_of_failed (outputs : list Output.t) (total : nat) :
  status_of outputs total = failed
  <-> length outputs = 0 /\ total <> 0.
Proof.
  unfold status_of. destruct (Nat.eqb_spec (length outputs) total) as [E | E].
  - split; [discriminate |]. intros [H0 Ht]. congruence.
  - destruct outputs; simpl in *; split; intros H; try discriminate.
    + split; [reflexivity | congruence].
    + reflexivity.
    + destruct H; discriminate.
Qed.

(** With no more successes than tasks, [status_of] is the rule of the
    code. *)
Lemma status_of_rule (outputs : list Output.t) (total : nat) :
  length outputs <= total ->
  status_rule_of_code (status_of outputs total) (length outputs) total.
Proof.
  intros Hle. unfold status_rule_of_code.
  rewrite status_of_completed, status_of_partial, status_of_failed.
  repeat split; intros; try lia.
Qed.

Lemma enumerate_length {A : Type} (l : list A) :
  length (enumerate l) = length l.
Proof. unfold enumerate. rewrite length_combine, length_seq. lia. Qed.

Lemma execute_generation_le (env : Env.t) (rd : RequestData.t)
    (style : StyleData.t) (task_id : string) (refd : option ReferenceData.t) :
  length (_execute_generation env rd style task_id refd)
  <= length (generation_tasks rd refd).
Proof.
  unfold _execute_generation, gather_tasks.
  etransitivity; [apply successful_results_le |].
  now rewrite length_map, enumerate_length.
Qed.

End StatusRule.

(** C1, as the specification words it, fails on a job without tasks: a
    request whose only bucket names a subcategory with an empty item list
    decomposes into zero tasks, produces zero successes, and is reported
    [completed], where the worded rule asks for [failed]. *)
Lemma status_rule_of_spec_fails_without_tasks :
  let rd := Scenario.empty_list_request in
  let outputs :=
    Handler._execute_generation Scenario.env_ok rd ImageHandler.fallback_style
      "symbols_0" None in
  length (Handler.generation_tasks rd None) = 0
  /\ length outputs = 0
  /\ JobResult.status
       (Handler._build_result outputs rd "symbols_0" ImageHandler.fallback_style)
     = completed
  /\ ~ status_rule_of_spec
         (JobResult.status
            (Handler._build_result outputs rd "symbols_0" ImageHandler.fallback_style))
         (length outputs) (length (Handler.generation_tasks rd None)).
Proof.
  cbv zeta. repeat split; try reflexivity.
  intros (_ & _ & Hfailed).
  assert (H : completed = failed) by (apply Hfailed; reflexivity).
  discriminate H.
Qed.

(** On a reference-driven job the total is still counted on the declared
    content tree: two reference tasks that both succeed against one
    declared task are reported [partial_completed]. *)
Lemma reference_job_total_is_declared_total :
  let rd := Scenario.reference_request in
  let refd := Some Scenario.reference_bundle in
  let outputs :=
    Handler._execute_generation Scenario.env_ok rd ImageHandler.fallback_style
      "symbols_0" refd in
  length (Handler.generation_tasks rd refd) = 2
  /\ length outputs = 2
  /\ JobResult.metadata
       (Handler._build_result outputs rd "symbols_0" ImageHandler.fallback_style)
     = Metadata.mk 1 2 (-1)
  /\ JobResult.status
       (Handler._build_result outputs rd "symbols_0" ImageHandler.fallback_style)
     = partial_completed.
Proof. cbv zeta. repeat split; reflexivity. Qed.

(** C1 (amended).  For a job whose tasks come from the declared content
    tree, with [total] tasks and [successes] successful results, the status
    reported by [_build_result], and the status reported for each module of
    a composite job by [_execute_parallel_modules], is [completed] iff
    successes = total (a job without tasks included), [partial_completed]
    iff 0 < successes < total, and [failed] iff successes = 0 < total. *)
Theorem module_status_rule (env : Env.t) (task_id : string)
    (refd : option ReferenceData.t) :
  (forall (rd : RequestData.t) (style : StyleData.t),
      Handler.generation_tasks rd refd
      = Decomposer._parse_generation_tasks (RequestData.generation_params rd) ->
      let outputs := Handler._execute_generation env rd style task_id refd in
      status_rule_of_code
        (JobResult.status (Handler._build_result outputs rd task_id style))
        (length outputs) (length (Handler.generation_tasks rd refd)))
  /\ (forall (module_requests : list (string * (RequestData.t * StyleData.t)))
        (name : string) (rd : RequestData.t) (style : StyleData.t),
      In (name, (rd, style)) module_requests ->
      Handler.generation_tasks rd refd
      = Decomposer._parse_generation_tasks (RequestData.generation_params rd) ->
      let outputs := Handler._execute_generation env rd style task_id refd in
      exists r : ModuleResult.t,
        In (name, r)
           (Handler._execute_parallel_modules env module_requests refd task_id)
        /\ ModuleResult.outputs r = outputs
        /\ status_rule_of_code (ModuleResult.status r)
             (length outputs) (length (Handler.generation_tasks rd refd))).
Proof.
  split.
  - intros rd style Htasks outputs. simpl.
    rewrite <- Htasks. apply status_of_rule. apply execute_generation_le.
  - intros reqs name rd style Hin Htasks outputs.
    exists (Handler.module_result name rd (ret outputs)). split; [| split].
    + unfold Handler._execute_parallel_modules.
      apply in_map_iff. exists (name, (rd, style)). split; [reflexivity | exact Hin].
    + reflexivity.
    + simpl. rewrite <- Htasks. apply status_of_rule. apply execute_generation_le.
Qed.

Lemma module_status_rule_witness :
  let rd := Scenario.six_task_request in
  let env := Scenario.env_with (Scenario.ai_failing_on "King of Spades") [] in
  let outputs :=
    Handler._execute_generation env rd ImageHandler.fallback_style "symbols_0" None in
  length (Handler.generation_tasks rd None) = 6
  /\ length outputs = 5
  /\ JobResult.status
       (Handler._build_result outputs rd "symbols_0" ImageHandler.fallback_style)
     = partial_completed.
Proof.
  cbv zeta.
  pose proof (proj1 (module_status_rule
                       (Scenario.env_with (Scenario.ai_failing_on "King of Spades") [])
                       "symbols_0" None)
                Scenario.six_task_request ImageHandler.fallback_style eq_refl) as H.
  cbv zeta in H. destruct H as (_ & Hpartial & _).
  split; [reflexivity |]. split; [reflexivity |].
  apply Hpartial. split; vm_compute; lia.
Defined.

(** ** Dictionaries *)

Section Dictionaries.

Context {V : Type}.

Lemma lookup_store_eq (k : string) (v : V) (d : list (string * V)) :
  lookup k (store k v d) = Some v.
Proof.
  induction d as [| [k' v'] d IH]; simpl.
  - now rewrite String.eqb_refl.
  - destruct (String.eqb_spec k k') as [-> | Hne]; simpl.
    + now rewrite String.eqb_refl.
    + destruct (String.eqb_spec k k'); [contradiction | exact IH].
Qed.

Lemma lookup_store_ne (k k' : string) (v : V) (d : list (string * V)) :
  k <> k' -> lookup k' (store k v d) = lookup k' d.
Proof.
  intros Hne. induction d as [| [k0 v0] d IH]; simpl.
  - destruct (String.eqb_spec k' k); [congruence | reflexivity].
  - destruct (String.eqb_spec k k0) as [-> | Hk]; simpl.
    + destruct (String.eqb_spec k' k0); [congruence | reflexivity].
    + destruct (String.eqb_spec k' k0); [reflexivity | exact IH].
Qed.

Lemma has_key_lookup (k : string) (d : list (string * V)) :
  has_key k d = true <-> lookup k d <> None.
Proof.
  unfold has_key. destruct (lookup k d); split; intros H;
    try reflexivity; try discriminate; congruence.
Qed.

End Dictionaries.

(** ** Validation of the AI-enhanced response *)

Section EnhancedResponse.

Import ArtStyle.

Lemma missing_fields_object (names : list string) (fields : list (string * json)) :
  missing_fields names (JObj fields)
  = inr (filter (fun f => negb (has_key f fields)) names).
Proof.
  induction names as [| f names IH]; simpl; [reflexivity |].
  rewrite IH. simpl. destruct (has_key f fields); reflexivity.
Qed.

Lemma filter_absent_nil (names : list string) (fields : list (string * json)) :
  filter (fun f => negb (has_key f fields)) names = []
  <-> (forall f, In f names -> lookup f fields <> None).
Proof.
  induction names as [| f names IH]; simpl.
  - split; [intros _ f [] | reflexivity].
  - destruct (has_key f fields) eqn:E; simpl.
    + rewrite IH. split.
      * intros H g [<- | Hg]; [now apply has_key_lookup | now apply H].
      * intros H g Hg. apply H. now right.
    + split; [discriminate |]. intros H. exfalso.
      assert (Hf : lookup f fields <> None) by (apply H; now left).
      apply has_key_lookup in Hf. congruence.
Qed.

Lemma none_to_empty_lookup (names : list string) (f : string)
    (fields : list (string * json)) :
  lookup f (none_to_empty names fields)
  = match lookup f fields with
    | Some JNull => if existsb (String.eqb f) names then Some (JStr "") else Some JNull
    | other => other
    end.
Proof.
  revert fields. induction names as [| g names IH]; intros fields; simpl.
  - destruct (lookup f fields) as [[] |]; reflexivity.
  - rewrite IH. destruct (String.eqb_spec f g) as [-> | Hne]; simpl.
    + destruct (lookup g fields) as [[] |] eqn:E; rewrite ?E; try reflexivity.
      rewrite lookup_store_eq. reflexivity.
    + destruct (lookup g fields) as [[] |] eqn:E; try reflexivity.
      rewrite lookup_store_ne by congruence. reflexivity.
Qed.

End EnhancedResponse.

(** C5.  Once the model has answered, the AI-enhanced resolver (a) fails
    when the answer is not well-formed JSON, (b) fails when the decoded
    answer has no ['components'] entry, (c) checks the six required keys and
    fails when one of them is absent, and, when the six keys are present and
    [base_prompt] is text or a falsy value, returns components in which
    (d) an empty [base_prompt] is replaced by the caller's input and a
    non-empty one is kept, and (e) each of the other five fields whose
    value is null is the empty string, every other value being kept. *)
Theorem enhanced_response_validation (env : Env.t)
    (custom_prompt provider model response : string) (ai : AiService.t) :
  Env.get_service env provider = inr ai ->
  AiService.run_inference ai model
    (EnhanceStyle custom_prompt (existsb (String.eqb model) ArtStyle.json_models))
  = inr response ->
  let outcome :=
    ArtStyle._generate_enhanced_style_with_components env custom_prompt
      provider model in
  (Env.json_loads env (strip response) = None ->
   outcome = inl (ValueError NotValidJson))
  /\ (forall parsed,
        Env.json_loads env (strip response) = Some parsed ->
        ArtStyle.py_in "components" parsed <> inr true ->
        exists e, outcome = inl e)
  /\ (forall top,
        Env.json_loads env (strip response) = Some (JObj top) ->
        lookup "components" top = None ->
        outcome = inl (ValueError MissingComponentsField))
  /\ (forall top fields f,
        Env.json_loads env (strip response) = Some (JObj top) ->
        lookup "components" top = Some (JObj fields) ->
        In f ArtStyle.required_fields -> lookup f fields = None ->
        exists missing,
          outcome = inl (ValueError (MissingRequiredFields missing))
          /\ In f missing)
  /\ (forall top fields,
        Env.json_loads env (strip response) = Some (JObj top) ->
        lookup "components" top = Some (JObj fields) ->
        (forall f, In f ArtStyle.required_fields -> lookup f fields <> None) ->
        (forall v, lookup "base_prompt" fields = Some v ->
                   json_truthy v = true -> exists text, v = JStr text) ->
        exists components enhanced_prompt,
          outcome = inr (components, enhanced_prompt)
          /\ (forall v, lookup "base_prompt" fields = Some v ->
                lookup "base_prompt" components
                = Some (if base_prompt_empty v then JStr custom_prompt else v))
          /\ (forall f, In f optional_fields ->
                lookup f fields = Some JNull ->
                lookup f components = Some (JStr ""))
          /\ (forall f v, In f optional_fields ->
                lookup f fields = Some v -> v <> JNull ->
                lookup f components = Some v)).
Proof.
  intros Hsvc Hrun outcome. subst outcome.
  unfold ArtStyle._generate_enhanced_style_with_components.
  rewrite Hsvc. result_step. rewrite Hrun. result_step.
  unfold ArtStyle.parse_enhanced_response.
  split; [| split; [| split; [| split]]].
  - intros ->. reflexivity.
  - intros parsed -> Hin.
    destruct (ArtStyle.py_in "components" parsed) as [e | [|]] eqn:E;
      result_step; [eauto | congruence | eauto].
  - intros top -> Hnone. result_step. unfold has_key. rewrite Hnone. reflexivity.
  - intros top fields f -> Hcomp Hin Hnone.
    result_step. unfold has_key at 1. rewrite Hcomp. result_step.
    rewrite ?Hcomp. result_step. rewrite missing_fields_object.
    assert (Hmiss : In f (filter (fun g => negb (has_key g fields))
                            ArtStyle.required_fields)).
    { apply filter_In. split; [exact Hin |].
      unfold has_key. now rewrite Hnone. }
    destruct (filter (fun g => negb (has_key g fields)) ArtStyle.required_fields)
      as [| m ms] eqn:E; [destruct Hmiss |].
    exists (m :: ms). split; [reflexivity | exact Hmiss].
  - intros top fields -> Hcomp Hall Hbase.
    result_step. unfold has_key at 1. rewrite Hcomp. result_step.
    rewrite ?Hcomp. result_step. rewrite missing_fields_object.
    rewrite (proj2 (filter_absent_nil _ _) Hall).
    assert (Hb : lookup "base_prompt" fields <> None)
      by (apply Hall; simpl; auto).
    destruct (lookup "base_prompt" fields) as [base |] eqn:Eb; [| congruence].
    unfold ArtStyle.get_json at 1 2. rewrite Eb.
    destruct (json_truthy base) eqn:Et; result_step.
    + destruct (Hbase base eq_refl Et) as [text ->]. result_step.
      eexists. eexists. split; [reflexivity |]. split; [| split].
      * intros v [= <-]. rewrite none_to_empty_lookup.
        unfold base_prompt_empty. rewrite Et. cbn [negb orb].
        destruct (truthy (strip text)); cbn [negb].
        -- rewrite Eb. reflexivity.
        -- rewrite lookup_store_eq. reflexivity.
      * intros f Hf Hnull. rewrite none_to_empty_lookup.
        assert (Hne : "base_prompt" <> f)
          by (intros <-; rewrite Eb in Hnull; discriminate).
        destruct (truthy (strip text)); cbn [negb];
          rewrite ?lookup_store_ne by exact Hne; rewrite Hnull;
          unfold optional_fields in Hf; simpl in Hf;
          decompose [or] Hf; subst; try reflexivity; contradiction.
      * intros f v Hf Hv Hnn. rewrite none_to_empty_lookup.
        destruct (String.eqb_spec "base_prompt" f) as [<- | Hne].
        -- simpl in Hf. decompose [or] Hf; try discriminate; contradiction.
        -- destruct (truthy (strip text)); cbn [negb];
             rewrite ?lookup_store_ne by exact Hne; rewrite Hv;
             destruct v; try reflexivity; congruence.
    + eexists. eexists. split; [reflexivity |]. split; [| split].
      * intros v [= <-]. rewrite none_to_empty_lookup.
        rewrite lookup_store_eq. unfold base_prompt_empty. rewrite Et. reflexivity.
      * intros f Hf Hnull. rewrite none_to_empty_lookup.
        destruct (String.eqb_spec "base_prompt" f) as [<- | Hne].
        -- simpl in Hf. decompose [or] Hf; try discriminate; contradiction.
        -- rewrite lookup_store_ne by exact Hne. rewrite Hnull.
           simpl in Hf; decompose [or] Hf; subst; try reflexivity; contradiction.
      * intros f v Hf Hv Hnn. rewrite none_to_empty_lookup.
        destruct (String.eqb_spec "base_prompt" f) as [<- | Hne].
        -- simpl in Hf. decompose [or] Hf; try discriminate; contradiction.
        -- rewrite lookup_store_ne by exact Hne. rewrite Hv.
           destruct v; try reflexivity; congruence.
Qed.

Lemma enhanced_response_validation_witness :
  exists components enhanced_prompt,
    ArtStyle._generate_enhanced_style_with_components Scenario.enhance_env
      "festive style" "openai" "gpt-4o" = inr (components, enhanced_prompt)
    /\ lookup "base_prompt" components = Some (JStr "festive style")
    /\ lookup "lighting" components = Some (JStr "")
    /\ lookup "effects" components = Some (JStr "soft glow").
Proof.
  destruct (enhanced_response_validation Scenario.enhance_env
              "festive style" "openai" "gpt-4o" Scenario.blank_base_answer
              (Scenario.ai_answering Scenario.blank_base_answer)
              eq_refl eq_refl) as (_ & _ & _ & _ & Hok).
  destruct (Hok _ _ eq_refl eq_refl) as (components & enhanced & Hrun & Hb & Hnull & Hkeep).
  - intros f Hf. simpl in Hf. decompose [or] Hf; subst; try discriminate; contradiction.
  - intros v [= <-] _. eauto.
  - exists components, enhanced. split; [exact Hrun |]. split; [| split].
    + apply (Hb (JStr "  ")). reflexivity.
    + apply Hnull; [simpl; auto 10 | reflexivity].
    + apply Hkeep; [simpl; auto 10 | reflexivity | discriminate].
Defined.

(** ** The base prompt of a resolved style *)

Section BasePrompt.

Import ArtStyle.


Lemma lookup_In {V : Type} (k : string) (v : V) (d : list (string * V)) :
  lookup k d = Some v -> In (k, v) d.
Proof.
  induction d as [| [k' v'] d IH]; simpl; [discriminate |].
  destruct (String.eqb_spec k k') as [-> | _].
  - intros [= ->]. now left.
  - intros H. right. now apply IH.
Qed.

Lemma preset_base_prompts_nonempty :
  Forall (fun entry => truthy (ThemeConfig.base_prompt (snd entry)) = true)
    preset_themes.
Proof. repeat constructor. Qed.

(** Preset mode: the base prompt of a catalogue entry is never empty. *)
Lemma preset_style_base_prompt (preset_theme : string) (style : StyleData.t) :
  generate_preset_style preset_theme = inr style ->
  base_prompt_missing style = false.
Proof.
  unfold generate_preset_style.
  destruct (truthy preset_theme); cbn [negb]; [| discriminate].
  destruct (lookup preset_theme preset_themes) as [cfg |] eqn:E; [| discriminate].
  intros [= <-]. unfold base_prompt_missing. simpl.
  apply lookup_In in E.
  pose proof (proj1 (Forall_forall _ _) preset_base_prompts_nonempty _ E) as H.
  simpl in H. now rewrite H.
Qed.

(** Direct mode: a validated [ArtStyleComponents] has a base prompt. *)
Lemma custom_direct_style_base_prompt (raw c : ArtStyleComponents.t)
    (style : StyleData.t) :
  ArtStyleComponents.init raw = inr c ->
  generate_custom_direct_style c = inr style ->
  base_prompt_missing style = false.
Proof.
  unfold ArtStyleComponents.init.
  destruct (truthy (ArtStyleComponents.base_prompt raw));
    cbn [negb orb]; [| discriminate].
  destruct (truthy (strip (ArtStyleComponents.base_prompt raw))) eqn:E;
    cbn [negb]; [| discriminate].
  intros [= <-]. unfold generate_custom_direct_style.
  destruct (filter_parts _) as [e | parts]; [discriminate |].
  intros [= <-]. unfold base_prompt_missing. simpl. now rewrite E.
Qed.

End BasePrompt.

(** ** The base prompt of the AI-enhanced style *)

Section EnhancedBasePrompt.

Import ArtStyle.



End EnhancedBasePrompt.

(** C3 fails in reference-image mode.  The model answers the image
    analysis with components whose [base_prompt] is the empty string; the
    resolver returns a descriptor of mode [reference_image] whose
    [components.base_prompt] is that empty string: nothing is substituted
    for it. *)
Theorem reference_image_style_empty_base_prompt :
  exists style : StyleData.t,
    snd (TempImages.run Scenario.analysis_env Scenario.one_image
           "openai" "gpt-4o" 3) = inr style
    /\ StyleData.mode style = Some "reference_image"
    /\ option_map (lookup "base_prompt") (StyleData.components style)
       = Some (Some (JStr ""))
    /\ base_prompt_missing style = true.
Proof. eexists. repeat split. Qed.

(** ** Life cycle of the temporary reference images *)

Section TempImageLifecycle.

Import Storage TempImages.

Variable env : Env.t.

Lemma cleanup_temp_image_spec (key : string) (st : State) :
  exists success : bool,
    _cleanup_temp_image env key st
    = (mkState (events st ++ [DeleteInvoked key]) (upload_results st),
       inr success).
Proof.
  unfold _cleanup_temp_image, emit. cbn [bind Monad_M].
  destruct (Env.delete_file env key) as [e | success].
  - exists false. reflexivity.
  - exists success. reflexivity.
Qed.

Lemma cleanup_each_spec (results : list UploadResult.t) (st : State) :
  cleanup_each env results st
  = (mkState (events st
              ++ map (fun u => DeleteInvoked (UploadResult.s3_key u)) results)
       (upload_results st), inr tt).
Proof.
  revert st. induction results as [| u rest IH]; intros st.
  - simpl. rewrite app_nil_r. now destruct st.
  - cbn [cleanup_each bind Monad_M].
    destruct (cleanup_temp_image_spec (UploadResult.s3_key u) st) as [b ->].
    rewrite IH. cbn [events upload_results map]. now rewrite <- app_assoc.
Qed.

Lemma cleanup_all_spec (st : State) :
  cleanup_all env st
  = (mkState (events st
              ++ map (fun u => DeleteInvoked (UploadResult.s3_key u))
                   (upload_results st))
       (upload_results st), inr tt).
Proof.
  unfold cleanup_all, get_upload_results. cbn [bind Monad_M].
  apply cleanup_each_spec.
Qed.

(** The call returns what its [try] block returned or raised, after the
    cleanup of every recorded upload. *)
Lemma generate_reference_image_style_spec (images : list UploadFile.t)
    (provider model : string) (max_images : Z) (st : State) :
  generate_reference_image_style env images provider model max_images st
  = let (st1, outcome) := resolve env images provider model max_images st in
    (mkState (events st1
              ++ map (fun u => DeleteInvoked (UploadResult.s3_key u))
                   (upload_results st1))
       (upload_results st1), outcome).
Proof.
  unfold generate_reference_image_style, try_finally.
  destruct (resolve env images provider model max_images st) as [st1 outcome].
  now rewrite cleanup_all_spec.
Qed.

Lemma uploaded_keys_app (l1 l2 : list StorageEvent) :
  uploaded_keys (l1 ++ l2) = uploaded_keys l1 ++ uploaded_keys l2.
Proof. apply flat_map_app. Qed.

Lemma deleted_keys_app (l1 l2 : list StorageEvent) :
  deleted_keys (l1 ++ l2) = deleted_keys l1 ++ deleted_keys l2.
Proof. apply flat_map_app. Qed.

Lemma deleted_keys_of_cleanup (results : list UploadResult.t) :
  deleted_keys (map (fun u => DeleteInvoked (UploadResult.s3_key u)) results)
  = map UploadResult.s3_key results.
Proof. induction results; simpl; congruence. Qed.

Lemma uploaded_keys_of_cleanup (results : list UploadResult.t) :
  uploaded_keys (map (fun u => DeleteInvoked (UploadResult.s3_key u)) results) = [].
Proof. induction results; simpl; congruence. Qed.

(** The three outcomes of [_upload_temp_image]: the upload fails; the
    upload succeeds and the signed URL fails; both succeed. *)
Lemma upload_temp_image_cases (i : nat) (image : UploadFile.t) (suffix : string)
    (st : State) :
  (exists e, _upload_temp_image env i image suffix st = (st, inl e))
  \/ (exists key e,
        _upload_temp_image env i image suffix st
        = (mkState (events st ++ [Uploaded key]) (upload_results st), inl e)
        /\ Env.generate_presigned_url env key = inl e)
  \/ (exists key url,
        _upload_temp_image env i image suffix st
        = (mkState (events st ++ [Uploaded key]) (upload_results st),
           inr (UploadResult.mk url key))
        /\ Env.generate_presigned_url env key = inr url).
Proof.
  unfold _upload_temp_image. cbn [bind Monad_M lift].
  destruct (Env.upload_temp_file env i _) as [e | key].
  - left. eauto.
  - cbn [emit]. destruct (Env.generate_presigned_url env key) as [e | url] eqn:E.
    + right. left. exists key, e. auto.
    + right. right. exists key, url. auto.
Qed.

(** What the upload loop adds to the log and to [upload_results]: no
    delete; every recorded result was uploaded; and, when no signed-URL
    generation fails, every upload is recorded. *)
Lemma upload_each_log (images : list UploadFile.t) (i : nat) (st : State) :
  exists new_events new_results,
    events (fst (upload_each env i images st)) = events st ++ new_events
    /\ upload_results (fst (upload_each env i images st))
       = upload_results st ++ new_results
    /\ deleted_keys new_events = []
    /\ incl (map UploadResult.s3_key new_results) (uploaded_keys new_events)
    /\ ((forall key, is_ok (Env.generate_presigned_url env key) = true) ->
        uploaded_keys new_events = map UploadResult.s3_key new_results).
Proof.
  revert i st. induction images as [| image rest IH]; intros i st.
  - exists [], []. simpl. rewrite !app_nil_r. repeat split; auto using incl_nil_l.
  - cbn [upload_each bind Monad_M].
    destruct (upload_temp_image_cases i image
                ("_img_" ++ NilZero.string_of_uint (Nat.to_uint i))%string st)
      as [(e & ->) | [(key & e & -> & Epre) | (key & url & -> & Epre)]].
    + exists [], []. cbn [fst]. rewrite !app_nil_r.
      repeat split; auto using incl_nil_l.
    + exists [Uploaded key], []. cbn [fst events upload_results].
      rewrite app_nil_r. repeat split; auto using incl_nil_l.
      intros Hok. specialize (Hok key). rewrite Epre in Hok. discriminate.
    + cbn [append_upload_result events upload_results].
      match goal with
      | |- context [upload_each env (S i) rest ?s] =>
          destruct (IH (S i) s) as (ev & rs & Hev & Hrs & Hdel & Hincl & Hall);
          destruct (upload_each env (S i) rest s) as [st' [e | urls]]
      end;
        cbn [fst events upload_results ret Monad_M] in *;
        exists (Uploaded key :: ev), (UploadResult.mk url key :: rs);
        (split; [rewrite Hev, <- app_assoc; reflexivity |]);
        (split; [rewrite Hrs, <- app_assoc; reflexivity |]);
        (split; [exact Hdel |]);
        (split; [simpl; intros k [<- | Hk]; [now left | right; now apply Hincl]
                | intros Hok; simpl; now rewrite Hall]).
Qed.

(** The same facts for a whole call, from an empty log. *)
Lemma run_log (images : list UploadFile.t) (provider model : string)
    (max_images : Z) :
  let st := fst (run env images provider model max_images) in
  deleted_keys (events st) = map UploadResult.s3_key (upload_results st)
  /\ incl (deleted_keys (events st)) (uploaded_keys (events st))
  /\ ((forall key, is_ok (Env.generate_presigned_url env key) = true) ->
      uploaded_keys (events st) = deleted_keys (events st)).
Proof.
  unfold run. rewrite generate_reference_image_style_spec.
  assert (Hres : exists ev rs,
             events (fst (resolve env images provider model max_images initial)) = ev
             /\ upload_results (fst (resolve env images provider model max_images initial)) = rs
             /\ deleted_keys ev = []
             /\ incl (map UploadResult.s3_key rs) (uploaded_keys ev)
             /\ ((forall key, is_ok (Env.generate_presigned_url env key) = true) ->
                 uploaded_keys ev = map UploadResult.s3_key rs)).
  { unfold resolve. cbn [bind Monad_M lift].
    destruct (ArtStyle.check_model env provider model _ _ _) as [e | ai].
    { exists [], []. cbn. repeat split; auto using incl_nil_l. }
    destruct images as [| image rest].
    { exists [], []. cbn. repeat split; auto using incl_nil_l. }
    cbn [bind Monad_M].
    match goal with
    | |- context [upload_each env 0 ?imgs initial] =>
        destruct (upload_each_log imgs 0 initial)
          as (ev & rs & Hev & Hrs & Hdel & Hincl & Hall);
        destruct (upload_each env 0 imgs initial) as [st' [e | urls]]
    end; cbn [fst events upload_results initial app] in *.
    - exists ev, rs. auto.
    - exists ev, rs.
      destruct (ArtStyle._analyze_images_and_generate_components env urls provider model)
        as [e | analysis]; cbn [fst]; [auto |].
      destruct (ArtStyle.get_json "components" analysis JNull); cbn [fst lift]; auto.
      destruct (ArtStyle.filter_parts _); cbn [fst]; auto. }
  destruct Hres as (ev & rs & Hev & Hrs & Hdel & Hincl & Hall).
  destruct (resolve env images provider model max_images initial) as [st1 outcome].
  cbn [fst events upload_results] in *. subst ev rs.
  rewrite deleted_keys_app, uploaded_keys_app, Hdel,
    deleted_keys_of_cleanup, uploaded_keys_of_cleanup, app_nil_r.
  cbn [app]. split; [reflexivity |]. split; [exact Hincl |].
  intros Hok. now apply Hall.
Qed.

End TempImageLifecycle.

(** C6 fails when the signed URL of an uploaded image cannot be generated.
    The image has been uploaded under its temporary key, the failure leaves
    [_upload_temp_image] before the upload is recorded in [upload_results],
    and the [finally] block, which only walks [upload_results], invokes no
    delete for that key: the call raises and the object stays in storage. *)
Theorem staged_image_not_deleted_when_signed_url_fails :
  let st := fst (TempImages.run Scenario.presign_failing_env Scenario.one_image
                   "openai" "gpt-4o" 3) in
  snd (TempImages.run Scenario.presign_failing_env Scenario.one_image
         "openai" "gpt-4o" 3)
  = inl (StorageFailure (Upstream "presign failed"))
  /\ TempImages.uploaded_keys (Storage.events st) = ["art-style/temp/ref_img_0.png"]
  /\ TempImages.deleted_keys (Storage.events st) = []
  /\ ~ incl (TempImages.uploaded_keys (Storage.events st))
         (TempImages.deleted_keys (Storage.events st)).
Proof.
  cbv zeta. split; [reflexivity |]. split; [reflexivity |]. split; [reflexivity |].
  intros H. apply (H "art-style/temp/ref_img_0.png"). now left.
Qed.

(** On the paths named by the specification the images are released: a
    successful call and a call whose analysis fails both delete each
    uploaded key. *)
Lemma staged_images_deleted_on_success :
  let st := fst (TempImages.run Scenario.analysis_env Scenario.two_images
                   "openai" "gpt-4o" 3) in
  TempImages.uploaded_keys (Storage.events st)
  = ["art-style/temp/a_img_0.png"; "art-style/temp/b_img_1.jpg"]
  /\ TempImages.deleted_keys (Storage.events st)
     = TempImages.uploaded_keys (Storage.events st).
Proof. cbv zeta. split; reflexivity. Qed.

(** ** Cleanup failures *)

Section CleanupFailures.

Import Storage TempImages.

Variable env : Env.t.

Lemma upload_each_delete_irrelevant (d : string -> result bool)
    (images : list UploadFile.t) (i : nat) (st : State) :
  upload_each (with_delete_file env d) i images st = upload_each env i images st.
Proof.
  revert i st. induction images as [| image rest IH]; intros i st; [reflexivity |].
  cbn [upload_each bind Monad_M].
  change (_upload_temp_image (with_delete_file env d) i image)
    with (_upload_temp_image env i image).
  destruct (_upload_temp_image env i image _ st) as [st1 [e | u]]; [reflexivity |].
  destruct (append_upload_result u st1) as [st2 [e | []]]; [reflexivity |].
  now rewrite IH.
Qed.

Lemma resolve_delete_irrelevant (d : string -> result bool)
    (images : list UploadFile.t) (provider model : string) (max_images : Z)
    (st : State) :
  resolve (with_delete_file env d) images provider model max_images st
  = resolve env images provider model max_images st.
Proof.
  unfold resolve. cbn [bind Monad_M lift].
  change (ArtStyle.check_model (with_delete_file env d))
    with (ArtStyle.check_model env).
  destruct (ArtStyle.check_model env provider model _ _ _) as [e | ai];
    [reflexivity |].
  destruct images as [| image rest]; [reflexivity |].
  cbn [bind Monad_M]. rewrite upload_each_delete_irrelevant.
  reflexivity.
Qed.

End CleanupFailures.

(** C10.  [_cleanup_temp_image] never raises: whatever the storage delete
    does (returns true, returns false, raises), it returns a boolean.  Hence
    the outcome of [generate_reference_image_style], the descriptor returned
    or the exception raised, is the outcome of its [try] block and is the
    same for any two behaviours of the storage delete. *)
Theorem cleanup_failure_never_changes_the_outcome (env : Env.t)
    (delete1 delete2 : string -> result bool)
    (images : list UploadFile.t) (provider model : string) (max_images : Z) :
  (forall key st, exists success : bool,
      snd (TempImages._cleanup_temp_image
             (TempImages.with_delete_file env delete1) key st) = inr success)
  /\ snd (TempImages.run (TempImages.with_delete_file env delete1)
            images provider model max_images)
     = snd (TempImages.resolve env images provider model max_images
              Storage.initial)
  /\ snd (TempImages.run (TempImages.with_delete_file env delete1)
            images provider model max_images)
     = snd (TempImages.run (TempImages.with_delete_file env delete2)
              images provider model max_images).
Proof.
  assert (Hrun : forall d,
             snd (TempImages.run (TempImages.with_delete_file env d)
                    images provider model max_images)
             = snd (TempImages.resolve env images provider model max_images
                      Storage.initial)).
  { intros d. unfold TempImages.run.
    rewrite generate_reference_image_style_spec, resolve_delete_irrelevant.
    now destruct (TempImages.resolve env images provider model max_images
                    Storage.initial). }
  split; [| split].
  - intros key st.
    destruct (cleanup_temp_image_spec (TempImages.with_delete_file env delete1) key st)
      as [success ->]. now exists success.
  - apply Hrun.
  - now rewrite !Hrun.
Qed.

(** A delete that raises on every key: the descriptor is still returned,
    and the deletes were invoked. *)
Lemma cleanup_failure_example :
  snd (TempImages.run Scenario.delete_raising_env Scenario.one_image
         "openai" "gpt-4o" 3)
  = snd (TempImages.run Scenario.analysis_env Scenario.one_image
           "openai" "gpt-4o" 3)
  /\ is_ok (snd (TempImages.run Scenario.delete_raising_env Scenario.one_image
                   "openai" "gpt-4o" 3)) = true
  /\ TempImages.deleted_keys
       (Storage.events
          (fst (TempImages.run Scenario.delete_raising_env Scenario.one_image
                  "openai" "gpt-4o" 3)))
     = ["art-style/temp/ref_img_0.png"].
Proof. repeat split. Qed.

(** ** Failures of request parsing *)

Section ParseRequest.

Import Handler ImageHandler.

Lemma art_style_field_error (raw : RawParams.t) (e : PyExc) :
  DtoParams.art_style_field raw = inl e ->
  exists why, e = PydanticValidationError why.
Proof.
  unfold DtoParams.art_style_field, DtoParams.ArtStyleConfig_init.
  destruct (RawParams.art_style raw) as [a |]; [| intros [= <-]; eauto].
  destruct (ArtStyleMode_of_string (RawArtStyle.mode a)) as [[] |];
    try (intros [= <-]; eauto);
    match goal with
    | |- context [if ?c then _ else _] => destruct c
    end; intros [= <-]; eauto.
Qed.

Lemma bucket_field_falsy (raw : RawParams.t) (name : string) :
  bucket_truthy (lookup name (RawParams.buckets raw)) = false ->
  exists o, DtoParams.bucket_field raw name = inr o /\ bucket_truthy o = false.
Proof.
  unfold DtoParams.bucket_field.
  destruct (lookup name (RawParams.buckets raw)) as [[| entry d] |]; simpl.
  - exists (Some []). auto.
  - discriminate.
  - exists None. auto.
Qed.

Lemma recognized_cases (module : string) :
  recognized module = true ->
  module = "symbols" \/ module = "ui" \/ module = "backgrounds".
Proof.
  unfold recognized. rewrite !orb_true_iff, !String.eqb_eq. tauto.
Qed.

Lemma get_service_unrecognized (module : string) :
  recognized module = false ->
  _get_service module = inl (ValueError (UnsupportedModule module)).
Proof.
  unfold recognized, _get_service. rewrite !orb_false_iff.
  intros [[-> ->] ->]. reflexivity.
Qed.

(** A parameter class fed with falsy buckets only raises a validation
    error. *)
Lemma init_without_bucket (module : string) (raw : RawParams.t)
    (init : RawParams.t -> result GenerationInput) :
  param_class module = Some init ->
  no_bucket_provided module raw = true ->
  exists why, init raw = inl (PydanticValidationError why).
Proof.
  unfold param_class, no_bucket_provided, content_buckets.
  destruct (module =? "symbols");
    [| destruct (module =? "ui"); [| destruct (module =? "backgrounds")]];
    try discriminate; intros [= <-]; cbn [forallb]; rewrite !andb_true_iff;
    rewrite !negb_true_iff.
  - intros (H1 & H2 & H3 & _).
    unfold DtoParams.SymbolsGenerationInput_init.
    destruct (DtoParams.art_style_field raw) as [e | a] eqn:Ea.
    + destruct (art_style_field_error _ _ Ea) as [why ->]. exists why. reflexivity.
    + cbn [bind Monad_result].
      destruct (bucket_field_falsy raw _ H1) as (o1 & -> & F1).
      destruct (bucket_field_falsy raw _ H2) as (o2 & -> & F2).
      destruct (bucket_field_falsy raw _ H3) as (o3 & -> & F3).
      cbn [bind Monad_result DtoParams.at_least_one_content existsb].
      rewrite F1, F2, F3. eexists. reflexivity.
  - intros (H1 & H2 & H3 & _).
    unfold DtoParams.UIGenerationInput_init.
    destruct (DtoParams.art_style_field raw) as [e | a] eqn:Ea.
    + destruct (art_style_field_error _ _ Ea) as [why ->]. exists why. reflexivity.
    + cbn [bind Monad_result].
      destruct (bucket_field_falsy raw _ H1) as (o1 & -> & F1).
      destruct (bucket_field_falsy raw _ H2) as (o2 & -> & F2).
      destruct (bucket_field_falsy raw _ H3) as (o3 & -> & F3).
      cbn [bind Monad_result DtoParams.at_least_one_content existsb].
      rewrite F1, F2, F3. eexists. reflexivity.
  - intros (H1 & H2 & _).
    unfold DtoParams.BackgroundsGenerationInput_init.
    destruct (DtoParams.art_style_field raw) as [e | a] eqn:Ea.
    + destruct (art_style_field_error _ _ Ea) as [why ->]. exists why. reflexivity.
    + cbn [bind Monad_result].
      destruct (bucket_field_falsy raw _ H1) as (o1 & -> & F1).
      destruct (bucket_field_falsy raw _ H2) as (o2 & -> & F2).
      cbn [bind Monad_result DtoParams.at_least_one_content existsb].
      rewrite F1, F2. eexists. reflexivity.
Qed.

Lemma recognized_service (module : string) :
  recognized module = true ->
  exists service init,
    _get_service module = inr service /\ param_class module = Some init.
Proof.
  intros H. destruct (recognized_cases _ H) as [-> | [-> | ->]];
    eexists; eexists; split; reflexivity.
Qed.

End ParseRequest.

(** C7, as the specification words it, fails on a request whose only
    bucket names a subcategory with an empty item list: no bucket contains
    an item, yet the request is accepted, decomposes into no task, and the
    job is answered ([completed], no output). *)
Lemma empty_item_list_passes_validation :
  ImageHandler.no_item_declared "symbols" Scenario.empty_list_params = true
  /\ exists (rd : RequestData.t) (job : JobResult.t),
       Handler._parse_request Scenario.env_ok "symbols" "gpt_image_1"
         "prompt_only" Scenario.empty_list_params None = inr rd
       /\ Decomposer._parse_generation_tasks (RequestData.generation_params rd) = []
       /\ ImageHandler.handle_module_generation_json Scenario.env_ok "symbols"
            "gpt_image_1" "prompt_only" Scenario.empty_list_params None
            "symbols_0" = inr job
       /\ JobResult.status job = completed
       /\ JobResult.outputs job = [].
Proof.
  split; [reflexivity |]. eexists. eexists. repeat split.
Qed.

(** C7 (amended).  Request parsing fails with the unsupported-module
    [ValueError] when the module name is not one of symbols, ui and
    backgrounds, and with a pydantic validation error when every content
    bucket of the module (its fixed categories and the custom-content
    bucket) is absent or an empty dictionary; the entry point surfaces both
    as an HTTP 400 error carrying the reason, and no task is decomposed. *)
Theorem parse_request_failures (env : Env.t) (module model generation_mode : string)
    (raw : RawParams.t) (provider : option string) (task_id : string) :
  (ImageHandler.recognized module = false ->
   Handler._parse_request env module model generation_mode raw provider
   = inl (ValueError (UnsupportedModule module))
   /\ ImageHandler.handle_module_generation_json env module model "prompt_only"
        raw provider task_id
      = inl (HTTPException 400 (UnsupportedModule module)))
  /\ (ImageHandler.recognized module = true ->
      ImageHandler.no_bucket_provided module raw = true ->
      exists why,
        Handler._parse_request env module model generation_mode raw provider
        = inl (PydanticValidationError why)
        /\ ImageHandler.handle_module_generation_json env module model
             "prompt_only" raw provider task_id
           = inl (HTTPException 400 why)).
Proof.
  split.
  - intros Hrec.
    assert (Hparse : forall mode,
               Handler._parse_request env module model mode raw provider
               = inl (ValueError (UnsupportedModule module))).
    { intros mode. unfold Handler._parse_request.
      now rewrite (get_service_unrecognized _ Hrec). }
    split; [apply Hparse |].
    unfold ImageHandler.handle_module_generation_json. cbn [String.eqb negb].
    change (negb ("prompt_only" =? "prompt_only")) with false. cbn iota.
    now rewrite Hparse.
  - intros Hrec Hnone.
    destruct (recognized_service _ Hrec) as (service & init & Hs & Hp).
    destruct (init_without_bucket _ _ _ Hp Hnone) as [why Hinit].
    exists why.
    assert (Hparse : forall mode,
               Handler._parse_request env module model mode raw provider
               = inl (PydanticValidationError why)).
    { intros mode. unfold Handler._parse_request.
      rewrite Hs. cbn [bind Monad_result]. rewrite Hp, Hinit. reflexivity. }
    split; [apply Hparse |].
    unfold ImageHandler.handle_module_generation_json.
    change (negb ("prompt_only" =? "prompt_only")) with false. cbn iota.
    now rewrite Hparse.
Qed.

Lemma parse_request_failures_witness :
  Handler._parse_request Scenario.env_ok "audio" "gpt_image_1" "prompt_only"
    Scenario.empty_list_params None
  = inl (ValueError (UnsupportedModule "audio"))
  /\ exists why,
       ImageHandler.handle_module_generation_json Scenario.env_ok "symbols"
         "gpt_image_1" "prompt_only" Scenario.no_bucket_params None "symbols_0"
       = inl (HTTPException 400 why).
Proof.
  split.
  - apply (proj1 (parse_request_failures Scenario.env_ok "audio" "gpt_image_1"
                    "prompt_only" Scenario.empty_list_params None "audio_0")).
    reflexivity.
  - destruct (proj2 (parse_request_failures Scenario.env_ok "symbols"
                       "gpt_image_1" "prompt_only" Scenario.no_bucket_params
                       None "symbols_0") eq_refl eq_refl) as (why & _ & H).
    exists why. exact H.
Defined.

(** ** Prompt composition *)

Section PromptComposition.

Lemma append_assoc (a b c : string) : ((a ++ b) ++ c = a ++ b ++ c)%string.
Proof. induction a as [| ch a IH]; simpl; [reflexivity | now rewrite IH]. Qed.

Lemma append_nil_r (a : string) : (a ++ "")%string = a.
Proof. induction a as [| ch a IH]; simpl; [reflexivity | now rewrite IH]. Qed.

Lemma join_cons (sep x : string) (l : list string) :
  join sep (x :: l)
  = (x ++ fold_right (fun clause rest => sep ++ clause ++ rest) "" l)%string.
Proof.
  revert x. induction l as [| y l IH]; intros x.
  - simpl. now rewrite append_nil_r.
  - change (join sep (x :: y :: l)) with (x ++ sep ++ join sep (y :: l))%string.
    rewrite IH. reflexivity.
Qed.

Lemma fold_clauses_app (sep : string) (l1 l2 : list string) :
  fold_right (fun clause rest => sep ++ clause ++ rest)%string "" (l1 ++ l2)
  = (fold_right (fun clause rest => sep ++ clause ++ rest) "" l1
     ++ fold_right (fun clause rest => sep ++ clause ++ rest) "" l2)%string.
Proof.
  induction l1 as [| x l1 IH]; simpl; [reflexivity |].
  now rewrite IH, !append_assoc.
Qed.

(** The reference clauses, by cases on the two entries that are read. *)
Lemma reference_parts_cases (r : ReferenceData.t) :
  Prompt.reference_parts (Some r)
  = (if truthy_opt (ReferenceData.asset_description r)
     then [("Reference: " ++ get_default (ReferenceData.asset_description r) "")%string]
     else [])
    ++ (if truthy_opt (ReferenceData.reference_prompt r)
        then [("Asset reference: "
                 ++ get_default (ReferenceData.reference_prompt r) "")%string]
        else []).
Proof.
  unfold Prompt.reference_parts.
  destruct (ReferenceData.nonempty r) eqn:E; [reflexivity |].
  unfold ReferenceData.nonempty in E.
  destruct (ReferenceData.asset_description r); [discriminate |].
  destruct (ReferenceData.reference_prompt r); [| reflexivity].
  destruct (ReferenceData.reference_prompts r), (ReferenceData.asset_items r),
    (ReferenceData.image_urls r); discriminate.
Qed.

End PromptComposition.

(** C4, as the specification words it, fails on the technical clause: the
    clause of the code starts with "Technical specs: ", so the composed
    prompt differs from the prompt built with the clause
    "{resolution} resolution, isolated on transparent background". *)
Lemma technical_clause_has_a_prefix :
  Prompt.build_complete_prompt Prompt.SymbolsService Scenario.ace_task
    Scenario.preset_style (Some Scenario.described_bundle)
  <> Worded.complete_prompt Prompt.SymbolsService Scenario.ace_task
       Scenario.preset_style (Some Scenario.described_bundle)
  /\ Prompt.build_complete_prompt Prompt.SymbolsService Scenario.ace_task
       Scenario.preset_style (Some Scenario.described_bundle)
     = "Create a slot machine symbol: Ace of Hearts, high quality game asset, centered composition, clear silhouette, suitable for slot machine gameplay, designed as a lower-value game symbol, clean and recognizable design, suitable for frequent appearance, Art style: fantasy art, medieval style, Category: base_symbols, Subcategory: low_value, Reference: Asset references from refs.zip, Technical specs: 512x512 resolution, isolated on transparent background, Quality: high quality, game asset style, professional design".
Proof. split; [intros H; vm_compute in H; discriminate H | reflexivity]. Qed.

(** C4 (amended).  The complete prompt is, in this order and joined by
    ", ": the content clauses of the task, "Art style: " with the style
    prompt, "Category: {category}, Subcategory: {subcategory}", the
    reference clauses when reference data is present ("Reference: " with
    the asset description, then "Asset reference: " with the reference
    prompt), "Technical specs: {resolution} resolution, isolated on
    transparent background", and "Quality: " with the quality tags. *)
Theorem build_complete_prompt_order (self : ImageService.t) (task_info : Task.t)
    (art_style_data : StyleData.t) (reference_data : option ReferenceData.t) :
  Prompt.build_complete_prompt self task_info art_style_data reference_data
  = (ImageService.build_content_prompt self task_info art_style_data
     ++ ", Art style: "
     ++ get_default (StyleData.style_prompt art_style_data) "high quality artwork"
     ++ ", Category: " ++ Task.category task_info
     ++ ", Subcategory: " ++ Task.subcategory task_info
     ++ reference_clauses reference_data
     ++ ", Technical specs: " ++ Task.resolution task_info
     ++ " resolution, isolated on transparent background"
     ++ ", Quality: "
     ++ get_default (StyleData.quality_tags art_style_data)
          "high quality, professional design")%string
  /\ (forall r, reference_data = Some r ->
        reference_clauses reference_data
        = ((if truthy_opt (ReferenceData.asset_description r)
            then ", Reference: "
                 ++ get_default (ReferenceData.asset_description r) ""
            else "")
           ++ (if truthy_opt (ReferenceData.reference_prompt r)
               then ", Asset reference: "
                    ++ get_default (ReferenceData.reference_prompt r) ""
               else ""))%string)
  /\ (reference_data = None -> reference_clauses reference_data = "").
Proof.
  split; [| split].
  - unfold Prompt.build_complete_prompt, reference_clauses. cbv zeta.
    cbn [app]. rewrite join_cons. cbn [fold_right].
    rewrite fold_clauses_app. cbn [fold_right].
    rewrite !append_assoc, append_nil_r. cbn [append]. reflexivity.
  - intros r ->. unfold reference_clauses. rewrite reference_parts_cases.
    destruct (truthy_opt (ReferenceData.asset_description r)),
      (truthy_opt (ReferenceData.reference_prompt r)); cbn [app fold_right];
      rewrite ?append_assoc, ?append_nil_r; cbn [append]; reflexivity.
  - intros ->. reflexivity.
Qed.

Lemma build_complete_prompt_order_witness :
  reference_clauses (Some Scenario.described_bundle)
  = ", Reference: Asset references from refs.zip"
  /\ reference_clauses None = "".
Proof.
  destruct (build_complete_prompt_order Prompt.SymbolsService Scenario.ace_task
              Scenario.preset_style (Some Scenario.described_bundle))
    as (_ & Hsome & _).
  destruct (build_complete_prompt_order Prompt.SymbolsService Scenario.ace_task
              Scenario.preset_style None) as (_ & _ & Hnone).
  split.
  - rewrite (Hsome _ eq_refl). reflexivity.
  - apply Hnone. reflexivity.
Defined.

(** The content clauses of the three services read the description, the
    category and the subcategory of the task, and nothing of the style. *)
Lemma content_prompt_reads (self : ImageService.t) (t t' : Task.t)
    (s s' : StyleData.t) :
  In self [Prompt.SymbolsService; Prompt.UIService; Prompt.BackgroundsService] ->
  Task.description t = Task.description t' ->
  Task.category t = Task.category t' ->
  Task.subcategory t = Task.subcategory t' ->
  ImageService.build_content_prompt self t s
  = ImageService.build_content_prompt self t' s'.
Proof.
  intros Hself Hd Hc Hs.
  destruct Hself as [<- | [<- | [<- | []]]];
    unfold Prompt.SymbolsService, Prompt.UIService, Prompt.BackgroundsService;
    cbn [ImageService.build_content_prompt];
    unfold Prompt.Symbols.build_content_prompt, Prompt.UI.build_content_prompt,
      Prompt.Backgrounds.build_content_prompt;
    now rewrite Hd, Hc, Hs.
Qed.

(** C9.  Prompt composition is a function of its three arguments: composing
    twice from the same (task, style data, reference data) yields the same
    string, for every service and every triple.  More precisely the string
    only depends on what the compositor reads: the content clauses, the
    category, subcategory and resolution of the task, the style prompt and
    quality tags (or their defaults), and the reference clauses. *)
Theorem prompt_composition_deterministic (self : ImageService.t) :
  (forall (t t' : Task.t) (s s' : StyleData.t) (r r' : option ReferenceData.t),
      t = t' -> s = s' -> r = r' ->
      Prompt.build_complete_prompt self t s r
      = Prompt.build_complete_prompt self t' s' r')
  /\ (forall (t t' : Task.t) (s s' : StyleData.t) (r r' : option ReferenceData.t),
        ImageService.build_content_prompt self t s
        = ImageService.build_content_prompt self t' s' ->
        Task.category t = Task.category t' ->
        Task.subcategory t = Task.subcategory t' ->
        Task.resolution t = Task.resolution t' ->
        get_default (StyleData.style_prompt s) "high quality artwork"
        = get_default (StyleData.style_prompt s') "high quality artwork" ->
        get_default (StyleData.quality_tags s) "high quality, professional design"
        = get_default (StyleData.quality_tags s') "high quality, professional design" ->
        Prompt.reference_parts r = Prompt.reference_parts r' ->
        Prompt.build_complete_prompt self t s r
        = Prompt.build_complete_prompt self t' s' r').
Proof.
  split.
  - intros t t' s s' r r' -> -> ->. reflexivity.
  - intros t t' s s' r r' Hcontent Hc Hs Hres Hstyle Hq Href.
    unfold Prompt.build_complete_prompt. cbv zeta.
    now rewrite Hcontent, Hc, Hs, Hres, Hstyle, Hq, Href.
Qed.

Lemma prompt_composition_deterministic_witness :
  Prompt.build_complete_prompt Prompt.SymbolsService Scenario.ace_task
    Scenario.preset_style (Some Scenario.described_bundle)
  = Prompt.build_complete_prompt Prompt.SymbolsService Scenario.ace_task
      Scenario.preset_style (Some Scenario.described_bundle)
  /\ Prompt.build_complete_prompt Prompt.SymbolsService Scenario.ace_task
       Scenario.preset_style (Some Scenario.described_bundle)
     = Prompt.build_complete_prompt Prompt.SymbolsService
         (Task.mk "base_symbols" "low_value" "ace_copy" "Ace of Hearts" 2
            "512x512" false false)
         Scenario.preset_style (Some Scenario.described_bundle).
Proof.
  split.
  - apply (proj1 (prompt_composition_deterministic Prompt.SymbolsService));
      reflexivity.
  - apply (proj2 (prompt_composition_deterministic Prompt.SymbolsService));
      reflexivity.
Defined.

(** ** The reference-image lookup *)

Section ReferenceLookup.

Import FileProcessing.

Variables (task_info : Task.t) (image_urls : list (string * string)).

Lemma lookup_with_present :
  present_urls task_info image_urls <> [] ->
  get_reference_image_urls_for_task task_info image_urls
  = present_urls task_info image_urls.
Proof.
  unfold get_reference_image_urls_for_task.
  fold (present_urls task_info image_urls).
  destruct (present_urls task_info image_urls); [congruence | reflexivity].
Qed.

Lemma lookup_without_present :
  present_urls task_info image_urls = [] ->
  get_reference_image_urls_for_task task_info image_urls
  = fuzzy_matches task_info image_urls.
Proof.
  unfold get_reference_image_urls_for_task.
  fold (present_urls task_info image_urls).
  intros ->. reflexivity.
Qed.

End ReferenceLookup.

(** C8, as the specification words it, fails when more than one of the
    three keys is present: the exact key and the subcategory key are both in
    the map, and both URLs are attached to the inference call (as
    [image_urls]), not the best match alone. *)
Lemma lookup_attaches_every_present_key :
  let params :=
    Handler.attach_reference_images REFERENCE_ASSETS Scenario.ace_task
      Scenario.url_bundle
      (Handler.prepare_inference_params "prompt" Scenario.ace_task
         (Some Scenario.url_bundle)) in
  FileProcessing.get_reference_image_urls_for_task Scenario.ace_task
    Scenario.two_level_urls
  = ["https://signed/ace"; "https://signed/low_value"]
  /\ Worded.best_match Scenario.ace_task Scenario.two_level_urls
     = ["https://signed/ace"]
  /\ FileProcessing.get_reference_image_urls_for_task Scenario.ace_task
       Scenario.two_level_urls
     <> Worded.best_match Scenario.ace_task Scenario.two_level_urls
  /\ InferenceParams.image_url params = None
  /\ InferenceParams.image_urls params
     = Some ["https://signed/ace"; "https://signed/low_value"].
Proof. cbv zeta. repeat split; try reflexivity. discriminate. Qed.

(** C8 (amended).  The lookup tries the keys
    'category.subcategory.filename', 'category.subcategory' and 'category'
    in this order and returns the URL of every one of them that is present
    in the map, the highest-priority one first: the best match is the head
    of the result, and the whole result when it is the only key present.
    When none of the three keys is present the result is the fuzzy
    fallback: the URLs of the entries whose key contains the category and
    the subcategory, or the filename.  In [reference_assets] mode, with a
    map that is not empty, the handler attaches the result to the inference
    call: one URL as [image_url], several as [image_urls], nothing when
    there is none; in any other case it attaches nothing. *)
Theorem reference_image_lookup_priority (task_info : Task.t)
    (image_urls : list (string * string)) :
  let found :=
    FileProcessing.get_reference_image_urls_for_task task_info image_urls in
  let exact :=
    lookup (Task.category task_info ++ "." ++ Task.subcategory task_info
              ++ "." ++ Task.filename task_info)%string image_urls in
  let sub :=
    lookup (Task.category task_info ++ "." ++ Task.subcategory task_info)%string
      image_urls in
  let cat := lookup (Task.category task_info) image_urls in
  let url_of := fun present : option string =>
    match present with Some url => [url] | None => [] end in
  found = match url_of exact ++ url_of sub ++ url_of cat with
          | [] => fuzzy_matches task_info image_urls
          | urls => urls
          end
  /\ present_urls task_info image_urls = url_of exact ++ url_of sub ++ url_of cat
  /\ (forall url, exact = Some url -> hd_error found = Some url)
  /\ (exact = None -> forall url, sub = Some url -> hd_error found = Some url)
  /\ (exact = None -> sub = None -> forall url, cat = Some url -> found = [url])
  /\ (present_urls task_info image_urls <> [] ->
      hd_error found = hd_error (Worded.best_match task_info image_urls)
      /\ forall url, In url found ->
           exists path, In path (FileProcessing.lookup_paths task_info)
                        /\ lookup path image_urls = Some url)
  /\ (exact = None -> sub = None -> cat = None ->
      found = fuzzy_matches task_info image_urls)
  /\ (forall (reference_data : ReferenceData.t)
             (inference_params : InferenceParams.t),
        ReferenceData.image_urls reference_data = Some image_urls ->
        image_urls <> [] ->
        let attached :=
          Handler.attach_reference_images REFERENCE_ASSETS task_info
            reference_data inference_params in
        match found with
        | [] => attached = inference_params
        | [url] =>
            InferenceParams.image_url attached = Some url
            /\ InferenceParams.image_urls attached
               = InferenceParams.image_urls inference_params
        | url :: others =>
            InferenceParams.image_urls attached = Some (url :: others)
            /\ InferenceParams.image_url attached
               = InferenceParams.image_url inference_params
        end
        /\ InferenceParams.prompt attached = InferenceParams.prompt inference_params
        /\ InferenceParams.size attached = InferenceParams.size inference_params
        /\ InferenceParams.quality attached
           = InferenceParams.quality inference_params
        /\ InferenceParams.reference_image_description attached
           = InferenceParams.reference_image_description inference_params
        /\ InferenceParams.style_guidance attached
           = InferenceParams.style_guidance inference_params)
  /\ (forall (generation_mode : ImageGenerationMode)
             (reference_data : ReferenceData.t)
             (inference_params : InferenceParams.t),
        generation_mode = PROMPT_ONLY
        \/ ReferenceData.image_urls reference_data = None
        \/ ReferenceData.image_urls reference_data = Some [] ->
        Handler.attach_reference_images generation_mode task_info
          reference_data inference_params = inference_params).
Proof.
  cbv zeta.
  assert (Hattach : forall (reference_data : ReferenceData.t)
                           (inference_params : InferenceParams.t),
             ReferenceData.image_urls reference_data = Some image_urls ->
             image_urls <> [] ->
             match FileProcessing.get_reference_image_urls_for_task task_info
                     image_urls with
             | [] =>
                 Handler.attach_reference_images REFERENCE_ASSETS task_info
                   reference_data inference_params = inference_params
             | [url] =>
                 InferenceParams.image_url
                   (Handler.attach_reference_images REFERENCE_ASSETS task_info
                      reference_data inference_params) = Some url
                 /\ InferenceParams.image_urls
                      (Handler.attach_reference_images REFERENCE_ASSETS task_info
                         reference_data inference_params)
                    = InferenceParams.image_urls inference_params
             | url :: others =>
                 InferenceParams.image_urls
                   (Handler.attach_reference_images REFERENCE_ASSETS task_info
                      reference_data inference_params) = Some (url :: others)
                 /\ InferenceParams.image_url
                      (Handler.attach_reference_images REFERENCE_ASSETS task_info
                         reference_data inference_params)
                    = InferenceParams.image_url inference_params
             end
             /\ InferenceParams.prompt
                  (Handler.attach_reference_images REFERENCE_ASSETS task_info
                     reference_data inference_params)
                = InferenceParams.prompt inference_params
             /\ InferenceParams.size
                  (Handler.attach_reference_images REFERENCE_ASSETS task_info
                     reference_data inference_params)
                = InferenceParams.size inference_params
             /\ InferenceParams.quality
                  (Handler.attach_reference_images REFERENCE_ASSETS task_info
                     reference_data inference_params)
                = InferenceParams.quality inference_params
             /\ InferenceParams.reference_image_description
                  (Handler.attach_reference_images REFERENCE_ASSETS task_info
                     reference_data inference_params)
                = InferenceParams.reference_image_description inference_params
             /\ InferenceParams.style_guidance
                  (Handler.attach_reference_images REFERENCE_ASSETS task_info
                     reference_data inference_params)
                = InferenceParams.style_guidance inference_params).
  { intros reference_data inference_params Hurls Hne.
    unfold Handler.attach_reference_images. rewrite Hurls.
    destruct image_urls as [| e m]; [congruence |].
    destruct (FileProcessing.get_reference_image_urls_for_task task_info (e :: m))
      as [| u [| u' l]]; repeat split. }
  assert (Hnone : forall (generation_mode : ImageGenerationMode)
                         (reference_data : ReferenceData.t)
                         (inference_params : InferenceParams.t),
             generation_mode = PROMPT_ONLY
             \/ ReferenceData.image_urls reference_data = None
             \/ ReferenceData.image_urls reference_data = Some [] ->
             Handler.attach_reference_images generation_mode task_info
               reference_data inference_params = inference_params).
  { intros generation_mode reference_data inference_params [-> | [H | H]];
      unfold Handler.attach_reference_images; [reflexivity | |];
      rewrite H; now destruct generation_mode. }
  revert Hattach.
  unfold FileProcessing.get_reference_image_urls_for_task, present_urls,
    Worded.best_match, FileProcessing.lookup_paths.
  cbn [flat_map].
  destruct (lookup (Task.category task_info ++ "." ++ Task.subcategory task_info
                      ++ "." ++ Task.filename task_info)%string image_urls)
    as [u1 |] eqn:E1;
    destruct (lookup (Task.category task_info ++ "."
                        ++ Task.subcategory task_info)%string image_urls)
      as [u2 |] eqn:E2;
    destruct (lookup (Task.category task_info) image_urls) as [u3 |] eqn:E3;
    cbn [app hd_error]; intros Hattach;
    (split; [reflexivity |]);
    (split; [reflexivity |]);
    (split; [intros url H; congruence |]);
    (split; [intros H url H'; congruence |]);
    (split; [intros H H' url H''; congruence |]);
    (split; [| split; [intros; congruence || reflexivity
                      | split; [exact Hattach | exact Hnone]]]);
    intros Hne; try congruence;
    (split; [reflexivity |]);
    intros url Hin; cbn [In] in Hin;
    repeat match goal with
           | H : _ \/ _ |- _ => destruct H
           | H : False |- _ => destruct H
           end; subst; eexists; (split; [| eassumption]); cbn [In]; auto.
Qed.

Lemma reference_image_lookup_priority_witness :
  FileProcessing.get_reference_image_urls_for_task Scenario.ace_task
    Scenario.two_level_urls
  = ["https://signed/ace"; "https://signed/low_value"]
  /\ hd_error (FileProcessing.get_reference_image_urls_for_task Scenario.ace_task
                 Scenario.two_level_urls) = Some "https://signed/ace"
  /\ FileProcessing.get_reference_image_urls_for_task Scenario.ace_task
       [("base_symbols", "https://signed/base")] = ["https://signed/base"]
  /\ FileProcessing.get_reference_image_urls_for_task Scenario.ace_task
       [("special_symbols.wild.ace", "https://signed/wild_ace")]
     = ["https://signed/wild_ace"]
  /\ InferenceParams.image_urls
       (Handler.attach_reference_images REFERENCE_ASSETS Scenario.ace_task
          Scenario.url_bundle
          (Handler.prepare_inference_params "prompt" Scenario.ace_task
             (Some Scenario.url_bundle)))
     = Some ["https://signed/ace"; "https://signed/low_value"]
  /\ Handler.attach_reference_images PROMPT_ONLY Scenario.ace_task
       Scenario.url_bundle
       (Handler.prepare_inference_params "prompt" Scenario.ace_task
          (Some Scenario.url_bundle))
     = Handler.prepare_inference_params "prompt" Scenario.ace_task
         (Some Scenario.url_bundle).
Proof.
  pose proof (reference_image_lookup_priority Scenario.ace_task
                Scenario.two_level_urls) as Htwo.
  pose proof (reference_image_lookup_priority Scenario.ace_task
                [("base_symbols", "https://signed/base")]) as Hcat.
  pose proof (reference_image_lookup_priority Scenario.ace_task
                [("special_symbols.wild.ace", "https://signed/wild_ace")])
    as Hfuzzy.
  cbv zeta in Htwo, Hcat, Hfuzzy.
  destruct Htwo as (Hfound & _ & Hexact & _ & _ & _ & _ & Hattach & Hnone).
  destruct Hcat as (_ & _ & _ & _ & Hcat & _).
  destruct Hfuzzy as (_ & _ & _ & _ & _ & _ & Hfuzzy & _).
  split; [exact Hfound |].
  split; [apply Hexact; reflexivity |].
  split; [apply Hcat; reflexivity |].
  split; [rewrite Hfuzzy; reflexivity |].
  split.
  - exact (proj1 (proj1 (Hattach Scenario.url_bundle
                           (Handler.prepare_inference_params "prompt"
                              Scenario.ace_task (Some Scenario.url_bundle))
                           eq_refl ltac:(discriminate)))).
  - apply Hnone. now left.
Defined.

(** The reference data that the handler builds from an ingested archive
    keeps the description, the reference prompts and the item tree, not the
    image-URL map: on that data the executor attaches no reference image. *)
Lemma handler_reference_data_has_no_image_urls
    (generation_mode mode : ImageGenerationMode)
    (asset_references : option UploadFile.t) (asset_result : result AssetResult.t)
    (task_info : Task.t) (inference_params : InferenceParams.t) :
  ReferenceData.image_urls
    (reference_data_of generation_mode asset_references asset_result) = None
  /\ Handler.attach_reference_images mode task_info
       (reference_data_of generation_mode asset_references asset_result)
       inference_params = inference_params.
Proof.
  assert (H : ReferenceData.image_urls
                (reference_data_of generation_mode asset_references asset_result)
              = None).
  { unfold reference_data_of.
    destruct generation_mode, asset_references as [archive |],
      asset_result as [e | found]; try reflexivity.
    destruct (AssetResult.processing_success found); reflexivity. }
  split; [exact H |].
  unfold Handler.attach_reference_images. rewrite H. now destruct mode.
Qed.

(** ** Scenarios of the specification *)

(** Preset mode with theme [fantasy_medieval]. *)
Lemma preset_fantasy_medieval :
  exists style,
    ArtStyle.generate_preset_style "fantasy_medieval" = inr style
    /\ StyleData.mode style = Some "preset"
    /\ option_map (lookup "color_palette") (StyleData.components style)
       = Some (Some (JStr "rich gold, deep red, royal blue, ancient bronze")).
Proof. eexists. repeat split. Qed.

(** Reference-image mode with an empty image list raises before any call
    to the storage. *)
Lemma empty_image_list_raises_before_storage (env : Env.t)
    (provider model : string) (max_images : Z) :
  Storage.events (fst (TempImages.run env [] provider model max_images)) = []
  /\ exists e, snd (TempImages.run env [] provider model max_images) = inl e.
Proof.
  unfold TempImages.run. rewrite generate_reference_image_style_spec.
  unfold TempImages.resolve. cbn [bind Storage.Monad_M Storage.lift].
  destruct (ArtStyle.check_model env provider model _ _ _) as [e | ai];
    cbn; split; eauto.
Qed.

(* ================================================================== *)
(** * Part III. Further properties of the code                         *)
(* ================================================================== *)

(** ** Aggregation over the modules of a composite job *)

Section CompleteResult.

Import Handler.

Lemma status_eqb_eq (a b : Status) : status_eqb a b = true <-> a = b.
Proof. destruct a, b; simpl; split; intros H; try reflexivity; discriminate. Qed.

Lemma forallb_status (s : Status) (l : list Status) :
  forallb (status_eqb s) l = true <-> Forall (eq s) l.
Proof.
  rewrite forallb_forall, Forall_forall.
  split; intros H x Hx; apply status_eqb_eq; auto.
Qed.

(** X1.  [_build_complete_result]: the composite status is [completed] iff
    every module is [completed] (vacuously for no module), [failed] iff
    there is a module and every module is [failed], [partial_completed] iff
    some module is not [completed] and some module is not [failed]; the
    total is the sum of the module outputs, and the two name lists are the
    modules of the corresponding status in order. *)
Theorem build_complete_result_status
    (module_results : list (string * ModuleResult.t)) (task_id : string) :
  let r := _build_complete_result module_results task_id in
  let statuses := map (fun entry => ModuleResult.status (snd entry)) module_results in
  (CompleteResult.status r = completed <-> Forall (eq completed) statuses)
  /\ (CompleteResult.status r = failed
      <-> statuses <> [] /\ Forall (eq failed) statuses)
  /\ (CompleteResult.status r = partial_completed
      <-> Exists (fun s => s <> completed) statuses
          /\ Exists (fun s => s <> failed) statuses)
  /\ CompleteResult.total_outputs r
     = fold_right Z.add 0%Z
         (map (fun entry => ModuleResult.num_outputs (snd entry)) module_results)
  /\ (forall name, In name (CompleteResult.successful_modules r)
        <-> exists m, In (name, m) module_results
                      /\ ModuleResult.status m = completed)
  /\ (forall name, In name (CompleteResult.failed_modules r)
        <-> exists m, In (name, m) module_results
                      /\ ModuleResult.status m = failed).
Proof.
  cbv zeta. unfold _build_complete_result. cbn [CompleteResult.status
    CompleteResult.total_outputs CompleteResult.successful_modules
    CompleteResult.failed_modules].
  assert (Hmap : map (fun '(_, r) => ModuleResult.status r) module_results
                 = map (fun entry => ModuleResult.status (snd entry)) module_results).
  { apply map_ext. now intros [n m]. }
  rewrite Hmap. clear Hmap.
  set (statuses := map (fun entry => ModuleResult.status (snd entry)) module_results).
  assert (Hall : forallb (status_eqb completed) statuses = true
                 <-> Forall (eq completed) statuses) by apply forallb_status.
  assert (Hany : existsb (fun st => status_eqb st completed
                                    || status_eqb st partial_completed) statuses = true
                 <-> Exists (fun s => s <> failed) statuses).
  { rewrite existsb_exists, Exists_exists.
    split; intros (s & Hs & H); exists s; (split; [exact Hs |]).
    - destruct s; simpl in H; congruence.
    - destruct s; simpl; congruence. }
  assert (Hnotall : forallb (status_eqb completed) statuses = false
                    <-> Exists (fun s => s <> completed) statuses).
  { rewrite <- not_true_iff_false, Hall, <- Exists_Forall_neg.
    - split; intros H; (eapply Exists_impl; [| exact H]); simpl; intros s Hs;
        congruence.
    - intros s. destruct s; [left | right | right]; congruence. }
  assert (Hnone : existsb (fun st => status_eqb st completed
                                     || status_eqb st partial_completed) statuses = false
                  <-> Forall (eq failed) statuses).
  { rewrite <- not_true_iff_false, Hany, <- Forall_Exists_neg.
    split; intros H; (eapply Forall_impl; [| exact H]); simpl; intros s Hs.
    - destruct s; try reflexivity; exfalso; apply Hs; discriminate.
    - congruence. }
  assert (Hne : Exists (fun s => s <> completed) statuses -> statuses <> []).
  { intros H Hnil. rewrite Hnil in H. inversion H. }
  assert (Hcf : Forall (eq completed) statuses -> Forall (eq failed) statuses ->
                statuses = []).
  { intros H1 H2. destruct statuses as [| s l]; [reflexivity |].
    inversion H1; inversion H2; congruence. }
  remember (forallb (status_eqb completed) statuses) as b1 eqn:E1.
  remember (existsb (fun st => status_eqb st completed
                               || status_eqb st partial_completed) statuses)
    as b2 eqn:E2.
  clear E1 E2.
  split; [| split; [| split; [| split; [| split]]]].
  - destruct b1, b2; intuition (try discriminate; try congruence).
  - destruct b1, b2; intuition (try discriminate; try congruence).
  - destruct b1, b2; intuition (try discriminate; try congruence).
  - f_equal. apply map_ext. now intros [n m].
  - intros name. rewrite in_map_iff. split.
    + intros ([n m] & <- & Hin). apply filter_In in Hin. destruct Hin as [Hin Hs].
      exists m. split; [exact Hin | now apply status_eqb_eq].
    + intros (m & Hin & Hs). exists (name, m). split; [reflexivity |].
      apply filter_In. split; [exact Hin | now apply status_eqb_eq].
  - intros name. rewrite in_map_iff. split.
    + intros ([n m] & <- & Hin). apply filter_In in Hin. destruct Hin as [Hin Hs].
      exists m. split; [exact Hin | now apply status_eqb_eq].
    + intros (m & Hin & Hs). exists (name, m). split; [reflexivity |].
      apply filter_In. split; [exact Hin | now apply status_eqb_eq].
Qed.

End CompleteResult.

(** ** Decomposition totals *)

Section Totals.

Import Decomposer.

Lemma item_tasks_length (c s d : string) (item : Item.t) :
  length (item_tasks c s d item) = Z.to_nat (Item.count item).
Proof. unfold item_tasks. now rewrite length_map, range1_length. Qed.

Lemma length_flat_map_sum {A B : Type} (f : A -> list B) (l : list A) :
  length (flat_map f l) = list_sum (map (fun x => length (f x)) l).
Proof.
  induction l as [| x l IH]; simpl; [reflexivity |].
  now rewrite length_app, IH.
Qed.

Lemma items_tasks_length (c s d : string) (items : list Item.t) :
  length (flat_map (item_tasks c s d) items) = requested_count items.
Proof.
  rewrite length_flat_map_sum. unfold requested_count. f_equal.
  apply map_ext. intros item. apply item_tasks_length.
Qed.

Lemma parse_category_tasks_length (c d : string) (data : CategoryData) :
  length (_parse_category_tasks c data d) = bucket_count (Some data).
Proof.
  unfold _parse_category_tasks. rewrite length_flat_map_sum. simpl. f_equal.
  apply map_ext. intros [s items]. apply items_tasks_length.
Qed.

Lemma parse_custom_content_tasks_length (d : string) (data : CategoryData) :
  length (_parse_custom_content_tasks data d) = bucket_count (Some data).
Proof.
  unfold _parse_custom_content_tasks. rewrite length_flat_map_sum. simpl. f_equal.
  apply map_ext. intros [s items]. apply items_tasks_length.
Qed.

Lemma fixed_bucket_length (c d : string) (bucket : option CategoryData) :
  length (match bucket with
          | Some (e :: data) => _parse_category_tasks c (e :: data) d
          | _ => []
          end) = bucket_count bucket.
Proof.
  destruct bucket as [[| e data] |]; try reflexivity.
  apply parse_category_tasks_length.
Qed.

Lemma custom_bucket_length (d : string) (bucket : option CategoryData) :
  length (match bucket with
          | Some (e :: data) => _parse_custom_content_tasks (e :: data) d
          | _ => []
          end) = bucket_count bucket.
Proof.
  destruct bucket as [[| e data] |]; try reflexivity.
  apply parse_custom_content_tasks_length.
Qed.

(** The number of tasks of a parameter object is the sum of the counts of
    the items of its buckets. *)
Lemma parse_generation_tasks_length (params : GenerationInput) :
  length (_parse_generation_tasks params)
  = list_sum (map bucket_count (buckets_of params)).
Proof.
  unfold _parse_generation_tasks.
  destruct params as [a b s c d | a b p c d | a b c d];
    cbn [category_attrs flat_map Params.getattr Params.custom_content
         Params.default_resolution buckets_of map list_sum fold_right
         String.eqb Ascii.eqb Bool.eqb];
    rewrite ?app_nil_r, !length_app, ?fixed_bucket_length, custom_bucket_length;
    lia.
Qed.

Lemma requested_count_bounds (items : list Item.t) :
  (forall item, In item items -> (1 <= Item.count item <= 10)%Z) ->
  length items <= requested_count items <= 10 * length items.
Proof.
  unfold requested_count.
  induction items as [| item items IH]; intros H; simpl; [lia |].
  specialize (IH (fun i Hi => H i (or_intror Hi))).
  specialize (H item (or_introl eq_refl)). lia.
Qed.

Lemma bucket_count_bounds (bucket : option CategoryData) :
  (forall d sub items item, bucket = Some d -> In (sub, items) d ->
     In item items -> (1 <= Item.count item <= 10)%Z) ->
  bucket_items bucket <= bucket_count bucket <= 10 * bucket_items bucket.
Proof.
  destruct bucket as [d |]; simpl; [| lia].
  intros H. specialize (H d).
  induction d as [| [sub items] d IH]; simpl; [lia |].
  assert (Hitems := requested_count_bounds items
                      (fun i Hi => H sub items i eq_refl (or_introl eq_refl) Hi)).
  assert (Hrest := IH (fun s its i _ Hin Hi => H s its i eq_refl (or_intror Hin) Hi)).
  lia.
Qed.

Lemma buckets_count_bounds (buckets : list (option CategoryData)) :
  (forall bucket d sub items item, In bucket buckets -> bucket = Some d ->
     In (sub, items) d -> In item items -> (1 <= Item.count item <= 10)%Z) ->
  list_sum (map bucket_items buckets) <= list_sum (map bucket_count buckets)
  <= 10 * list_sum (map bucket_items buckets).
Proof.
  induction buckets as [| b l IH]; intros H; simpl; [lia |].
  assert (Hb := bucket_count_bounds b
                  (fun d s its i E => H b d s its i (or_introl eq_refl) E)).
  assert (Hl := IH (fun b' d s its i Hin => H b' d s its i (or_intror Hin))).
  lia.
Qed.

(** What the validation of the buckets guarantees about the counts. *)
Lemma validate_items_counts (raw items : list Item.t) :
  Dto.validate_items raw = inr items ->
  forall item, In item items -> (1 <= Item.count item <= 10)%Z.
Proof.
  revert items. induction raw as [| r raw IH]; intros items; simpl.
  - intros [= <-] item [].
  - destruct (Dto.ImageAssetItem r) as [e | i'] eqn:Ei; [discriminate |].
    destruct (Dto.validate_items raw) as [e | rest'] eqn:Er; [discriminate |].
    intros [= <-] item [<- | Hin].
    + now apply (validated_item r i').
    + now apply (IH rest').
Qed.

Lemma validate_category_counts (raw d : CategoryData) :
  Dto.validate_category raw = inr d ->
  forall sub items item, In (sub, items) d -> In item items ->
    (1 <= Item.count item <= 10)%Z.
Proof.
  revert d. induction raw as [| [s its] raw IH]; intros d; simpl.
  - intros [= <-] sub items item [].
  - destruct (Dto.validate_items its) as [e | its'] eqn:Ei; [discriminate |].
    destruct (Dto.validate_category raw) as [e | rest'] eqn:Er; [discriminate |].
    intros [= <-] sub items item [[= <- <-] | Hin] Hitem.
    + now apply (validate_items_counts its its').
    + now apply (IH rest' eq_refl sub items).
Qed.

Lemma bucket_field_counts (raw : RawParams.t) (name : string)
    (bucket : option CategoryData) :
  DtoParams.bucket_field raw name = inr bucket ->
  forall d sub items item, bucket = Some d -> In (sub, items) d ->
    In item items -> (1 <= Item.count item <= 10)%Z.
Proof.
  unfold DtoParams.bucket_field, Dto.validate_bucket.
  destruct (lookup name (RawParams.buckets raw)) as [d0 |].
  - destruct (Dto.validate_category d0) as [e | d'] eqn:E; [discriminate |].
    intros [= <-] d sub items item [= <-]. now apply (validate_category_counts d0).
  - intros [= <-] d sub items item [=].
Qed.

Lemma init_counts_in_range (module : string) (raw : RawParams.t)
    (init : RawParams.t -> result GenerationInput) (params : GenerationInput) :
  Handler.param_class module = Some init -> init raw = inr params ->
  counts_in_range params.
Proof.
  unfold Handler.param_class.
  destruct (module =? "symbols"); [| destruct (module =? "ui");
    [| destruct (module =? "backgrounds"); [| discriminate]]];
    intros [= <-];
    unfold DtoParams.SymbolsGenerationInput_init, DtoParams.UIGenerationInput_init,
      DtoParams.BackgroundsGenerationInput_init;
    cbn [bind ret Monad_result];
    (destruct (DtoParams.art_style_field raw); [discriminate |]).
  - destruct (DtoParams.bucket_field raw "base_symbols") as [| b] eqn:Eb; [discriminate |].
    destruct (DtoParams.bucket_field raw "special_symbols") as [| s] eqn:Es; [discriminate |].
    destruct (DtoParams.bucket_field raw "custom_content") as [| c] eqn:Ec; [discriminate |].
    destruct (negb _); [discriminate |]. intros [= <-].
    intros bucket d sub items item Hin. cbn [buckets_of In] in Hin.
    destruct Hin as [<- | [<- | [<- | []]]];
      eauto using bucket_field_counts.
  - destruct (DtoParams.bucket_field raw "buttons") as [| b] eqn:Eb; [discriminate |].
    destruct (DtoParams.bucket_field raw "panels") as [| s] eqn:Es; [discriminate |].
    destruct (DtoParams.bucket_field raw "custom_content") as [| c] eqn:Ec; [discriminate |].
    destruct (negb _); [discriminate |]. intros [= <-].
    intros bucket d sub items item Hin. cbn [buckets_of In] in Hin.
    destruct Hin as [<- | [<- | [<- | []]]];
      eauto using bucket_field_counts.
  - destruct (DtoParams.bucket_field raw "background_set") as [| b] eqn:Eb; [discriminate |].
    destruct (DtoParams.bucket_field raw "custom_content") as [| c] eqn:Ec; [discriminate |].
    destruct (negb _); [discriminate |]. intros [= <-].
    intros bucket d sub items item Hin. cbn [buckets_of In] in Hin.
    destruct Hin as [<- | [<- | []]];
      eauto using bucket_field_counts.
Qed.

Lemma parse_request_params (env : Env.t) (module model generation_mode : string)
    (raw : RawParams.t) (provider : option string) (rd : RequestData.t) :
  Handler._parse_request env module model generation_mode raw provider = inr rd ->
  exists init, Handler.param_class module = Some init
               /\ init raw = inr (RequestData.generation_params rd).
Proof.
  unfold Handler._parse_request. cbn [bind Monad_result].
  destruct (Handler._get_service module) as [e | service]; [discriminate |].
  destruct (Handler.param_class module) as [init |]; [| discriminate].
  destruct (init raw) as [e | params] eqn:Ei; [discriminate |].
  cbn [bind Monad_result].
  destruct (negb _); [discriminate |].
  destruct (ImageGenerationMode_of_string generation_mode); [| discriminate].
  intros [= <-]. exists init. split; [reflexivity | exact Ei].
Qed.

(** X2.  The size of a job.  A request accepted by [_parse_request] decomposes
    into as many tasks as the counts of its items add up to, over the fixed
    categories and the custom content; this number lies between the number
    of declared items and ten times that number. *)
Theorem accepted_request_task_total (env : Env.t)
    (module model generation_mode : string) (raw : RawParams.t)
    (provider : option string) (rd : RequestData.t) :
  Handler._parse_request env module model generation_mode raw provider = inr rd ->
  let params := RequestData.generation_params rd in
  let total := length (_parse_generation_tasks params) in
  total = list_sum (map bucket_count (buckets_of params))
  /\ list_sum (map bucket_items (buckets_of params)) <= total
  /\ total <= 10 * list_sum (map bucket_items (buckets_of params)).
Proof.
  intros H. cbv zeta. rewrite parse_generation_tasks_length.
  destruct (parse_request_params _ _ _ _ _ _ _ H) as (init & Hc & Hi).
  pose proof (init_counts_in_range _ _ _ _ Hc Hi) as Hr.
  pose proof (buckets_count_bounds _ Hr). lia.
Qed.

Lemma accepted_request_task_total_witness :
  exists rd,
    Handler._parse_request Scenario.env_ok "symbols" "gpt_image_1" "prompt_only"
      Sample.six_task_params None = inr rd
    /\ length (_parse_generation_tasks (RequestData.generation_params rd)) = 6
    /\ list_sum (map bucket_items (buckets_of (RequestData.generation_params rd))) = 3.
Proof.
  eexists. split; [reflexivity |].
  pose proof (accepted_request_task_total Scenario.env_ok "symbols" "gpt_image_1"
                "prompt_only" Sample.six_task_params None _ eq_refl) as H.
  cbv zeta in H. destruct H as (Ht & _ & _).
  split; [rewrite Ht |]; reflexivity.
Defined.

End Totals.

(** ** The breakdown of a validation report *)

Section Breakdown.

Import Validation.

Lemma sum_counts_store (k : string) (v : Z) (d : list (string * Z)) :
  sum_counts (store k v d)
  = (sum_counts d - match lookup k d with Some n => n | None => 0 end + v)%Z.
Proof.
  unfold sum_counts. induction d as [| [k' v'] d IH]; simpl; [lia |].
  destruct (k =? k'); simpl; [lia |]. rewrite IH. lia.
Qed.

Lemma store_keys_NoDup (k : string) (v : Z) (d : list (string * Z)) :
  NoDup (map fst d) -> NoDup (map fst (store k v d)).
Proof.
  induction d as [| [k' v'] d IH]; simpl; intros H.
  - constructor; [intros [] | constructor].
  - destruct (String.eqb_spec k k') as [-> | Hne]; simpl; [exact H |].
    inversion H as [| x l Hnotin Hnd]; subst. constructor; [| now apply IH].
    intros Hin. apply Hnotin. clear - Hin Hne.
    induction d as [| [k2 v2] d IH]; simpl in *.
    + destruct Hin as [E | []]. congruence.
    + destruct (k =? k2); simpl in Hin; [exact Hin |].
      destruct Hin as [E | Hin]; [now left | right; now apply IH].
Qed.

Lemma count_fold_lookup (c : string) (tasks : list Task.t) (acc : list (string * Z)) :
  lookup c (fold_left count_step tasks acc)
  = if (category_count c tasks =? 0)%nat then lookup c acc
    else Some (match lookup c acc with Some n => n | None => 0 end
               + Z.of_nat (category_count c tasks))%Z.
Proof.
  revert acc. induction tasks as [| t tasks IH]; intros acc; [reflexivity |].
  cbn [fold_left]. rewrite IH.
  assert (Hc : category_count c (t :: tasks)
               = (if Task.category t =? c then 1 else 0) + category_count c tasks).
  { unfold category_count. cbn [filter].
    destruct (Task.category t =? c); reflexivity. }
  rewrite Hc. unfold count_step.
  destruct (String.eqb_spec (Task.category t) c) as [E | E].
  - rewrite E, lookup_store_eq.
    destruct (Nat.eqb_spec (category_count c tasks) 0) as [E0 | E0].
    + rewrite E0. cbn [Nat.add Nat.eqb Z.of_nat]. f_equal; lia.
    + destruct (Nat.eqb_spec (1 + category_count c tasks) 0) as [E1 | E1]; [lia |].
      f_equal; lia.
  - rewrite lookup_store_ne by congruence. reflexivity.
Qed.

Lemma count_fold_sum (tasks : list Task.t) (acc : list (string * Z)) :
  sum_counts (fold_left count_step tasks acc)
  = (sum_counts acc + Z.of_nat (length tasks))%Z.
Proof.
  revert acc. induction tasks as [| t tasks IH]; intros acc; simpl fold_left.
  - simpl. lia.
  - rewrite IH. unfold count_step. rewrite sum_counts_store.
    cbn [length]. lia.
Qed.

Lemma count_fold_NoDup (tasks : list Task.t) (acc : list (string * Z)) :
  NoDup (map fst acc) -> NoDup (map fst (fold_left count_step tasks acc)).
Proof.
  revert acc. induction tasks as [| t tasks IH]; intros acc H; simpl; [exact H |].
  apply IH. unfold count_step. now apply store_keys_NoDup.
Qed.

Lemma count_fold_total (tasks : list Task.t) :
  sum_counts (_count_tasks_by_category tasks) = Z.of_nat (length tasks).
Proof.
  unfold _count_tasks_by_category. fold count_step.
  rewrite count_fold_sum. reflexivity.
Qed.

(** X3.  [_count_tasks_by_category]: a category is a key of the breakdown iff
    some task has it, its entry is then the number of tasks of the category,
    no key is repeated, and the entries add up to the number of tasks. *)
Theorem count_tasks_by_category_spec (tasks : list Task.t) :
  let counts := _count_tasks_by_category tasks in
  (forall category,
      lookup category counts
      = if (category_count category tasks =? 0)%nat then None
        else Some (Z.of_nat (category_count category tasks)))
  /\ NoDup (map fst counts)
  /\ sum_counts counts = Z.of_nat (length tasks).
Proof.
  cbv zeta. unfold _count_tasks_by_category. fold count_step.
  split; [| split].
  - intros c. rewrite count_fold_lookup. simpl.
    now destruct (category_count c tasks =? 0)%nat.
  - apply count_fold_NoDup. constructor.
  - apply count_fold_total.
Qed.

End Breakdown.

(** ** Validation against generation *)

Section ValidationAndGeneration.

Import Handler ImageHandler Validation.

Lemma parse_request_provider (env : Env.t) (module model generation_mode : string)
    (raw : RawParams.t) (provider : option string) :
  _parse_request env module model generation_mode raw provider
  = match _parse_request env module model generation_mode raw None with
    | inl e => inl e
    | inr rd =>
        inr (RequestData.mk (RequestData.module rd) (RequestData.model rd) provider
               (RequestData.generation_mode rd) (RequestData.generation_params rd)
               (RequestData.service rd))
    end.
Proof.
  unfold _parse_request. cbn [bind Monad_result].
  destruct (_get_service module); [reflexivity |].
  destruct (param_class module) as [init |]; [| reflexivity].
  destruct (init raw); [reflexivity |]. cbn [bind Monad_result].
  destruct (negb _); [reflexivity |].
  destruct (ImageGenerationMode_of_string generation_mode); reflexivity.
Qed.

Lemma prompt_only_tasks (rd : RequestData.t) (refd : option ReferenceData.t) :
  RequestData.generation_mode rd = PROMPT_ONLY ->
  generation_tasks rd refd
  = Decomposer._parse_generation_tasks (RequestData.generation_params rd).
Proof. unfold generation_tasks. now intros ->. Qed.

Lemma parse_request_mode (env : Env.t) (module model generation_mode : string)
    (raw : RawParams.t) (provider : option string) (rd : RequestData.t) :
  _parse_request env module model generation_mode raw provider = inr rd ->
  ImageGenerationMode_of_string generation_mode = Some (RequestData.generation_mode rd)
  /\ RequestData.module rd = module /\ RequestData.model rd = model
  /\ RequestData.provider rd = provider.
Proof.
  unfold _parse_request. cbn [bind Monad_result].
  destruct (_get_service module) as [e | service]; [discriminate |].
  destruct (param_class module) as [init |]; [| discriminate].
  destruct (init raw) as [e | params]; [discriminate |]. cbn [bind Monad_result].
  destruct (negb _); [discriminate |].
  destruct (ImageGenerationMode_of_string generation_mode); [| discriminate].
  intros [= <-]. repeat split.
Qed.

(** X4.  [validate_module_config] against [handle_module_generation_json] in
    prompt-only mode, on the same module, model and parameters and for any
    provider: the validation reports invalid exactly when the generation
    fails, and then with the reason that the generation raises as HTTP 400;
    otherwise the estimate of the validation is the [total_tasks] of the
    generated job, its breakdown adds up to the estimate, and the job
    accounts for every task as completed or failed.  The outcome of the
    art-style validation plays no part in either. *)
Theorem validation_agrees_with_generation (env : Env.t)
    (validate_ai_model : option string -> option string -> bool)
    (module model : string) (generation_params : RawParams.t)
    (provider : option string) (task_id : string) :
  match validate_module_config env validate_ai_model module model generation_params,
        handle_module_generation_json env module model "prompt_only"
          generation_params provider task_id with
  | Invalid why, inl e => e = HTTPException 400 why
  | Valid estimated_outputs by_category _, inr job =>
      Metadata.total_tasks (JobResult.metadata job) = estimated_outputs
      /\ sum_counts by_category = estimated_outputs
      /\ JobResult.num_outputs job = Metadata.completed_tasks (JobResult.metadata job)
      /\ (Metadata.completed_tasks (JobResult.metadata job)
          + Metadata.failed_tasks (JobResult.metadata job) = estimated_outputs)%Z
      /\ (0 <= Metadata.failed_tasks (JobResult.metadata job))%Z
      /\ JobResult.num_outputs job = Z.of_nat (length (JobResult.outputs job))
  | _, _ => False
  end.
Proof.
  unfold validate_module_config, handle_module_generation_json.
  cbn [String.eqb Ascii.eqb Bool.eqb negb].
  rewrite (parse_request_provider env module model "prompt_only" generation_params
             provider).
  destruct (_parse_request env module model "prompt_only" generation_params None)
    as [e | rd] eqn:Hp; cbn [bind ret Monad_result wrap400]; [reflexivity |].
  destruct (parse_request_mode _ _ _ _ _ _ _ Hp) as (Hmode & _).
  cbn in Hmode. injection Hmode as Hmode.
  cbn [_build_result JobResult.metadata JobResult.num_outputs JobResult.outputs
       RequestData.generation_params metadata_of Metadata.total_tasks
       Metadata.completed_tasks Metadata.failed_tasks].
  set (rd' := RequestData.mk _ _ provider _ _ _).
  pose proof (execute_generation_le env rd' (_generate_art_style env
                (Params.art_style (RequestData.generation_params rd))) task_id None)
    as Hle.
  rewrite (prompt_only_tasks rd' None) in Hle by (subst rd'; simpl; congruence).
  subst rd'. cbn [RequestData.generation_params] in Hle.
  split; [reflexivity |]. split.
  - apply (count_fold_total
             (Decomposer._parse_generation_tasks (RequestData.generation_params rd))).
  - repeat split; lia.
Qed.

End ValidationAndGeneration.

(** ** Isolation of the tasks of a job *)

Section Isolation.

Import Handler.

Lemma save_image_identity (env : Env.t) (generated : string) (t : Task.t)
    (rd : RequestData.t) (task_id : string) (position : nat) (o : Output.t) :
  _save_image env generated t rd task_id position = inr o ->
  output_identity o = task_identity t
  /\ Output.file_name o
     = (Task.filename t ++ "_" ++ format_02d (Task.index t) ++ ".png")%string
  /\ Output.s3_key o
     = (Env.build_s3_output_path env
          (Env.utcnow env (RequestData.module rd) task_id position)
          (RequestData.module rd) task_id
          (Task.category t) (Task.subcategory t) ++ Output.file_name o)%string
  /\ Output.description o = Task.description t
  /\ Output.resolution o = Task.resolution t.
Proof.
  unfold _save_image. cbn [bind ret Monad_result].
  destruct (Env.upload_file_sync env _ generated) as [e | upload]; [discriminate |].
  intros [= <-]. repeat split.
Qed.

Lemma generate_single_image_identity (env : Env.t) (t : Task.t)
    (rd : RequestData.t) (style : StyleData.t) (r : ReferenceData.t)
    (task_id : string) (position : nat) (o : Output.t) :
  _generate_single_image env t rd style r task_id position = inr o ->
  output_identity o = task_identity t
  /\ Output.file_name o
     = (Task.filename t ++ "_" ++ format_02d (Task.index t) ++ ".png")%string
  /\ Output.s3_key o
     = (Env.build_s3_output_path env
          (Env.utcnow env (RequestData.module rd) task_id position)
          (RequestData.module rd) task_id
          (Task.category t) (Task.subcategory t) ++ Output.file_name o)%string
  /\ Output.description o = Task.description t
  /\ Output.resolution o = Task.resolution t.
Proof.
  unfold _generate_single_image. cbn [bind Monad_result].
  destruct (Env.get_service env _) as [e | ai]; [discriminate |].
  destruct (AiService.run_inference ai _ _) as [e | generated]; [discriminate |].
  apply save_image_identity.
Qed.

Lemma combine_seq_In {A : Type} (l : list A) (first i : nat) (x : A) :
  In (i, x) (combine (seq first (length l)) l)
  <-> first <= i /\ nth_error l (i - first) = Some x.
Proof.
  revert first. induction l as [| y l IH]; intros first; cbn [length seq combine].
  - split; [intros [] |]. intros [_ H]. now destruct (i - first).
  - cbn [In]. rewrite IH. split.
    + intros [[= <- <-] | [Hle Hn]].
      * split; [lia |]. now rewrite Nat.sub_diag.
      * split; [lia |]. replace (i - first) with (S (i - S first)) by lia.
        exact Hn.
    + intros [Hle Hn]. destruct (Nat.eq_dec first i) as [<- | Hne].
      * left. rewrite Nat.sub_diag in Hn. cbn in Hn. congruence.
      * right. split; [lia |].
        replace (i - first) with (S (i - S first)) in Hn by lia. exact Hn.
Qed.

(** The numbered elements of a list are its elements at their positions. *)
Lemma enumerate_In {A : Type} (l : list A) (i : nat) (x : A) :
  In (i, x) (enumerate l) <-> nth_error l i = Some x.
Proof.
  unfold enumerate. rewrite combine_seq_In, Nat.sub_0_r.
  split; [now intros [_ H] | intros H; split; [lia | exact H]].
Qed.

Lemma enumerate_snd {A : Type} (l : list A) : map snd (enumerate l) = l.
Proof.
  unfold enumerate. generalize 0 as first.
  induction l as [| x l IH]; intros first; [reflexivity |].
  cbn [length seq combine map snd]. now rewrite IH.
Qed.

Lemma successful_results_map {A : Type} (f : A -> result Output.t) (l : list A) :
  successful_results (map f l)
  = flat_map (fun x => match f x with inr o => [o] | inl _ => [] end) l.
Proof.
  induction l as [| x l IH]; simpl; [reflexivity |].
  destruct (f x); simpl; now rewrite IH.
Qed.

Lemma successes_identity (attempt : nat * Task.t -> result Output.t)
    (l : list (nat * Task.t)) :
  (forall numbered o,
     attempt numbered = inr o -> output_identity o = task_identity (snd numbered)) ->
  map output_identity
    (flat_map (fun numbered =>
                 match attempt numbered with inr o => [o] | inl _ => [] end) l)
  = map (fun numbered => task_identity (snd numbered))
      (filter (fun numbered => is_ok (attempt numbered)) l).
Proof.
  intros H. induction l as [| t l IH]; [reflexivity |].
  cbn [flat_map filter]. destruct (attempt t) as [e | o] eqn:Ea; cbn [is_ok app].
  - exact IH.
  - cbn [map]. rewrite IH. f_equal. now apply H.
Qed.

(** X5.  [_execute_generation]: the tasks of a job are attempted independently.
    The outputs are the results of exactly the tasks whose attempt succeeds,
    in task order, whatever happens to the other tasks; every output
    carries the category, subcategory, filename and index of its task, its
    description and resolution, and is stored under the output path of its
    category and subcategory, on the date that the clock shows when it is
    saved, with the file name [<filename>_<index, two digits>.png]. *)
Theorem execute_generation_isolates_failures (env : Env.t) (rd : RequestData.t)
    (style : StyleData.t) (task_id : string) (refd : option ReferenceData.t) :
  let tasks := generation_tasks rd refd in
  let attempt := fun numbered : nat * Task.t =>
    _generate_single_image env (snd numbered) rd style
      (match refd with Some r => r | None => ReferenceData.empty end) task_id
      (fst numbered) in
  let outputs := _execute_generation env rd style task_id refd in
  map output_identity outputs
  = map (fun numbered => task_identity (snd numbered))
      (filter (fun numbered => is_ok (attempt numbered)) (enumerate tasks))
  /\ map snd (enumerate tasks) = tasks
  /\ (forall o, In o outputs
                <-> exists position t,
                      nth_error tasks position = Some t
                      /\ attempt (position, t) = inr o)
  /\ (forall o, In o outputs ->
        exists position t, nth_error tasks position = Some t
          /\ Output.description o = Task.description t
          /\ Output.resolution o = Task.resolution t
          /\ Output.s3_key o
             = (Env.build_s3_output_path env
                  (Env.utcnow env (RequestData.module rd) task_id position)
                  (RequestData.module rd) task_id
                  (Task.category t) (Task.subcategory t)
                ++ Task.filename t ++ "_" ++ format_02d (Task.index t) ++ ".png")%string).
Proof.
  cbv zeta. unfold _execute_generation, gather_tasks.
  rewrite successful_results_map.
  set (attempt := fun numbered : nat * Task.t =>
         _generate_single_image env (snd numbered) rd style
           (match refd with Some r => r | None => ReferenceData.empty end) task_id
           (fst numbered)).
  assert (Hin : forall o,
             In o (flat_map (fun numbered => match attempt numbered with
                                             | inr o => [o] | inl _ => [] end)
                     (enumerate (generation_tasks rd refd)))
             <-> exists position t,
                   nth_error (generation_tasks rd refd) position = Some t
                   /\ attempt (position, t) = inr o).
  { intros o. rewrite in_flat_map. split.
    - intros ([position t] & Ht & Ho). exists position, t.
      split; [now apply enumerate_In |].
      destruct (attempt (position, t)) as [e | o']; [destruct Ho |].
      destruct Ho as [<- | []]. reflexivity.
    - intros (position & t & Ht & Ho). exists (position, t).
      split; [now apply enumerate_In |]. rewrite Ho. now left. }
  split; [| split; [| split]].
  - apply (successes_identity attempt). intros [position t] o Ho.
    now apply generate_single_image_identity in Ho.
  - apply enumerate_snd.
  - apply Hin.
  - intros o Ho. apply Hin in Ho. destruct Ho as (position & t & Ht & Ho).
    exists position, t. split; [exact Ht |].
    apply generate_single_image_identity in Ho.
    destruct Ho as (_ & Hf & Hk & Hd & Hr). rewrite Hk, Hf. auto.
Qed.

End Isolation.

(** ** Composite jobs *)

Section CompositeJob.

Import Handler ImageHandler Validation.

Variables (env : Env.t) (global_config : GlobalConfig.t).

(** The request that [_build_module_requests] parses for one module. *)
Lemma build_module_requests_ok
    (modules_config : list (string * RawParams.t))
    (module_requests : list (string * (RequestData.t * StyleData.t))) :
  _build_module_requests env global_config modules_config = inr module_requests ->
  Forall (fun entry => is_ok (module_request env global_config entry) = true)
    modules_config
  /\ map fst module_requests = map fst modules_config
  /\ Forall (fun request =>
               ImageGenerationMode_of_string
                 (get_default (GlobalConfig.generation_mode global_config)
                    "prompt_only")
               = Some (RequestData.generation_mode (fst (snd request))))
       module_requests.
Proof.
  revert module_requests.
  induction modules_config as [| [name cfg] rest IH]; intros reqs; simpl.
  - intros [= <-]. repeat constructor.
  - destruct (_parse_request env name _ _ _ _) as [e | rd] eqn:Hp; [discriminate |].
    destruct (_build_module_requests env global_config rest) as [e | rest'];
      [discriminate |].
    intros [= <-]. destruct (IH rest' eq_refl) as (H1 & H2 & H3).
    split; [| split].
    + constructor; [| exact H1]. unfold module_request. cbn [fst snd].
      now rewrite Hp.
    + simpl. now rewrite H2.
    + constructor; [| exact H3]. simpl.
      now apply parse_request_mode in Hp.
Qed.

Lemma build_module_requests_error
    (modules_config : list (string * RawParams.t)) (e : PyExc) :
  _build_module_requests env global_config modules_config = inl e ->
  Exists (fun entry => module_request env global_config entry = inl e)
    modules_config.
Proof.
  induction modules_config as [| [name cfg] rest IH]; simpl; [discriminate |].
  destruct (_parse_request env name _ _ _ _) as [e' | rd] eqn:Hp.
  - intros [= <-]. left. exact Hp.
  - destruct (_build_module_requests env global_config rest) as [e' | rest'];
      [| discriminate].
    intros [= <-]. right. now apply IH.
Qed.

(** X6.  [handle_complete_game_generation_json] is all or nothing on the
    requests and isolating on the generation.  It fails, always with HTTP
    400, exactly when the mode of the global configuration is not
    [prompt_only] or the request of some module is rejected, and then with
    the reason of that rejection; no module is generated in that case.
    Otherwise it returns one result per configured module, in the order of
    the configuration; no module result carries an error, each accounts for
    all its tasks as completed or failed, and the total of the job is the
    number of outputs over all modules. *)
Theorem complete_game_generation_outcome
    (modules_config : list (string * RawParams.t)) (task_id : string) :
  match handle_complete_game_generation_json env global_config modules_config
          task_id with
  | inl e =>
      exists why, e = HTTPException 400 why
        /\ (GlobalConfig.generation_mode global_config <> Some "prompt_only"
              /\ why = PromptOnlyInterface
            \/ Exists (fun entry =>
                         exists e', module_request env global_config entry = inl e'
                                    /\ why = str_exc e')
                 modules_config)
  | inr r =>
      GlobalConfig.generation_mode global_config = Some "prompt_only"
      /\ Forall (fun entry => is_ok (module_request env global_config entry) = true)
           modules_config
      /\ map fst (CompleteResult.module_results r) = map fst modules_config
      /\ CompleteResult.total_outputs r
         = fold_right Z.add 0%Z
             (map (fun entry => Z.of_nat (length (ModuleResult.outputs (snd entry))))
                (CompleteResult.module_results r))
      /\ Forall (fun entry =>
                   ModuleResult.module (snd entry) = fst entry
                   /\ ModuleResult.error (snd entry) = None
                   /\ exists m, ModuleResult.metadata (snd entry) = Some m
                        /\ Metadata.completed_tasks m
                           = Z.of_nat (length (ModuleResult.outputs (snd entry)))
                        /\ (Metadata.completed_tasks m + Metadata.failed_tasks m
                            = Metadata.total_tasks m)%Z
                        /\ (0 <= Metadata.failed_tasks m)%Z)
           (CompleteResult.module_results r)
  end.
Proof.
  unfold handle_complete_game_generation_json.
  destruct (GlobalConfig.generation_mode global_config) as [mode |] eqn:Hmode.
  2: { cbn. exists PromptOnlyInterface. split; [reflexivity |]. left.
       split; [discriminate | reflexivity]. }
  destruct (String.eqb_spec mode "prompt_only") as [-> | Hne]; cbn [negb].
  2: { cbn. exists PromptOnlyInterface. split; [reflexivity |]. left.
       split; [congruence | reflexivity]. }
  cbn [bind ret Monad_result].
  destruct (_build_module_requests env global_config modules_config)
    as [e | reqs] eqn:Hb; cbn [wrap400].
  - exists (str_exc e). split; [reflexivity |]. right.
    apply build_module_requests_error in Hb.
    eapply Exists_impl; [| exact Hb]. intros entry He. exists e. now split.
  - destruct (build_module_requests_ok _ _ Hb) as (Hok & Hnames & Hmodes).
    rewrite Hmode in Hmodes. cbn in Hmodes.
    split; [reflexivity |]. split; [exact Hok |].
    cbn [_build_complete_result CompleteResult.module_results
         CompleteResult.total_outputs].
    unfold _execute_parallel_modules.
    split; [| split].
    + rewrite <- Hnames, map_map. apply map_ext. now intros [n [rd st]].
    + f_equal. rewrite !map_map. apply map_ext. now intros [n [rd st]].
    + apply Forall_map. eapply Forall_impl; [| exact Hmodes].
      intros [n [rd st]] Hm. cbn in Hm. injection Hm as Hm.
      cbn [fst snd module_result bind ret Monad_result ModuleResult.module
           ModuleResult.error ModuleResult.metadata ModuleResult.outputs].
      split; [reflexivity |]. split; [reflexivity |].
      eexists. split; [reflexivity |].
      cbn [metadata_of Metadata.completed_tasks Metadata.failed_tasks
           Metadata.total_tasks].
      pose proof (execute_generation_le env rd st task_id (Some ReferenceData.empty))
        as Hle.
      rewrite prompt_only_tasks in Hle by congruence.
      repeat split; lia.
Qed.

End CompositeJob.

(** ** The non-AI style resolvers and their handlers *)

Section StyleHandlers.

Import ArtStyle ArtStyleHandler ImageHandler.

Lemma append_empty (a b : string) : (a ++ b)%string = "" -> a = "" /\ b = "".
Proof. destruct a; simpl; [auto | discriminate]. Qed.

Lemma join_empty (sep : string) (l : list string) :
  join sep l = "" -> forall p, In p l -> p = "".
Proof.
  induction l as [| a [| b l] IH]; intros H p Hp.
  - destruct Hp.
  - simpl in H. destruct Hp as [<- | []]. exact H.
  - change (join sep (a :: b :: l)) with (a ++ sep ++ join sep (b :: l))%string in H.
    apply append_empty in H. destruct H as [Ha H].
    apply append_empty in H. destruct H as [_ H].
    destruct Hp as [<- | Hp]; [exact Ha | now apply IH].
Qed.

Lemma join_nonempty (sep p : string) (l : list string) :
  In p l -> p <> "" -> join sep l <> "".
Proof. intros Hin Hp H. apply Hp. now apply (join_empty sep l). Qed.

Lemma filter_parts_app (a b : list json) (l : list string) :
  filter_parts (a ++ b) = inr l ->
  exists la lb, filter_parts a = inr la /\ filter_parts b = inr lb /\ l = la ++ lb.
Proof.
  revert l. induction a as [| x a IH]; intros l; cbn [app filter_parts].
  - intros H. exists [], l. auto.
  - destruct (negb (json_truthy x)); [apply IH |].
    destruct x; try discriminate. cbn [bind ret Monad_result].
    destruct (filter_parts (a ++ b)) as [e | rest] eqn:E; [discriminate |].
    destruct (IH rest eq_refl) as (la & lb & -> & Hb & ->).
    intros [= <-]. destruct (truthy (strip s)).
    + exists (s :: la), lb. auto.
    + exists la, lb. auto.
Qed.

Lemma closing_parts_kept (parts : list json) (l : list string) :
  filter_parts (parts ++ closing_parts) = inr l ->
  In "high quality, professional design" l.
Proof.
  intros H. apply filter_parts_app in H. destruct H as (la & lb & _ & Hb & ->).
  apply in_or_app. right. vm_compute in Hb. injection Hb as <-. simpl. auto.
Qed.

Lemma filter_parts_text (parts : list json) :
  Forall (fun part => part = JNull \/ exists text, part = JStr text) parts ->
  exists l, filter_parts parts = inr l.
Proof.
  induction 1 as [| x parts [-> | [text ->]] _ [l IH]]; cbn [filter_parts].
  - now exists [].
  - cbn. now exists l.
  - destruct (negb (json_truthy (JStr text))); [now exists l |].
    rewrite IH. cbn [bind ret Monad_result]. eauto.
Qed.

(** The prompt of a theme of the catalogue: its five components and the
    three closing clauses. *)
Lemma preset_theme_style (theme : string) (config : ThemeConfig.t) :
  lookup theme preset_themes = Some config ->
  generate_preset_style theme
  = inr (StyleData.mk
           (Some (join ", " [ThemeConfig.base_prompt config;
                             ThemeConfig.color_palette config;
                             ThemeConfig.effects config;
                             ThemeConfig.materials config;
                             ThemeConfig.lighting config;
                             "isolated on transparent background";
                             "centered design, game asset style";
                             "high quality, professional design"]))
           (Some "preset")
           (Some [("base_prompt", JStr (ThemeConfig.base_prompt config));
                  ("color_palette", JStr (ThemeConfig.color_palette config));
                  ("effects", JStr (ThemeConfig.effects config));
                  ("materials", JStr (ThemeConfig.materials config));
                  ("lighting", JStr (ThemeConfig.lighting config));
                  ("description", JStr (ThemeConfig.description config))])
           (Some quality_tags)).
Proof.
  intros H. pose proof (lookup_In _ _ _ H) as Hin.
  unfold preset_themes in Hin. cbn [In] in Hin.
  decompose [or] Hin; try contradiction;
    match goal with E : (_, _) = (theme, config) |- _ =>
      injection E as <- <- end; reflexivity.
Qed.

(** X7.  [handle_preset_style_generation] never answers with an internal error:
    it succeeds exactly on the themes of the catalogue, with the style built
    from the five components of the theme followed by the three closing
    clauses, and rejects any other theme, a missing one included, with
    HTTP 400. *)
Theorem preset_style_handler_outcome (preset_theme : option string) :
  match handle_preset_style_generation preset_theme with
  | inr style =>
      exists theme config,
        preset_theme = Some theme
        /\ lookup theme preset_themes = Some config
        /\ StyleData.mode style = Some "preset"
        /\ StyleData.style_prompt style
           = Some (join ", " [ThemeConfig.base_prompt config;
                              ThemeConfig.color_palette config;
                              ThemeConfig.effects config;
                              ThemeConfig.materials config;
                              ThemeConfig.lighting config;
                              "isolated on transparent background";
                              "centered design, game asset style";
                              "high quality, professional design"])
        /\ option_map (lookup "base_prompt") (StyleData.components style)
           = Some (Some (JStr (ThemeConfig.base_prompt config)))
  | inl e =>
      e = HTTPException 400
            (UnknownPresetTheme (match preset_theme with
                                 | Some theme => theme
                                 | None => "None"
                                 end))
      /\ match preset_theme with
         | Some theme => lookup theme preset_themes = None
         | None => True
         end
  end.
Proof.
  unfold handle_preset_style_generation.
  destruct preset_theme as [theme |]; [| cbn; auto].
  unfold validate_preset_theme, has_key.
  destruct (lookup theme preset_themes) as [config |] eqn:Hl; cbn [negb].
  - rewrite (preset_theme_style theme config Hl). cbn [wrap500].
    exists theme, config. repeat split; assumption.
  - cbn. auto.
Qed.

(** X8.  [handle_custom_direct_style_generation] on a components object: HTTP
    400 when the base prompt is empty, a style otherwise; the style resolver
    cannot fail on it.  On what the image handler passes, a dictionary or
    [None], the handler answers HTTP 500: such a value has no attribute
    [base_prompt]. *)
Theorem custom_direct_style_handler_outcome
    (style_components : ArtStyleComponents.t + option (list (string * json))) :
  match handle_custom_direct_style_generation style_components with
  | inr style =>
      exists components prompt,
        style_components = inl components
        /\ ArtStyleComponents.base_prompt components <> ""
        /\ StyleData.mode style = Some "custom_direct"
        /\ StyleData.style_prompt style = Some prompt /\ prompt <> ""
        /\ option_map (lookup "base_prompt") (StyleData.components style)
           = Some (Some (JStr (ArtStyleComponents.base_prompt components)))
  | inl e =>
      match style_components with
      | inl components =>
          ArtStyleComponents.base_prompt components = ""
          /\ e = HTTPException 400 BasePromptEmpty
      | inr _ =>
          e = HTTPException 500
                (Wrapped "custom_direct" (NoSuchAttribute "base_prompt"))
      end
  end.
Proof.
  unfold handle_custom_direct_style_generation.
  destruct style_components as [c | d]; [| reflexivity].
  destruct (ArtStyleComponents.base_prompt c) as [| a s] eqn:Hb; cbn [truthy negb].
  - cbn. auto.
  - unfold generate_custom_direct_style. rewrite Hb.
    destruct (filter_parts
                ([JStr (String a s); JOpt (ArtStyleComponents.color_palette c);
                  JOpt (ArtStyleComponents.effects c);
                  JOpt (ArtStyleComponents.materials c);
                  JOpt (ArtStyleComponents.lighting c)] ++ closing_parts))
      as [e | parts] eqn:Hp.
    + exfalso.
      destruct (filter_parts_text
                  ([JStr (String a s); JOpt (ArtStyleComponents.color_palette c);
                    JOpt (ArtStyleComponents.effects c);
                    JOpt (ArtStyleComponents.materials c);
                    JOpt (ArtStyleComponents.lighting c)] ++ closing_parts))
        as [l Hl]; [| congruence].
      unfold closing_parts. cbn [app].
      repeat (apply Forall_cons;
              [first [ right; eexists; reflexivity
                     | match goal with
                       | |- JOpt ?o = _ \/ _ => destruct o; cbn; eauto
                       end ] |]).
      apply Forall_nil.
    + cbn [bind ret Monad_result wrap500].
      exists c, (join ", " parts). rewrite Hb.
      repeat split; try discriminate.
      apply (join_nonempty ", " "high quality, professional design");
        [now apply closing_parts_kept in Hp | discriminate].
Qed.

End StyleHandlers.

(** ** Stripping *)

Section Stripping.

Lemma rstrip_cons_cases (c : ascii) (s : string) :
  rstrip (String c s) = EmptyString
  \/ rstrip (String c s) = String c (rstrip s).
Proof.
  cbn [rstrip]. destruct (rstrip s) as [| c2 [| c3 [| c4 t]]]; auto.
  - destruct (is_space c); auto.
  - destruct (is_space2 c c2); auto.
  - destruct (is_space3 c c2 c3); auto.
Qed.

Lemma rstrip_cons_congr (c : ascii) (a b : string) :
  rstrip a = rstrip b -> rstrip (String c a) = rstrip (String c b).
Proof. cbn [rstrip]. now intros ->. Qed.

Lemma rstrip_idempotent (s : string) : rstrip (rstrip s) = rstrip s.
Proof.
  induction s as [| c s IH]; [reflexivity |].
  destruct (rstrip_cons_cases c s) as [E | E]; rewrite E; [reflexivity |].
  rewrite (rstrip_cons_congr c (rstrip s) s IH). exact E.
Qed.

Lemma lstrip_cons (c1 : ascii) (s1 : string) :
  lstrip (String c1 s1)
  = if is_space c1 then lstrip s1
    else match s1 with
         | String c2 s2 =>
             if is_space2 c1 c2 then lstrip s2
             else match s2 with
                  | String c3 s3 =>
                      if is_space3 c1 c2 c3 then lstrip s3 else String c1 s1
                  | EmptyString => String c1 s1
                  end
         | EmptyString => String c1 s1
         end.
Proof. reflexivity. Qed.

Lemma lstrip_clean (s : string) : starts_with_space (lstrip s) = false.
Proof.
  remember (String.length s) as n eqn:Hn.
  assert (Hle : String.length s <= n) by lia. clear Hn.
  revert s Hle. induction n as [| n IH]; intros s Hle.
  - destruct s; [reflexivity | cbn in Hle; lia].
  - destruct s as [| c1 s1]; [reflexivity |]. cbn [String.length] in Hle.
    rewrite lstrip_cons.
    destruct (is_space c1) eqn:E1; [apply IH; lia |].
    destruct s1 as [| c2 s2]; [cbn [starts_with_space]; now rewrite E1 |].
    cbn [String.length] in Hle.
    destruct (is_space2 c1 c2) eqn:E2; [apply IH; lia |].
    destruct s2 as [| c3 s3]; [cbn [starts_with_space]; now rewrite E1, E2 |].
    cbn [String.length] in Hle.
    destruct (is_space3 c1 c2 c3) eqn:E3; [apply IH; lia |].
    cbn [starts_with_space]. now rewrite E1, E2, E3.
Qed.

Lemma clean_lstrip (s : string) : starts_with_space s = false -> lstrip s = s.
Proof.
  destruct s as [| c1 s1]; [reflexivity |]. rewrite lstrip_cons.
  cbn [starts_with_space]. intros H.
  apply orb_false_iff in H. destruct H as [-> H].
  destruct s1 as [| c2 s2]; [reflexivity |].
  apply orb_false_iff in H. destruct H as [-> H].
  destruct s2 as [| c3 s3]; [reflexivity |]. now rewrite H.
Qed.

Lemma rstrip_clean (s : string) :
  starts_with_space s = false -> starts_with_space (rstrip s) = false.
Proof.
  destruct s as [| c1 s1]; [reflexivity |]. cbn [starts_with_space].
  intros H. apply orb_false_iff in H. destruct H as [H1 H].
  destruct (rstrip_cons_cases c1 s1) as [E | E]; rewrite E;
    [reflexivity |]. cbn [starts_with_space]. rewrite H1. cbn [orb].
  destruct s1 as [| c2 s2]; [reflexivity |].
  apply orb_false_iff in H. destruct H as [H2 H].
  destruct (rstrip_cons_cases c2 s2) as [E2 | E2]; rewrite E2;
    [reflexivity |]. rewrite H2. cbn [orb].
  destruct s2 as [| c3 s3]; [reflexivity |].
  destruct (rstrip_cons_cases c3 s3) as [E3 | E3]; rewrite E3;
    [reflexivity | exact H].
Qed.

(** White space of more than one byte is stripped, here a no-break space
    (U+00A0) and an ideographic space (U+3000); [len] counts characters,
    not bytes. *)
Lemma strip_wide_white_space :
  let no_break_space := String (ascii_of_nat 194) (String (ascii_of_nat 160) "") in
  strip ("　 神秘 森林" ++ no_break_space) = "神秘 森林"
  /\ len "神秘 森林" = 5
  /\ String.length "神秘 森林" = 13.
Proof. repeat split. Qed.

(** [strip] is idempotent. *)
Lemma strip_idempotent (s : string) : strip (strip s) = strip s.
Proof.
  unfold strip.
  rewrite (clean_lstrip (rstrip (lstrip s)) (rstrip_clean _ (lstrip_clean s))).
  apply rstrip_idempotent.
Qed.

End Stripping.

(** ** The style of a generation job *)

Section ArtStyleOfAJob.

Import ArtStyle ArtStyleHandler ImageHandler Validation.

Lemma ai_enhanced_style_shape (env : Env.t) (custom_prompt provider model : string)
    (style : StyleData.t) :
  generate_custom_ai_enhanced_style env custom_prompt provider model = inr style ->
  exists prompt,
    StyleData.style_prompt style = Some prompt /\ prompt <> ""
    /\ StyleData.mode style = Some "custom_ai_enhanced"
    /\ StyleData.quality_tags style = Some quality_tags.
Proof.
  unfold generate_custom_ai_enhanced_style. cbn [bind Monad_result].
  destruct (check_model env provider model _ _ _) as [e | ai]; [discriminate |].
  destruct (_generate_enhanced_style_with_components env _ provider model)
    as [e | [components enhanced]]; [discriminate |]. cbn [fst].
  destruct (filter_parts _) as [e | parts] eqn:Hp; [discriminate |].
  cbn [ret Monad_result]. intros [= <-]. exists (join ", " parts).
  repeat split.
  apply (join_nonempty ", " "high quality, professional design");
    [now apply closing_parts_kept in Hp | discriminate].
Qed.

(** A prompt of 200 characters on 600 bytes is not too long: it is passed on
    to the style resolver. *)
Lemma long_prompt_is_measured_in_characters (env : Env.t)
    (provider model : string) :
  let text := String.concat "" (repeat "风格" 100) in
  len (strip text) = 200
  /\ String.length (strip text) = 600
  /\ handle_custom_ai_enhanced_style_generation env (Some text) provider model
     = wrap500 "custom_ai_enhanced"
         (generate_custom_ai_enhanced_style env (strip text) provider model).
Proof.
  cbv zeta. split; [vm_compute; reflexivity |].
  split; [vm_compute; reflexivity |].
  unfold handle_custom_ai_enhanced_style_generation.
  assert (Hlen : (500 <? len (strip (String.concat "" (repeat "风格" 100))))%nat
                 = false) by (vm_compute; reflexivity).
  assert (Hblank : negb (truthy (String.concat "" (repeat "风格" 100)))
                   || negb (truthy (strip (String.concat "" (repeat "风格" 100))))
                   = false) by (vm_compute; reflexivity).
  now rewrite Hblank, Hlen.
Qed.


Lemma generate_art_style_usable_cases (env : Env.t)
    (art_style_config : ArtStyleConfig.t) :
  let style := _generate_art_style env art_style_config in
  match ArtStyleConfig.mode art_style_config with
  | CUSTOM_DIRECT | REFERENCE_IMAGE => style = fallback_style
  | PRESET =>
      match ArtStyleConfig.preset_theme art_style_config with
      | Some theme =>
          if validate_preset_theme theme
          then generate_preset_style theme = inr style
          else style = fallback_style
      | None => style = fallback_style
      end
  | CUSTOM_AI_ENHANCED =>
      style = fallback_style
      \/ StyleData.mode style = Some "custom_ai_enhanced"
  end.
Proof.
  cbv zeta. unfold _generate_art_style.
  destruct (ArtStyleConfig.mode art_style_config).
  - unfold handle_preset_style_generation.
    destruct (ArtStyleConfig.preset_theme art_style_config) as [theme |];
      [| reflexivity].
    unfold validate_preset_theme, has_key.
    destruct (lookup theme preset_themes) as [config |] eqn:Hl; cbn [negb];
      [| reflexivity].
    rewrite (preset_theme_style theme config Hl). reflexivity.
  - reflexivity.
  - destruct (handle_custom_ai_enhanced_style_generation env _ _ _)
      as [e | style] eqn:Hh; [now left |]. right.
    unfold handle_custom_ai_enhanced_style_generation in Hh.
    destruct (ArtStyleConfig.custom_prompt art_style_config) as [t |];
      [| discriminate].
    destruct (negb (truthy t) || negb (truthy (strip t))); [discriminate |].
    destruct (500 <? len (strip t))%nat; [discriminate |].
    destruct (generate_custom_ai_enhanced_style env (strip t) _ _) as [e | s] eqn:Hg;
      [destruct e; discriminate |].
    cbn [wrap500] in Hh. injection Hh as <-.
    now destruct (ai_enhanced_style_shape _ _ _ _ _ Hg) as (p & _ & _ & Hm & _).
  - reflexivity.
Qed.

(** X10.  [_generate_art_style] always returns a usable style: its prompt and its
    quality tags are present and not empty.  In [custom_direct] mode, where
    the handler passes the components on as a dictionary, and in
    [reference_image] mode, the style is the fallback style whatever the
    configuration says; in [preset] mode it is the style of the theme when
    the catalogue has it and the fallback style otherwise; in
    [custom_ai_enhanced] mode it is the fallback style or a style of that
    mode. *)
Theorem generate_art_style_always_usable (env : Env.t)
    (art_style_config : ArtStyleConfig.t) :
  let style := _generate_art_style env art_style_config in
  (exists prompt tags,
      StyleData.style_prompt style = Some prompt /\ prompt <> ""
      /\ StyleData.quality_tags style = Some tags /\ tags <> "")
  /\ match ArtStyleConfig.mode art_style_config with
     | CUSTOM_DIRECT | REFERENCE_IMAGE => style = fallback_style
     | PRESET =>
         match ArtStyleConfig.preset_theme art_style_config with
         | Some theme =>
             if validate_preset_theme theme
             then generate_preset_style theme = inr style
             else style = fallback_style
         | None => style = fallback_style
         end
     | CUSTOM_AI_ENHANCED =>
         style = fallback_style
         \/ StyleData.mode style = Some "custom_ai_enhanced"
     end.
Proof.
  cbv zeta. split; [| apply generate_art_style_usable_cases].
  unfold _generate_art_style.
  assert (Hfb : exists prompt tags,
             StyleData.style_prompt fallback_style = Some prompt /\ prompt <> ""
             /\ StyleData.quality_tags fallback_style = Some tags /\ tags <> "").
  { eexists. eexists. repeat split; discriminate. }
  destruct (ArtStyleConfig.mode art_style_config).
  - unfold handle_preset_style_generation.
    destruct (ArtStyleConfig.preset_theme art_style_config) as [theme |];
      [| exact Hfb].
    unfold validate_preset_theme, has_key.
    destruct (lookup theme preset_themes) as [config |] eqn:Hl; cbn [negb];
      [| exact Hfb].
    rewrite (preset_theme_style theme config Hl). cbn [wrap500].
    eexists. eexists. cbn [StyleData.style_prompt StyleData.quality_tags].
    repeat split; try discriminate.
    apply (join_nonempty ", " "high quality, professional design");
      [simpl; auto 10 | discriminate].
  - exact Hfb.
  - destruct (handle_custom_ai_enhanced_style_generation env _ _ _)
      as [e | style] eqn:Hh; [exact Hfb |].
    unfold handle_custom_ai_enhanced_style_generation in Hh.
    destruct (ArtStyleConfig.custom_prompt art_style_config) as [t |];
      [| discriminate].
    destruct (negb (truthy t) || negb (truthy (strip t))); [discriminate |].
    destruct (500 <? len (strip t))%nat; [discriminate |].
    destruct (generate_custom_ai_enhanced_style env (strip t) _ _) as [e | s] eqn:Hg;
      [destruct e; discriminate |].
    cbn [wrap500] in Hh. injection Hh as <-.
    destruct (ai_enhanced_style_shape _ _ _ _ _ Hg) as (p & Hp' & Hne' & _ & Hq).
    exists p, quality_tags. repeat split; try assumption. discriminate.
  - exact Hfb.
Qed.

(** X11.  The art-style report of a validation against what the generation does
    with the same configuration.  A [preset] configuration is reported
    invalid whatever its theme, the themes of the catalogue included: the
    report looks the theme up under a key that the catalogue listing does
    not have.  A [custom_direct] configuration is always reported valid,
    while the generation always falls back on it.  In the two AI modes the
    report is the answer of the model lookup. *)
Theorem art_style_validation_report (env : Env.t)
    (validate_ai_model : option string -> option string -> bool)
    (art_style_config : ArtStyleConfig.t) :
  let report := _validate_art_style_config validate_ai_model art_style_config in
  StyleValidation.mode report = ArtStyleConfig.mode art_style_config
  /\ match ArtStyleConfig.mode art_style_config with
     | PRESET =>
         StyleValidation.valid report = false
         /\ StyleValidation.message report
            = PresetThemeUnknown (ArtStyleConfig.preset_theme art_style_config)
         /\ match ArtStyleConfig.preset_theme art_style_config with
            | Some theme =>
                if validate_preset_theme theme
                then StyleData.mode (_generate_art_style env art_style_config)
                     = Some "preset"
                else True
            | None => True
            end
     | CUSTOM_DIRECT =>
         StyleValidation.valid report = true
         /\ _generate_art_style env art_style_config = fallback_style
     | CUSTOM_AI_ENHANCED | REFERENCE_IMAGE =>
         StyleValidation.valid report
         = validate_ai_model (ArtStyleConfig.ai_provider art_style_config)
             (ArtStyleConfig.ai_model art_style_config)
     end.
Proof.
  cbv zeta. unfold _validate_art_style_config.
  pose proof (generate_art_style_usable_cases env art_style_config) as Hg.
  destruct (ArtStyleConfig.mode art_style_config) eqn:Hm;
    cbn [StyleValidation.mode StyleValidation.valid StyleValidation.message
         theme_in_presets lookup get_available_presets String.eqb Ascii.eqb
         Bool.eqb ret Monad_result];
    (split; [reflexivity |]); try reflexivity.
  - split; [reflexivity |]. split; [reflexivity |].
    destruct (ArtStyleConfig.preset_theme art_style_config) as [theme |]; [| exact I].
    destruct (validate_preset_theme theme) eqn:Hv; [| exact I].
    unfold generate_preset_style in Hg.
    destruct (negb (truthy theme)); [discriminate |].
    destruct (lookup theme preset_themes); [| discriminate].
    injection Hg as <-. reflexivity.
  - split; [reflexivity | exact Hg].
Qed.

End ArtStyleOfAJob.

(** ** Validation of the image-analysis response *)

Section AnalysisResponse.

Import ArtStyle.

(** X12.  [_analyze_images_and_generate_components], once the model has
    answered.  A returned document was decoded from the stripped answer as
    an object with the keys [style_description] and [components]; its
    components hold the six required keys; the document is returned with
    the components updated in place: a required key that was null holds the
    empty string, every other value is kept, so that no required key is null.
    An answer that is not JSON, an object without one of the two keys, and
    components given as an object without some required key are rejected
    with a [ValueError], the last one naming the absent keys in the order of
    the required list. *)
Theorem analysis_response_validation (env : Env.t) (response : string) :
  match parse_analysis_response env response with
  | inr document =>
      exists top fields,
        Env.json_loads env (strip response) = Some (JObj top)
        /\ has_key "style_description" top = true
        /\ lookup "components" top = Some (JObj fields)
        /\ document
           = store "components" (JObj (none_to_empty required_fields fields)) top
        /\ lookup "components" document
           = Some (JObj (none_to_empty required_fields fields))
        /\ Forall (fun f =>
                     exists v, lookup f fields = Some v
                       /\ lookup f (none_to_empty required_fields fields)
                          = Some (match v with JNull => JStr "" | _ => v end))
             required_fields
  | inl e =>
      match Env.json_loads env (strip response) with
      | None => e = ValueError NotValidJson
      | Some (JObj top) =>
          if negb (has_key "components" top)
             || negb (has_key "style_description" top)
          then e = ValueError MissingComponentsOrDescription
          else match lookup "components" top with
               | Some (JObj fields) =>
                   e = ValueError
                         (MissingRequiredFields
                            (filter (fun f => negb (has_key f fields))
                               required_fields))
                   /\ filter (fun f => negb (has_key f fields)) required_fields
                      <> []
               | _ => True
               end
      | Some _ => True
      end
  end.
Proof.
  unfold parse_analysis_response.
  destruct (Env.json_loads env (strip response)) as [parsed |]; [| reflexivity].
  destruct parsed as [| b | n | text | items | top];
    try (cbn [py_in py_getitem bind ret raise Monad_result];
         repeat match goal with
                | |- context [if ?c then _ else _] =>
                    destruct c; cbn [negb orb py_getitem bind ret raise Monad_result]
                end;
         exact I).
  cbn [py_in bind ret Monad_result].
  destruct (has_key "components" top) eqn:Hc; cbn [negb orb bind ret Monad_result];
    [| reflexivity].
  destruct (has_key "style_description" top) eqn:Hd; cbn [negb]; [| reflexivity].
  unfold py_getitem. unfold has_key in Hc.
  destruct (lookup "components" top) as [components |] eqn:Hl; [| discriminate].
  cbn [bind ret Monad_result].
  destruct components as [| b | n | text | items | fields];
    try (cbn; exact I).
  - destruct (missing_fields required_fields (JStr text)) as [e | [| m ms]];
      cbn; exact I.
  - destruct (missing_fields required_fields (JArr items)) as [e | [| m ms]];
      cbn; exact I.
  - rewrite missing_fields_object. cbn [bind ret Monad_result].
    destruct (filter (fun f => negb (has_key f fields)) required_fields)
      as [| m ms] eqn:Hm.
    + exists top, fields. split; [reflexivity |]. split; [exact Hd |].
      split; [exact Hl |]. split; [reflexivity |].
      split; [apply lookup_store_eq |].
      apply Forall_forall. intros f Hf.
      pose proof (proj1 (filter_absent_nil _ _) Hm f Hf) as Hp.
      destruct (lookup f fields) as [v |] eqn:Hv; [| congruence].
      exists v. split; [reflexivity |].
      rewrite none_to_empty_lookup, Hv.
      assert (He : existsb (String.eqb f) required_fields = true).
      { apply existsb_exists. exists f. split; [exact Hf | apply String.eqb_refl]. }
      rewrite He. now destruct v.
    + split; [reflexivity | discriminate].
Qed.

End AnalysisResponse.

(** ** The number of staged reference images *)

Section StagedImages.

Import Storage TempImages.

Variable env : Env.t.

Lemma upload_each_count (images : list UploadFile.t) (i : nat) (st : State) :
  length (uploaded_keys (events (fst (upload_each env i images st))))
  <= length (uploaded_keys (events st)) + length images.
Proof.
  revert i st. induction images as [| image rest IH]; intros i st.
  - cbn. lia.
  - cbn [upload_each bind Monad_M].
    destruct (upload_temp_image_cases env i image
                ("_img_" ++ NilZero.string_of_uint (Nat.to_uint i))%string st)
      as [(e & ->) | [(key & e & -> & _) | (key & url & -> & _)]].
    + cbn [fst length]. lia.
    + cbn [fst events]. rewrite uploaded_keys_app, length_app. cbn. lia.
    + cbn [append_upload_result].
      match goal with
      | |- context [upload_each env (S i) rest ?s] =>
          pose proof (IH (S i) s) as Hle;
          destruct (upload_each env (S i) rest s) as [st' [e | urls]]
      end; cbn [fst events ret Monad_M] in *;
        rewrite uploaded_keys_app, length_app in Hle; cbn in Hle |- *; lia.
Qed.

Lemma take_length (max_images : Z) (images : list UploadFile.t) :
  (max_images < Z.of_nat (length images))%Z ->
  Z.of_nat (length (take max_images images))
  = if (0 <=? max_images)%Z then max_images
    else Z.max 0 (Z.of_nat (length images) + max_images).
Proof.
  intros Hlt. unfold take. destruct (Z.leb_spec 0 max_images) as [H0 | H0];
    rewrite length_firstn; lia.
Qed.

(** What the [try] block stages, from an empty log. *)
Lemma resolve_staged (reference_images : list UploadFile.t)
    (provider model : string) (max_images : Z) :
  let st := fst (resolve env reference_images provider model max_images initial) in
  let staged := Z.of_nat (length (uploaded_keys (events st))) in
  (staged <= Z.of_nat (length reference_images))%Z
  /\ (if (0 <=? max_images)%Z then staged <= max_images
      else staged <= Z.max 0 (Z.of_nat (length reference_images) + max_images))%Z
  /\ (if is_ok (ArtStyle.check_model env provider model "image_analysis"
                  "multimodal" (NoImageAnalysis model))
      then True else events st = [] /\ upload_results st = []).
Proof.
  cbv zeta. unfold resolve. cbn [bind Monad_M lift].
  destruct (ArtStyle.check_model env provider model _ _ _) as [e | ai];
    cbn [is_ok fst].
  { cbn. split; [lia |]. split; [destruct (Z.leb_spec 0 max_images); lia |].
    split; reflexivity. }
  destruct reference_images as [| image rest].
  { cbn. split; [lia |]. split; [destruct (Z.leb_spec 0 max_images); lia | exact I]. }
  cbn [bind Monad_M].
  set (selected := if (max_images <? Z.of_nat (length (image :: rest)))%Z
                   then take max_images (image :: rest) else image :: rest).
  assert (Hsel : (Z.of_nat (length selected) <= Z.of_nat (length (image :: rest)))%Z
                 /\ (if (0 <=? max_images)%Z
                     then Z.of_nat (length selected) <= max_images
                     else Z.of_nat (length selected)
                          <= Z.max 0 (Z.of_nat (length (image :: rest)) + max_images))%Z).
  { subst selected.
    destruct (Z.ltb_spec max_images (Z.of_nat (length (image :: rest)))) as [Hlt | Hge].
    - rewrite (take_length _ _ Hlt).
      destruct (Z.leb_spec 0 max_images); lia.
    - destruct (Z.leb_spec 0 max_images); lia. }
  pose proof (upload_each_count selected 0 initial) as Hcount.
  cbn [initial events uploaded_keys flat_map length Nat.add] in Hcount.
  destruct Hsel as [Hs1 Hs2].
  assert (Hgoal : forall st : State,
             length (uploaded_keys (events st)) <= length selected ->
             (Z.of_nat (length (uploaded_keys (events st)))
              <= Z.of_nat (length (image :: rest)))%Z
             /\ (if (0 <=? max_images)%Z
                 then Z.of_nat (length (uploaded_keys (events st))) <= max_images
                 else Z.of_nat (length (uploaded_keys (events st)))
                      <= Z.max 0 (Z.of_nat (length (image :: rest)) + max_images))%Z
             /\ True).
  { intros st Hst. split; [lia |]. split; [| exact I].
    destruct (Z.leb_spec 0 max_images); lia. }
  destruct (upload_each env 0 selected initial) as [st' [e | urls]];
    cbn [fst] in *; [now apply Hgoal |].
  destruct (ArtStyle._analyze_images_and_generate_components env urls provider model)
    as [e | analysis]; cbn [fst]; [now apply Hgoal |].
  destruct (ArtStyle.get_json "components" analysis JNull); cbn [fst lift raise];
    try (now apply Hgoal).
  cbn [bind Monad_M lift].
  destruct (ArtStyle.filter_parts _); cbn [fst ret Monad_M]; now apply Hgoal.
Qed.

(** X13.  [generate_reference_image_style] stages at most [max_images] images
    (for a negative bound, as many as the slice [[:max_images]] keeps) and
    never more than it was given; it stages none when the model check fails
    or when no image is given; and every delete it invokes is for a key it
    has staged. *)
Theorem staged_images_bounded (reference_images : list UploadFile.t)
    (provider model : string) (max_images : Z) :
  let log := events (fst (run env reference_images provider model max_images)) in
  let staged := Z.of_nat (length (uploaded_keys log)) in
  (staged <= Z.of_nat (length reference_images))%Z
  /\ (if (0 <=? max_images)%Z then staged <= max_images
      else staged <= Z.max 0 (Z.of_nat (length reference_images) + max_images))%Z
  /\ (if is_ok (ArtStyle.check_model env provider model "image_analysis"
                  "multimodal" (NoImageAnalysis model))
      then True else log = [])
  /\ incl (deleted_keys log) (uploaded_keys log).
Proof.
  cbv zeta.
  pose proof (run_log env reference_images provider model max_images) as Hlog.
  cbv zeta in Hlog. destruct Hlog as (_ & Hin & _).
  split; [| split; [| split; [| exact Hin]]]; clear Hin;
    unfold run; rewrite generate_reference_image_style_spec;
    pose proof (resolve_staged reference_images provider model max_images) as Hres;
    destruct (resolve env reference_images provider model max_images initial)
      as [st1 outcome];
    cbn [fst events] in *;
    rewrite ?uploaded_keys_app, ?uploaded_keys_of_cleanup, ?app_nil_r;
    destruct Hres as (H1 & H2 & H3).
  - exact H1.
  - exact H2.
  - destruct (is_ok _); [exact I |].
    destruct H3 as [-> ->]. reflexivity.
Qed.


End StagedImages.

(** ** Reference prompts of an ingested archive *)

Section ReferencePrompts.

Import Ingestion FileProcessing.

Variable str_format : string -> string -> result string.
Variable module : string.

Lemma for_each_app {A B : Type} (body : B -> A -> result B) (l1 l2 : list A)
    (acc : B) :
  for_each body (l1 ++ l2) acc
  = (acc' <- for_each body l1 acc ;; for_each body l2 acc').
Proof.
  revert acc. induction l1 as [| x l1 IH]; intros acc; cbn [app for_each].
  - reflexivity.
  - cbn [bind Monad_result]. destruct (body acc x); [reflexivity | apply IH].
Qed.

Lemma generate_reference_prompts_flat (asset_structure : AssetStructure) :
  _generate_reference_prompts_v2 str_format asset_structure module
  = for_each (add_file str_format module) (files_of asset_structure) [].
Proof.
  unfold _generate_reference_prompts_v2, files_of. generalize (@nil (string * string)).
  induction asset_structure as [| [category subcategories] rest IH]; intros acc;
    [reflexivity |].
  cbn [for_each flat_map]. rewrite for_each_app.
  assert (Hsub : forall acc,
             for_each (fun reference_prompts '(subcategory, files) =>
                         for_each (add_reference_prompt str_format module
                                     category subcategory)
                           files reference_prompts)
               subcategories acc
             = for_each (add_file str_format module)
                 (flat_map (fun '(subcategory, files) =>
                              map (fun file_info => (category, subcategory, file_info))
                                files)
                    subcategories) acc).
  { clear. induction subcategories as [| [subcategory files] subs IHs]; intros acc;
      [reflexivity |].
    cbn [for_each flat_map]. rewrite for_each_app.
    assert (Hfiles : forall acc,
               for_each (add_reference_prompt str_format module category subcategory)
                 files acc
               = for_each (add_file str_format module)
                   (map (fun file_info => (category, subcategory, file_info)) files)
                   acc).
    { clear. induction files as [| f files IHf]; intros acc; [reflexivity |].
      cbn [for_each map add_file bind Monad_result].
      destruct (add_reference_prompt _ _ _ _ acc f); [reflexivity | apply IHf]. }
    rewrite Hfiles. cbn [bind Monad_result].
    destruct (for_each (add_file str_format module) _ acc); [reflexivity | apply IHs]. }
  rewrite Hsub. cbn [bind Monad_result].
  destruct (for_each (add_file str_format module) _ acc); [reflexivity | apply IH].
Qed.

Lemma lookup_store_if_absent (k k' v v' : string) (d : list (string * string)) :
  lookup k' d = Some v' -> lookup k' (store_if_absent k v d) = Some v'.
Proof.
  intros H. unfold store_if_absent.
  destruct (has_key k d) eqn:Hk; cbn [negb]; [exact H |].
  rewrite lookup_store_ne; [exact H |].
  intros ->. unfold has_key in Hk. rewrite H in Hk. discriminate.
Qed.

Lemma add_file_spec (d d' : list (string * string))
    (file : string * string * FileInfo.t) :
  (add_file str_format module) d file = inr d' ->
  exists prompt,
    prompt_of str_format module file = inr prompt
    /\ lookup (exact_key file) d' = Some prompt
    /\ (forall k v, k <> exact_key file -> lookup k d = Some v ->
          lookup k d' = Some v).
Proof.
  destruct file as [[category subcategory] file_info].
  unfold add_file, add_reference_prompt, prompt_of, exact_key.
  cbn [bind Monad_result].
  destruct (_build_reference_prompt_v2 _ _ _ _ _ _ _) as [e | prompt];
    [discriminate |].
  cbn [ret Monad_result]. intros [= <-]. exists prompt.
  split; [reflexivity |].
  fold (store_if_absent (category ++ "." ++ subcategory)%string prompt
          (store (category ++ "." ++ subcategory ++ "."
                    ++ FileInfo.filename file_info)%string prompt d)).
  match goal with
  | |- context [if negb (has_key category ?m) then store category prompt ?m else ?m] =>
      fold (store_if_absent category prompt m)
  end.
  split.
  - apply lookup_store_if_absent, lookup_store_if_absent, lookup_store_eq.
  - intros k v Hk Hv. apply lookup_store_if_absent, lookup_store_if_absent.
    rewrite lookup_store_ne; [exact Hv |].
    intros H. apply Hk. rewrite <- H. reflexivity.
Qed.

Lemma for_each_keeps (files : list (string * string * FileInfo.t))
    (d d' : list (string * string)) (k v : string) :
  for_each (add_file str_format module) files d = inr d' ->
  ~ In k (map exact_key files) -> lookup k d = Some v -> lookup k d' = Some v.
Proof.
  revert d. induction files as [| file files IH]; intros d; cbn [for_each].
  - now intros [= <-].
  - cbn [bind Monad_result]. destruct ((add_file str_format module) d file) as [e | d1] eqn:Ha;
      [discriminate |].
    intros Hrest Hnotin Hv. cbn [map In] in Hnotin.
    apply (IH d1 Hrest); [tauto |].
    destruct (add_file_spec _ _ _ Ha) as (p & _ & _ & Hkeep).
    apply Hkeep; [| exact Hv]. intros ->. tauto.
Qed.

Lemma for_each_present (files : list (string * string * FileInfo.t))
    (d d' : list (string * string)) (k : string) :
  for_each (add_file str_format module) files d = inr d' ->
  lookup k d <> None -> lookup k d' <> None.
Proof.
  revert d. induction files as [| file files IH]; intros d; cbn [for_each].
  - now intros [= <-].
  - cbn [bind Monad_result]. destruct ((add_file str_format module) d file) as [e | d1] eqn:Ha;
      [discriminate |].
    intros Hrest Hk. apply (IH d1 Hrest).
    destruct (add_file_spec _ _ _ Ha) as (p & _ & Hp & Hkeep).
    destruct (String.eqb_spec k (exact_key file)) as [-> | Hne].
    + rewrite Hp. discriminate.
    + destruct (lookup k d) as [v |] eqn:Hv; [| congruence].
      rewrite (Hkeep k v Hne Hv). discriminate.
Qed.

Lemma for_each_found (files : list (string * string * FileInfo.t))
    (d d' : list (string * string)) (file : string * string * FileInfo.t) :
  for_each (add_file str_format module) files d = inr d' -> In file files ->
  exists prompt,
    lookup (exact_key file) d' = Some prompt
    /\ (NoDup (map exact_key files) ->
        prompt_of str_format module file = inr prompt).
Proof.
  revert d. induction files as [| x files IH]; intros d; cbn [for_each];
    [intros _ [] |].
  cbn [bind Monad_result]. destruct ((add_file str_format module) d x) as [e | d1] eqn:Ha;
    [discriminate |].
  intros Hrest [-> | Hin].
  - destruct (add_file_spec _ _ _ Ha) as (p & Hp & Hl & _).
    destruct (in_dec string_dec (exact_key file) (map exact_key files))
      as [Hdup | Hfresh].
    + assert (Hpres : lookup (exact_key file) d' <> None).
      { apply (for_each_present files d1 d' _ Hrest). rewrite Hl. discriminate. }
      destruct (lookup (exact_key file) d') as [q |] eqn:Hq; [| congruence].
      exists q. split; [reflexivity |]. intros Hnd. cbn [map] in Hnd.
      inversion Hnd; subst. contradiction.
    + exists p. split; [| intros _; exact Hp].
      exact (for_each_keeps files d1 d' _ _ Hrest Hfresh Hl).
  - destruct (IH d1 Hrest Hin) as (p & Hl & Hown).
    exists p. split; [exact Hl |]. intros Hnd. apply Hown.
    cbn [map] in Hnd. now inversion Hnd.
Qed.

Lemma build_reference_prompt_recognized (category subcategory filename
    description : string) (file_info : FileInfo.t) :
  ImageHandler.recognized module = true ->
  exists prompt,
    _build_reference_prompt_v2 str_format module category subcategory filename
      description file_info = inr prompt.
Proof.
  unfold ImageHandler.recognized, _build_reference_prompt_v2.
  destruct (module =? "symbols"); [intros _; cbn; eauto |].
  destruct (module =? "ui"); [intros _; cbn; eauto |].
  destruct (module =? "backgrounds"); [intros _; cbn; eauto | discriminate].
Qed.

Lemma for_each_recognized (files : list (string * string * FileInfo.t))
    (d : list (string * string)) :
  ImageHandler.recognized module = true ->
  exists d', for_each (add_file str_format module) files d = inr d'.
Proof.
  intros Hm. revert d. induction files as [| [[c s] f] files IH]; intros d;
    cbn [for_each]; [now exists d |].
  cbn [add_file]. unfold add_reference_prompt.
  destruct (build_reference_prompt_recognized c s (FileInfo.filename f)
              (FileInfo.description f) f Hm) as [p ->].
  cbn [bind ret Monad_result]. apply IH.
Qed.

Lemma reference_task_names (asset_structure : AssetStructure)
    (params : GenerationInput) (t : Task.t) :
  In t (Handler._parse_generation_tasks_from_references
          (_convert_to_asset_items asset_structure) params) ->
  exists file, In file (files_of asset_structure) /\ task_names t = file_names file.
Proof.
  unfold Handler._parse_generation_tasks_from_references, _convert_to_asset_items,
    files_of.
  rewrite in_flat_map. intros ([c subs] & Hc & Ht).
  apply in_map_iff in Hc. destruct Hc as ([c0 subs0] & [= <- <-] & Hc).
  apply in_flat_map in Ht. destruct Ht as ([s items] & Hs & Ht).
  apply in_map_iff in Hs. destruct Hs as ([s0 files] & [= <- <-] & Hs).
  apply in_flat_map in Ht. destruct Ht as (item & Hi & Ht).
  apply in_map_iff in Hi. destruct Hi as (f & <- & Hf).
  apply in_map_iff in Ht. destruct Ht as (i & <- & _).
  exists (c0, s0, f). split; [| reflexivity].
  apply in_flat_map. exists (c0, subs0). split; [exact Hc |].
  apply in_flat_map. exists (s0, files). split; [exact Hs |].
  apply in_map_iff. exists f. auto.
Qed.

(** X14.  The prompts that [_generate_reference_prompts_v2] builds for an archive
    are found by [get_reference_prompt_for_task].  For a recognised module
    the mapping is always built; every task of the reference-driven
    decomposition of the archive carries the category, subcategory and
    filename of one of its files; and a task with the names of a file finds a
    prompt under its exact key, which is the prompt built for that file when
    no two files of the archive share an exact key. *)
Theorem reference_prompts_are_found (asset_structure : AssetStructure)
    (params : GenerationInput) :
  ImageHandler.recognized module = true ->
  exists reference_prompts,
    _generate_reference_prompts_v2 str_format asset_structure module
    = inr reference_prompts
    /\ (forall t,
          In t (Handler._parse_generation_tasks_from_references
                  (_convert_to_asset_items asset_structure) params) ->
          exists file, In file (files_of asset_structure)
                       /\ task_names t = file_names file)
    /\ (forall file t,
          In file (files_of asset_structure) ->
          task_names t = file_names file ->
          exists prompt,
            get_reference_prompt_for_task t reference_prompts = Some prompt
            /\ (NoDup (map exact_key (files_of asset_structure)) ->
                prompt_of str_format module file = inr prompt)).
Proof.
  intros Hm. rewrite generate_reference_prompts_flat.
  destruct (for_each_recognized (files_of asset_structure) [] Hm) as [prompts Hp].
  exists prompts. split; [exact Hp |]. split.
  - intros t. apply reference_task_names.
  - intros file t Hin Hnames.
    destruct (for_each_found _ _ _ file Hp Hin) as (prompt & Hl & Hown).
    exists prompt. split; [| exact Hown].
    unfold get_reference_prompt_for_task, lookup_paths.
    destruct file as [[c s] f]. unfold task_names, file_names in Hnames.
    injection Hnames as -> -> ->. unfold exact_key in Hl. now rewrite Hl.
Qed.

End ReferencePrompts.

Lemma reference_prompts_are_found_witness :
  exists reference_prompts,
    Ingestion._generate_reference_prompts_v2 (fun template _ => inr template)
      sample_archive "symbols" = inr reference_prompts
    /\ FileProcessing.get_reference_prompt_for_task
         (Task.mk "base_symbols" "low_value" "king" "King" 1 "1024x1024" false true)
         reference_prompts
       = Some "Create a slot machine symbol for King, in base_symbols category, low_value subcategory, based on the reference file king.txt, Maintain consistent visual style with other assets, Keep the same artistic approach and quality level".
Proof.
  destruct (reference_prompts_are_found (fun template _ => inr template) "symbols"
              sample_archive
              (RequestData.generation_params Scenario.reference_request) eq_refl)
    as (prompts & Hgen & _ & Hfound).
  exists prompts. split; [exact Hgen |].
  destruct (Hfound ("base_symbols", "low_value",
                    FileInfo.mk "king" "king.txt" "King"
                      "base_symbols/low_value/king.txt" None false (Some 1%Z) None)
              (Task.mk "base_symbols" "low_value" "king" "King" 1 "1024x1024"
                 false true))
    as (prompt & Hget & Hown).
  - simpl. auto.
  - reflexivity.
  - rewrite Hget. f_equal.
    assert (Hnd : NoDup (map exact_key (files_of sample_archive))).
    { cbn. repeat constructor; cbn; intuition discriminate. }
    specialize (Hown Hnd). cbn in Hown. now injection Hown as <-.
Defined.

(** ** The resolution read off a file name *)

Section ExtractedResolution.

Import Ingestion.

Lemma length_append (a b : string) :
  String.length (a ++ b) = String.length a + String.length b.
Proof. induction a as [| c a IH]; cbn; [reflexivity | now rewrite IH]. Qed.

(** One decimal digit at the head of a text: [span_decimal] takes it and
    goes on with what follows. *)
Lemma span_decimal_cases (s : string) :
  span_decimal s = (EmptyString, s)
  \/ exists d s',
       s = (d ++ s')%string /\ d <> EmptyString
       /\ forall t, span_decimal (d ++ t)
                    = (d ++ fst (span_decimal t), snd (span_decimal t))%string.
Proof.
  destruct s as [| c1 s1]; [now left |].
  destruct (decimal1 c1) eqn:E1.
  { right. exists (String c1 EmptyString), s1.
    split; [reflexivity |]. split; [discriminate |].
    intros t. cbn [append span_decimal]. rewrite E1.
    now destruct (span_decimal t). }
  destruct s1 as [| c2 s2]; [left; cbn; now rewrite E1 |].
  destruct (decimal2 c1 c2) eqn:E2.
  { right. exists (String c1 (String c2 EmptyString)), s2.
    split; [reflexivity |]. split; [discriminate |].
    intros t. cbn [append span_decimal]. rewrite E1, E2.
    now destruct (span_decimal t). }
  destruct s2 as [| c3 s3]; [left; cbn; now rewrite E1, E2 |].
  destruct (decimal3 c1 c2 c3) eqn:E3.
  { right. exists (String c1 (String c2 (String c3 EmptyString))), s3.
    split; [reflexivity |]. split; [discriminate |].
    intros t. cbn [append span_decimal]. rewrite E1, E2, E3.
    now destruct (span_decimal t). }
  destruct s3 as [| c4 s4]; [left; cbn; now rewrite E1, E2, E3 |].
  destruct (decimal4 c1 c2 c3 c4) eqn:E4.
  { right. exists (String c1 (String c2 (String c3 (String c4 EmptyString)))), s4.
    split; [reflexivity |]. split; [discriminate |].
    intros t. cbn [append span_decimal]. rewrite E1, E2, E3, E4.
    now destruct (span_decimal t). }
  left. cbn [span_decimal]. now rewrite E1, E2, E3, E4.
Qed.

Lemma nonempty_length (d : string) : d <> EmptyString -> 0 < String.length d.
Proof. destruct d; [congruence | cbn; lia]. Qed.

(** The run of digits and the rest make up the text; the run is found
    again before any text that does not start with a digit. *)
Lemma span_decimal_spec (s w rest : string) :
  span_decimal s = (w, rest) ->
  s = (w ++ rest)%string
  /\ forall t, span_decimal t = (EmptyString, t) ->
               span_decimal (w ++ t) = (w, t).
Proof.
  remember (String.length s) as n eqn:Hn.
  assert (Hle : String.length s <= n) by lia. clear Hn.
  revert s w rest Hle. induction n as [| n IH]; intros s w rest Hle Hs.
  - destruct s; [| cbn in Hle; lia]. cbn in Hs. injection Hs as <- <-.
    split; [reflexivity | intros t Ht; exact Ht].
  - destruct (span_decimal_cases s) as [E | (d & s' & -> & Hd & Hstep)].
    + rewrite E in Hs. injection Hs as <- <-.
      split; [reflexivity | intros t Ht; exact Ht].
    + rewrite Hstep in Hs. injection Hs as <- <-.
      rewrite length_append in Hle. apply nonempty_length in Hd.
      destruct (IH s' (fst (span_decimal s')) (snd (span_decimal s')))
        as [Hs' Hrun]; [lia | now destruct (span_decimal s') |].
      split.
      * rewrite append_assoc. now rewrite <- Hs'.
      * intros t Ht. rewrite append_assoc, Hstep, (Hrun t Ht). reflexivity.
Qed.

(** No digit starts with the letter [x]. *)
Lemma span_decimal_x (h : string) :
  span_decimal (String "x" h) = (EmptyString, String "x" h).
Proof. destruct h as [| c2 [| c3 [| c4 h]]]; reflexivity. Qed.

Lemma prefix_app (a b : string) : String.prefix a (a ++ b) = true.
Proof.
  induction a as [| c a IH]; cbn.
  - now destruct b.
  - destruct (ascii_dec c c); [exact IH | contradiction].
Qed.

Lemma contains_prefix (pat s : string) :
  String.prefix pat s = true -> contains pat s = true.
Proof. intros H. destruct s; cbn [contains]; rewrite H; reflexivity. Qed.

Lemma match_resolution_here_spec (s r : string) :
  match_resolution_here s = Some r ->
  Dto.resolution_pattern r = true /\ String.prefix r s = true.
Proof.
  unfold match_resolution_here.
  destruct (span_decimal s) as [w rest] eqn:Hs.
  destruct (span_decimal_spec _ _ _ Hs) as (-> & Hw).
  destruct w as [| d w]; [discriminate |].
  destruct rest as [| c h]; [discriminate |].
  destruct (Ascii.eqb_spec c "x"%char) as [-> | _]; [| discriminate].
  destruct (span_decimal h) as [h1 h2] eqn:Hh.
  destruct (span_decimal_spec _ _ _ Hh) as (-> & Hh1).
  destruct h1 as [| d1 h1]; [discriminate |]. intros [= <-].
  split.
  - unfold Dto.resolution_pattern.
    assert (Hspan : span_decimal (String d w ++ "x" ++ String d1 h1)
                    = (String d w, String "x" (String d1 h1)))
      by exact (Hw _ (span_decimal_x (String d1 h1))).
    change (span_decimal (String d (w ++ String "x" (String d1 h1))))
      with (span_decimal (String d w ++ "x" ++ String d1 h1)).
    rewrite Hspan.
    cbn [Ascii.eqb Bool.eqb truthy andb]. unfold all_decimal.
    rewrite <- (append_nil_r (String d1 h1)).
    now rewrite (Hh1 EmptyString eq_refl).
  - change (String d w ++ String "x" (String d1 h1 ++ h2))%string
      with (String d w ++ "x" ++ (String d1 h1 ++ h2))%string.
    assert (Hassoc : (String d w ++ "x" ++ String d1 h1 ++ h2)%string
                     = ((String d w ++ "x" ++ String d1 h1) ++ h2)%string).
    { now rewrite !append_assoc. }
    rewrite Hassoc. apply prefix_app.
Qed.

Lemma resolution_pattern_matches_here (s : string) :
  Dto.resolution_pattern s = true -> match_resolution_here s = Some s.
Proof.
  unfold Dto.resolution_pattern, match_resolution_here.
  destruct (span_decimal s) as [w rest] eqn:Hs.
  destruct (span_decimal_spec _ _ _ Hs) as (-> & _).
  destruct w as [| d w]; [discriminate |].
  destruct rest as [| c h]; [discriminate |].
  destruct (Ascii.eqb_spec c "x"%char) as [-> | _]; [| discriminate]. cbn [andb].
  intros H. apply andb_true_iff in H. destruct H as [Ht Hd].
  unfold all_decimal in Hd.
  destruct (span_decimal h) as [h1 h2] eqn:Hh.
  destruct (span_decimal_spec _ _ _ Hh) as (-> & _). cbn [snd] in Hd.
  destruct h2; [| discriminate]. rewrite append_nil_r in *.
  destruct h1; [discriminate | reflexivity].
Qed.

Lemma contains_tail (pat : string) (c : ascii) (s : string) :
  contains pat s = true -> contains pat (String c s) = true.
Proof. intros H. cbn [contains]. rewrite H. apply orb_true_r. Qed.

(** The digits of a resolution are the decimal digits of any script, here
    Arabic-Indic ones. *)
Lemma extract_resolution_arabic_indic :
  _extract_resolution_from_filename "logo_١٢٨x٦٤.png" = Some "١٢٨x٦٤"
  /\ _extract_resolution_from_filename "logo_128x64.png" = Some "128x64"
  /\ _extract_resolution_from_filename "logo_128x.png" = None
  /\ Dto.resolution_pattern "١٢٨x64" = true.
Proof. repeat split. Qed.

(** X15.  [_extract_resolution_from_filename]: a resolution read off a file name
    is a part of the name and has the form that [ImageAssetItem] requires
    of a resolution, digits, an [x] and digits, the digits being the
    decimal digits of any script; when none is found, the name itself is
    not of that form. *)
Theorem extracted_resolution_is_well_formed (filename : string) :
  match _extract_resolution_from_filename filename with
  | Some resolution =>
      Dto.resolution_pattern resolution = true
      /\ contains resolution filename = true
  | None => Dto.resolution_pattern filename = false
  end.
Proof.
  induction filename as [| c rest IH]; [reflexivity |].
  cbn [_extract_resolution_from_filename].
  destruct (match_resolution_here (String c rest)) as [r |] eqn:Hm.
  - destruct (match_resolution_here_spec _ _ Hm) as [Hp Hpre].
    split; [exact Hp | now apply contains_prefix].
  - assert (Hno : Dto.resolution_pattern (String c rest) = false).
    { destruct (Dto.resolution_pattern (String c rest)) eqn:Hp; [| reflexivity].
      apply resolution_pattern_matches_here in Hp. congruence. }
    destruct (_extract_resolution_from_filename rest) as [r |].
    + destruct IH as [Hp Hc]. split; [exact Hp | now apply contains_tail].
    + exact Hno.
Qed.

End ExtractedResolution.

(** ** Validated items *)

Section ValidatedItems.

(** An item whose filename and description end with a no-break space is
    accepted, and both are stored without it. *)
Lemma item_with_no_break_space :
  let no_break_space := String (ascii_of_nat 194) (String (ascii_of_nat 160) "") in
  Dto.ImageAssetItem
    (Item.mk ("a" ++ no_break_space) ("Ace" ++ no_break_space) 1 (Some "١٢٨x٦٤"))
  = inr (Item.mk "a" "Ace" 1 (Some "١٢٨x٦٤")).
Proof. reflexivity. Qed.

(** X16.  [ImageAssetItem]: a validated item is normalised, and validating it
    again returns it unchanged.  Its filename and description are the
    stripped texts of the declaration, stripped of the white space of
    [str.strip()], and are not empty, its count and resolution are those of
    the declaration, and its count lies between 1 and 10. *)
Theorem validated_item_is_stable (raw item : Item.t) :
  Dto.ImageAssetItem raw = inr item ->
  Dto.ImageAssetItem item = inr item
  /\ Item.filename item = strip (Item.filename raw)
  /\ Item.description item = strip (Item.description raw)
  /\ strip (Item.filename item) = Item.filename item
  /\ strip (Item.description item) = Item.description item
  /\ Item.count item = Item.count raw
  /\ Item.resolution item = Item.resolution raw
  /\ (1 <= Item.count item <= 10)%Z.
Proof.
  unfold Dto.ImageAssetItem at 1.
  destruct (truthy (Item.filename raw)) eqn:Ef0; cbn [negb orb]; [| discriminate].
  destruct (truthy (strip (Item.filename raw))) eqn:Ef; cbn [negb]; [| discriminate].
  destruct (Dto.filename_chars (strip (Item.filename raw))) eqn:Ec; cbn [negb];
    [| discriminate].
  destruct (truthy (Item.description raw)) eqn:Ed0; cbn [negb orb]; [| discriminate].
  destruct (truthy (strip (Item.description raw))) eqn:Ed; cbn [negb];
    [| discriminate].
  destruct ((1 <=? Item.count raw)%Z && (Item.count raw <=? 10)%Z) eqn:En;
    cbn [negb]; [| discriminate].
  destruct (match Item.resolution raw with
            | Some r => negb (Dto.resolution_pattern r)
            | None => false
            end) eqn:Er; [discriminate |].
  cbn [ret Monad_result]. intros [= <-].
  cbn [Item.filename Item.description Item.count Item.resolution].
  rewrite !strip_idempotent.
  split; [| repeat split; apply andb_true_iff in En; lia].
  unfold Dto.ImageAssetItem.
  cbn [Item.filename Item.description Item.count Item.resolution].
  rewrite !strip_idempotent, Ef, Ec, Ed, En, Er. reflexivity.
Qed.

Lemma validated_item_is_stable_witness :
  Dto.ImageAssetItem (Item.mk "  heart_ace " " Ace of Hearts" 2 (Some "512x512"))
  = inr (Item.mk "heart_ace" "Ace of Hearts" 2 (Some "512x512"))
  /\ Dto.ImageAssetItem (Item.mk "heart_ace" "Ace of Hearts" 2 (Some "512x512"))
     = inr (Item.mk "heart_ace" "Ace of Hearts" 2 (Some "512x512")).
Proof.
  split; [reflexivity |].
  exact (proj1 (validated_item_is_stable
                  (Item.mk "  heart_ace " " Ace of Hearts" 2 (Some "512x512"))
                  (Item.mk "heart_ace" "Ace of Hearts" 2 (Some "512x512"))
                  eq_refl)).
Defined.

End ValidatedItems.

(** ** The keys of the outputs of a job *)

Section OutputKeys.

Import Handler.

Lemma append_same_length_suffix (a b s t : string) :
  String.length s = String.length t ->
  (a ++ s)%string = (b ++ t)%string -> a = b /\ s = t.
Proof.
  intros Hlen. revert b. induction a as [| c a IH]; intros [| c' b] H; cbn in H.
  - auto.
  - exfalso. rewrite H in Hlen. cbn in Hlen. rewrite length_append in Hlen. lia.
  - exfalso. rewrite <- H in Hlen. cbn in Hlen. rewrite length_append in Hlen. lia.
  - injection H as -> H. destruct (IH b H) as [-> ->]. auto.
Qed.

Lemma append_same_prefix (p a b : string) :
  (p ++ a)%string = (p ++ b)%string -> a = b.
Proof. induction p as [| c p IH]; cbn; [auto |]. intros [= H]. auto. Qed.

Lemma small_index (i : Z) :
  (1 <= i <= 10)%Z ->
  i = 1%Z \/ i = 2%Z \/ i = 3%Z \/ i = 4%Z \/ i = 5%Z \/ i = 6%Z \/ i = 7%Z
  \/ i = 8%Z \/ i = 9%Z \/ i = 10%Z.
Proof. lia. Qed.

Lemma format_02d_two_digits (i : Z) :
  (1 <= i <= 10)%Z -> String.length (format_02d i) = 2.
Proof.
  intros H. apply small_index in H.
  decompose [or] H; subst; reflexivity.
Qed.

Lemma format_02d_injective (i j : Z) :
  (1 <= i <= 10)%Z -> (1 <= j <= 10)%Z -> format_02d i = format_02d j -> i = j.
Proof.
  intros Hi Hj. apply small_index in Hi. apply small_index in Hj.
  decompose [or] Hi; decompose [or] Hj; subst; intros H;
    first [reflexivity | vm_compute in H; discriminate H].
Qed.

Lemma task_index_range (params : GenerationInput) (t : Task.t) :
  counts_in_range params ->
  In t (Decomposer._parse_generation_tasks params) ->
  (1 <= Task.index t <= 10)%Z.
Proof.
  intros Hr. unfold Decomposer._parse_generation_tasks. rewrite in_app_iff.
  assert (Hitems : forall c s d bucket data items item,
             In bucket (buckets_of params) -> bucket = Some data ->
             In (s, items) data -> In item items ->
             In t (Decomposer.item_tasks c s d item) ->
             (1 <= Task.index t <= 10)%Z).
  { intros c s d bucket data items item Hb He Hs Hi Ht.
    pose proof (Hr bucket data s items item Hb He Hs Hi) as Hc.
    unfold Decomposer.item_tasks in Ht. apply in_map_iff in Ht.
    destruct Ht as (i & <- & Hin). apply range1_spec in Hin. cbn. lia. }
  assert (Hcat : forall c d bucket data,
             In bucket (buckets_of params) -> bucket = Some data ->
             In t (Decomposer._parse_category_tasks c data d) ->
             (1 <= Task.index t <= 10)%Z).
  { intros c d bucket data Hb He Ht.
    unfold Decomposer._parse_category_tasks in Ht. apply in_flat_map in Ht.
    destruct Ht as ([s items] & Hs & Ht). apply in_flat_map in Ht.
    destruct Ht as (item & Hi & Ht). eauto. }
  assert (Hcus : forall d bucket data,
             In bucket (buckets_of params) -> bucket = Some data ->
             In t (Decomposer._parse_custom_content_tasks data d) ->
             (1 <= Task.index t <= 10)%Z).
  { intros d bucket data Hb He Ht.
    unfold Decomposer._parse_custom_content_tasks in Ht. apply in_flat_map in Ht.
    destruct Ht as ([s items] & Hs & Ht). apply in_flat_map in Ht.
    destruct Ht as (item & Hi & Ht). eauto. }
  intros [Ht | Ht].
  - apply in_flat_map in Ht. destruct Ht as (name & Hname & Ht).
    destruct (Params.getattr params name) as [[| e data] |] eqn:Hg;
      try contradiction.
    apply (Hcat name (Params.default_resolution params) (Some (e :: data))
             (e :: data)); [| reflexivity | exact Ht].
    assert (Hin : In (Params.getattr params name) (buckets_of params)).
    { clear - Hname. destruct params; cbn in Hname |- *;
        decompose [or] Hname; subst; try contradiction; cbn; auto. }
    rewrite Hg in Hin. exact Hin.
  - destruct (Params.custom_content params) as [[| e data] |] eqn:Hg;
      try contradiction.
    apply (Hcus (Params.default_resolution params) (Some (e :: data)) (e :: data));
      [| reflexivity | exact Ht].
    assert (Hin : In (Params.custom_content params) (buckets_of params))
      by (destruct params; cbn; auto).
    rewrite Hg in Hin. exact Hin.
Qed.

Lemma file_name_identity (f1 f2 : string) (i1 i2 : Z) :
  (1 <= i1 <= 10)%Z -> (1 <= i2 <= 10)%Z ->
  ((f1 ++ "_" ++ format_02d i1 ++ ".png")%string
   = (f2 ++ "_" ++ format_02d i2 ++ ".png")%string
   <-> f1 = f2 /\ i1 = i2).
Proof.
  intros Hi1 Hi2. split.
  - intros H.
    assert (Hsuffix : String.length ("_" ++ format_02d i1 ++ ".png")
                      = String.length ("_" ++ format_02d i2 ++ ".png")).
    { cbn [append String.length]. rewrite !length_append.
      now rewrite !format_02d_two_digits. }
    destruct (append_same_length_suffix _ _ _ _ Hsuffix H) as [Hf Hd].
    split; [exact Hf |].
    cbn [append] in Hd. injection Hd as Hd.
    assert (Hsuffix' : String.length ".png" = String.length ".png") by reflexivity.
    destruct (append_same_length_suffix _ _ _ _ Hsuffix' Hd) as [Hfmt _].
    now apply format_02d_injective.
  - intros [-> ->]. reflexivity.
Qed.

(** X17.  The keys under which the outputs of a prompt-only job are stored.
    Every output is stored under the output path of its category and
    subcategory on the date that the clock shows when it is saved, followed
    by its file name.  For a request accepted by [_parse_request], two
    outputs have the same file name exactly when they have the same
    filename and the same index.  When the clock shows one date at all the
    saves of the job, two outputs of the same category and subcategory have
    the same key exactly when they have the same filename and the same
    index: the outputs of one item never share a key, nor do those of two
    items of a subcategory with different filenames, while two items
    declared with the same filename in one subcategory are stored under the
    same keys. *)
Theorem output_keys_within_a_subcategory (env : Env.t)
    (module model generation_mode : string) (raw : RawParams.t)
    (provider : option string) (rd : RequestData.t) (style : StyleData.t)
    (task_id : string) :
  _parse_request env module model generation_mode raw provider = inr rd ->
  let outputs := _execute_generation env rd style task_id None in
  let tasks :=
    Decomposer._parse_generation_tasks (RequestData.generation_params rd) in
  let now := Env.utcnow env (RequestData.module rd) task_id in
  (forall o, In o outputs ->
     exists position,
       position < length tasks
       /\ Output.s3_key o
          = (Env.build_s3_output_path env (now position)
               (RequestData.module rd) task_id
               (Output.category o) (Output.subcategory o)
             ++ Output.file_name o)%string)
  /\ forall o1 o2, In o1 outputs -> In o2 outputs ->
       (Output.file_name o1 = Output.file_name o2
        <-> Output.filename o1 = Output.filename o2
            /\ Output.index o1 = Output.index o2)
       /\ ((forall position, position < length tasks -> now position = now 0) ->
           Output.category o1 = Output.category o2 ->
           Output.subcategory o1 = Output.subcategory o2 ->
           (Output.s3_key o1 = Output.s3_key o2
            <-> Output.filename o1 = Output.filename o2
                /\ Output.index o1 = Output.index o2)).
Proof.
  intros Hp. cbv zeta.
  destruct (parse_request_params _ _ _ _ _ _ _ Hp) as (init & Hclass & Hinit).
  pose proof (init_counts_in_range _ _ _ _ Hclass Hinit) as Hrange.
  assert (Hout : forall o,
             In o (_execute_generation env rd style task_id None) ->
             (1 <= Output.index o <= 10)%Z
             /\ Output.file_name o
                = (Output.filename o ++ "_" ++ format_02d (Output.index o)
                   ++ ".png")%string
             /\ exists position,
                  position < length (Decomposer._parse_generation_tasks
                                       (RequestData.generation_params rd))
                  /\ Output.s3_key o
                     = (Env.build_s3_output_path env
                          (Env.utcnow env (RequestData.module rd) task_id position)
                          (RequestData.module rd) task_id
                          (Output.category o) (Output.subcategory o)
                        ++ Output.file_name o)%string).
  { intros o Ho. unfold _execute_generation, gather_tasks in Ho.
    rewrite successful_results_map in Ho. apply in_flat_map in Ho.
    destruct Ho as ([position t] & Ht & Ho). cbn [fst snd] in Ho.
    destruct (_generate_single_image env t rd style ReferenceData.empty task_id
                position) as [e | o'] eqn:Hg; [destruct Ho |].
    destruct Ho as [<- | []].
    apply generate_single_image_identity in Hg.
    destruct Hg as (Hid & Hf & Hk & _ & _).
    unfold output_identity, task_identity in Hid. injection Hid as Hi1 Hi2 Hi3 Hi4.
    assert (Htasks : generation_tasks rd None
                     = Decomposer._parse_generation_tasks
                         (RequestData.generation_params rd)).
    { unfold generation_tasks. now destruct (RequestData.generation_mode rd). }
    rewrite Htasks in Ht. apply enumerate_In in Ht.
    pose proof (task_index_range _ _ Hrange (nth_error_In _ _ Ht)) as Hidx.
    split; [congruence |]. split; [rewrite Hf; congruence |].
    exists position. split; [apply nth_error_Some; congruence |].
    rewrite Hk, Hi1, Hi2. reflexivity. }
  split.
  - intros o Ho. now destruct (Hout o Ho) as (_ & _ & H).
  - intros o1 o2 H1 H2.
    destruct (Hout o1 H1) as (Hi1 & Hf1 & p1 & Hp1 & Hk1).
    destruct (Hout o2 H2) as (Hi2 & Hf2 & p2 & Hp2 & Hk2).
    assert (Hnames : Output.file_name o1 = Output.file_name o2
                     <-> Output.filename o1 = Output.filename o2
                         /\ Output.index o1 = Output.index o2).
    { rewrite Hf1, Hf2. now apply file_name_identity. }
    split; [exact Hnames |].
    intros Hclock Hc Hs.
    rewrite Hk1, Hk2, (Hclock p1 Hp1), (Hclock p2 Hp2), Hc, Hs.
    rewrite <- Hnames. split.
    + apply append_same_prefix.
    + now intros ->.
Qed.

Lemma output_keys_within_a_subcategory_witness :
  let outputs :=
    Handler._execute_generation Scenario.env_ok Scenario.six_task_request
      ImageHandler.fallback_style "symbols_0" None in
  map Output.s3_key (firstn 2 outputs)
  = ["out/symbols/base_symbols/low_value/heart_ace_01.png";
     "out/symbols/base_symbols/low_value/heart_ace_02.png"]
  /\ forall o1 o2, In o1 outputs -> In o2 outputs ->
       Output.category o1 = Output.category o2 ->
       Output.subcategory o1 = Output.subcategory o2 ->
       (Output.s3_key o1 = Output.s3_key o2
        <-> Output.filename o1 = Output.filename o2
            /\ Output.index o1 = Output.index o2).
Proof.
  cbv zeta. split; [reflexivity |].
  intros o1 o2 H1 H2.
  apply (proj2 (output_keys_within_a_subcategory Scenario.env_ok "symbols"
                  "gpt_image_1" "prompt_only" Sample.six_task_params None
                  Scenario.six_task_request ImageHandler.fallback_style
                  "symbols_0" eq_refl) o1 o2 H1 H2).
  reflexivity.
Defined.

(** When the day changes during a job, the outputs saved before and after
    are stored under the paths of two dates. *)
Lemma output_keys_across_midnight :
  map Output.s3_key
    (firstn 2 (Handler._execute_generation Scenario.env_at_midnight
                 Scenario.six_task_request ImageHandler.fallback_style
                 "symbols_0" None))
  = ["image_assets_output/2025-01-31/symbols_0/symbols/heart_ace_01.png";
     "image_assets_output/2025-02-01/symbols_0/symbols/heart_ace_02.png"].
Proof. reflexivity. Qed.

End OutputKeys.

(** ** Requests sent to the OpenAI provider *)

Section ProviderRequests.

Import OpenAI.

Variable available_models : list (string * ModelInfo.t).
Variable b64encode : string -> string.

Lemma images_of_parts (text_part : list ContentPart) (urls : list string) :
  Forall (fun part => exists text, part = TextPart text) text_part ->
  images_of (Multimodal (text_part ++ map ImagePart urls)) = urls.
Proof.
  intros Ht. cbn [images_of]. rewrite flat_map_app.
  assert (H1 : flat_map (fun part => match part with
                                     | ImagePart url => [url]
                                     | TextPart _ => []
                                     end) text_part = []).
  { induction Ht as [| part l [text ->] _ IH]; [reflexivity | exact IH]. }
  rewrite H1. cbn [app]. induction urls as [| u urls IH]; [reflexivity |].
  cbn. now rewrite IH.
Qed.

Lemma process_image_inputs_shape (input_data : InputData.t) (model : string) :
  exists text_part urls,
    _process_image_inputs available_models b64encode input_data model
    = text_part ++ map ImagePart urls
    /\ text_part
       = (if truthy (get_default (InputData.prompt input_data) "")
          then [TextPart (get_default (InputData.prompt input_data) "")] else [])
    /\ length urls <= image_limit model
    /\ (if _supports_image_input available_models model then True else urls = [])
    /\ match InputData.image_urls input_data with
       | Some (UrlList (url :: rest)) =>
           if _supports_image_input available_models model
           then urls = firstn (image_limit model) (url :: rest)
           else True
       | _ => True
       end.
Proof.
  unfold _process_image_inputs, image_limit.
  set (text_part := if truthy (get_default (InputData.prompt input_data) "")
                    then [TextPart (get_default (InputData.prompt input_data) "")]
                    else []).
  assert (Hsingle : forall url : string,
             length [url] <= (if model =? "gpt-4o" then 10 else 3))
    by (intros url; destruct (model =? "gpt-4o"); cbn; lia).
  assert (Hnone : 0 <= (if model =? "gpt-4o" then 10 else 3)) by lia.
  destruct (_supports_image_input available_models model); cbn [negb].
  2: { exists text_part, []. cbn [map]. rewrite app_nil_r.
       repeat split; try assumption. now destruct (InputData.image_urls input_data)
         as [[[| u l] | u] |]. }
  assert (Helse : exists urls,
             match InputData.image_url input_data, InputData.image_data input_data with
             | Some url, _ => text_part ++ [ImagePart url]
             | None, Some image_data =>
                 text_part
                 ++ [ImagePart ("data:image/jpeg;base64,"
                                ++ match image_data with
                                   | DataBytes content => b64encode content
                                   | DataOther text => text
                                   end)%string]
             | None, None => text_part
             end = text_part ++ map ImagePart urls
             /\ length urls <= (if model =? "gpt-4o" then 10 else 3)).
  { destruct (InputData.image_url input_data) as [url |];
      [exists [url]; split; [reflexivity | apply Hsingle] |].
    destruct (InputData.image_data input_data) as [data |].
    - eexists [_]. split; [reflexivity | apply Hsingle].
    - exists []. cbn [map]. rewrite app_nil_r. split; [reflexivity | exact Hnone]. }
  destruct (InputData.image_urls input_data) as [[[| u l] | u] |];
    cbn [image_urls_truthy].
  - destruct Helse as (urls & -> & Hlen). exists text_part, urls. auto.
  - set (limit := if model =? "gpt-4o" then 10 else 3) in *.
    exists text_part, (firstn limit (u :: l)).
    destruct (Nat.ltb_spec limit (length (u :: l))) as [Hlt | Hge].
    + repeat split. rewrite length_firstn. lia.
    + rewrite firstn_all2 by exact Hge. repeat split. exact Hge.
  - destruct (truthy u).
    + exists text_part, [u]. clear Helse Hsingle Hnone.
      destruct (model =? "gpt-4o"); cbn; repeat split; lia.
    + destruct Helse as (urls & -> & Hlen). exists text_part, urls. auto.
  - destruct Helse as (urls & -> & Hlen). exists text_part, urls. auto.
Qed.

(** X18.  The images of a chat completion.  The user message carries at most
    ten images for [gpt-4o] and at most three for any other model, and none
    for a model without the [image_analysis] or [multimodal] capability.
    Given a non-empty list under [image_urls], a capable model is sent the
    first images of the list up to the limit, in their order, provided the
    message then has more than one part: a single image without a prompt
    is sent as plain text, without the image.  The token limit is the
    smaller of the limit of the model (4096 when unknown) and the requested
    one (500 when absent), and JSON mode is passed on only for the three
    models that support it. *)
Theorem chat_completion_images (model : string) (input_data : InputData.t) :
  let payload := text_payload available_models b64encode model input_data in
  let sent := images_of (TextPayload.user payload) in
  length sent <= image_limit model
  /\ (if _supports_image_input available_models model then True else sent = [])
  /\ match InputData.image_urls input_data with
     | Some (UrlList (url :: rest)) =>
         if _supports_image_input available_models model
         then sent
              = (if truthy (get_default (InputData.prompt input_data) "")
                    || (1 <? length (firstn (image_limit model) (url :: rest)))%nat
                 then firstn (image_limit model) (url :: rest) else [])
         else True
     | _ => True
     end
  /\ (TextPayload.max_tokens payload
      <= match InputData.max_tokens input_data with Some n => n | None => 500 end)%Z
  /\ (TextPayload.max_tokens payload
      <= match get_model_info available_models model with
         | Some model_info =>
             match ModelInfo.max_tokens model_info with Some n => n | None => 4096 end
         | None => 4096
         end)%Z
  /\ match TextPayload.response_format payload with
     | Some type =>
         type = "json_object"
         /\ In model ["gpt-4o"; "gpt-4-turbo"; "gpt-3.5-turbo"]
         /\ InputData.response_format input_data = Some (Some type)
     | None => True
     end.
Proof.
  cbv zeta. unfold text_payload.
  cbn [TextPayload.user TextPayload.max_tokens TextPayload.response_format].
  destruct (process_image_inputs_shape input_data model)
    as (text_part & urls & -> & Htext & Hlen & Hsup & Hurls).
  assert (Htexts : Forall (fun part => exists text, part = TextPart text) text_part).
  { rewrite Htext. destruct (truthy _); repeat constructor. eauto. }
  assert (Hsent : images_of
                    (if (1 <? length (text_part ++ map ImagePart urls))%nat
                     then Multimodal (text_part ++ map ImagePart urls)
                     else PlainText (_build_final_prompt available_models input_data))
                  = if (1 <? length (text_part ++ map ImagePart urls))%nat
                    then urls else []).
  { destruct (1 <? length (text_part ++ map ImagePart urls))%nat;
      [now apply images_of_parts | reflexivity]. }
  rewrite Hsent. clear Hsent.
  split; [| split; [| split; [| split; [| split]]]].
  - destruct (1 <? _)%nat; [exact Hlen | cbn; lia].
  - destruct (_supports_image_input available_models model); [exact I |].
    rewrite Hsup. now destruct (1 <? _)%nat.
  - destruct (InputData.image_urls input_data) as [[[| u l] | u] |]; try exact I.
    destruct (_supports_image_input available_models model); [| exact I].
    rewrite Hurls, length_app, length_map, Htext.
    destruct (truthy (get_default (InputData.prompt input_data) "")); cbn [orb length].
    + assert (Hpos : 0 < length (firstn (image_limit model) (u :: l))).
      { rewrite length_firstn. unfold image_limit. cbn [length].
        destruct (model =? "gpt-4o"); lia. }
      destruct (Nat.ltb_spec 1 (1 + length (firstn (image_limit model) (u :: l))));
        [reflexivity | lia].
    + reflexivity.
  - lia.
  - destruct (get_model_info available_models model) as [info |]; [| lia].
    destruct (ModelInfo.max_tokens info); lia.
  - destruct (InputData.response_format input_data) as [[type |] |]; cbn [andb];
      try (rewrite ?andb_false_r; exact I).
    destruct (existsb (String.eqb model) ["gpt-4o"; "gpt-4-turbo"; "gpt-3.5-turbo"])
      eqn:Hm; cbn [andb]; [| exact I].
    destruct (String.eqb_spec type "json_object") as [-> | Hne]; [| exact I].
    split; [reflexivity |]. split; [| reflexivity].
    apply existsb_exists in Hm. destruct Hm as (m & Hin & Heq).
    apply String.eqb_eq in Heq. now subst m.
Qed.

Lemma build_final_prompt_prefix (input_data : InputData.t) :
  String.prefix (get_default (InputData.prompt input_data) "")
    (_build_final_prompt available_models input_data) = true.
Proof.
  unfold _build_final_prompt.
  destruct (_ ++ _ ++ _ ++ _) as [| part parts].
  - rewrite <- (append_nil_r (get_default (InputData.prompt input_data) "")) at 2.
    apply prefix_app.
  - apply prefix_app.
Qed.

Lemma build_final_prompt_urls (input_data : InputData.t) (urls : ImageUrls)
    (url : string) :
  _build_final_prompt available_models (with_image_urls input_data urls url)
  = _build_final_prompt available_models input_data.
Proof.
  unfold _build_final_prompt, with_image_urls.
  cbn [InputData.prompt InputData.reference_image_description
       InputData.style_guidance InputData.reference_prompt InputData.image_urls
       InputData.image_url].
  destruct (InputData.image_urls input_data), (InputData.image_url input_data);
    reflexivity.
Qed.

Lemma image_payload_urls (model : string) (input_data : InputData.t)
    (urls : ImageUrls) (url : string) :
  image_payload available_models model (with_image_urls input_data urls url)
  = image_payload available_models model input_data.
Proof.
  unfold image_payload.
  assert (Hhas : is_some (InputData.image_urls (with_image_urls input_data urls url))
                 || is_some (InputData.image_url (with_image_urls input_data urls url))
                 || is_some (InputData.image_data (with_image_urls input_data urls url))
                 = is_some (InputData.image_urls input_data)
                   || is_some (InputData.image_url input_data)
                   || is_some (InputData.image_data input_data)).
  { unfold with_image_urls. cbn [InputData.image_urls InputData.image_url
      InputData.image_data].
    destruct (InputData.image_urls input_data), (InputData.image_url input_data);
      reflexivity. }
  rewrite Hhas.
  destruct (_ && negb (_supports_image_input available_models model)).
  - assert (Hdesc : InputData.reference_image_description
                      (with_image_urls input_data urls url)
                    = InputData.reference_image_description input_data)
      by reflexivity.
    rewrite Hdesc.
    destruct (negb (is_some (InputData.reference_image_description input_data))).
    + change (with_reference_image_description (with_image_urls input_data urls url)
                "Reference images provided but not supported by this model")
        with (with_image_urls
                (with_reference_image_description input_data
                   "Reference images provided but not supported by this model")
                urls url).
      rewrite build_final_prompt_urls. reflexivity.
    + rewrite build_final_prompt_urls. reflexivity.
  - rewrite build_final_prompt_urls. reflexivity.
Qed.

(** X19.  The request of an image generation.  For a configured model of type
    [image_generation], [run_inference] sends one request for one image,
    whose size is the requested one (1024x1024 when absent) when the model
    supports it and the first supported size otherwise, and whose prompt
    starts with the prompt of the call; it raises only when the model is
    configured with an empty list of sizes.  The reference images attached
    to the call are not part of the request: with other URLs under
    [image_urls] and [image_url] the request is the same. *)
Theorem image_generation_request (model : string) (input_data : InputData.t)
    (model_info : ModelInfo.t) :
  lookup model available_models = Some model_info ->
  ModelInfo.model_type model_info = Some "image_generation" ->
  let supported_sizes :=
    match ModelInfo.supported_sizes model_info with
    | Some sizes => sizes
    | None => ["1024x1024"]
    end in
  let requested_size := get_default (InputData.size input_data) "1024x1024" in
  match run_inference available_models b64encode model input_data with
  | inr (ImageGeneration payload) =>
      ImagePayload.model payload = model
      /\ ImagePayload.n payload = 1%Z
      /\ In (ImagePayload.size payload) supported_sizes
      /\ (if existsb (String.eqb requested_size) supported_sizes
          then ImagePayload.size payload = requested_size
          else hd_error supported_sizes = Some (ImagePayload.size payload))
      /\ String.prefix (get_default (InputData.prompt input_data) "")
           (ImagePayload.prompt payload) = true
  | inr (ChatCompletion _) => False
  | inl e => e = ListIndexOutOfRange /\ supported_sizes = []
  end
  /\ forall urls url,
       run_inference available_models b64encode model
         (with_image_urls input_data urls url)
       = run_inference available_models b64encode model input_data.
Proof.
  intros Hinfo Htype. cbv zeta. unfold run_inference, validate_model, has_key,
    get_model_type, get_model_info.
  rewrite Hinfo, Htype. cbn [negb String.eqb Ascii.eqb Bool.eqb].
  split; [| intros urls url; now rewrite image_payload_urls].
  unfold image_payload, get_model_info. rewrite Hinfo.
  set (sizes := match ModelInfo.supported_sizes model_info with
                | Some sizes => sizes
                | None => ["1024x1024"]
                end).
  match goal with
  | |- context [_build_final_prompt available_models ?d] =>
      assert (Hpre : String.prefix (get_default (InputData.prompt input_data) "")
                       (_build_final_prompt available_models d) = true);
      [| set (final := _build_final_prompt available_models d) in * ]
  end.
  { match goal with
    | |- context [_build_final_prompt available_models ?d] =>
        replace (InputData.prompt input_data) with (InputData.prompt d)
          by (destruct (_ && _); [destruct (negb _) |]; reflexivity)
    end. apply build_final_prompt_prefix. }
  match goal with
  | |- context [get_default (InputData.size ?d) "1024x1024"] =>
      replace (InputData.size d) with (InputData.size input_data)
        by (destruct (_ && _); [destruct (negb _) |]; reflexivity)
  end.
  match goal with
  | |- context [get_default (InputData.quality ?d) "standard"] =>
      generalize (get_default (InputData.quality d) "standard")
  end. intros quality.
  destruct (existsb (String.eqb (get_default (InputData.size input_data) "1024x1024"))
              sizes) eqn:Hex; cbn [negb].
  - assert (Hin : In (get_default (InputData.size input_data) "1024x1024") sizes).
    { apply existsb_exists in Hex. destruct Hex as (s & Hs & Heq).
      apply String.eqb_eq in Heq. now subst s. }
    destruct (model =? "dall-e-3"); [| destruct (match ModelInfo.output_format _ with
                                                  | Some _ => _ | None => _ end)];
      cbn; auto.
  - destruct sizes as [| first rest]; [auto |].
    destruct (model =? "dall-e-3"); [| destruct (match ModelInfo.output_format _ with
                                                  | Some _ => _ | None => _ end)];
      cbn; auto 10.
Qed.

End ProviderRequests.

Lemma image_generation_request_witness :
  exists payload,
    OpenAI.run_inference sample_models (fun content => content) "gpt_image_1"
      sample_image_input = inr (ImageGeneration payload)
    /\ ImagePayload.size payload = "1024x1024"
    /\ String.prefix "Create a slot machine symbol: Ace" (ImagePayload.prompt payload)
       = true
    /\ OpenAI.run_inference sample_models (fun content => content) "gpt_image_1"
         (with_image_urls sample_image_input (UrlList []) "https://other")
       = inr (ImageGeneration payload).
Proof.
  pose proof (image_generation_request sample_models (fun content => content)
                "gpt_image_1" sample_image_input
                (ModelInfo.mk (Some "image_generation") (Some ["image_generation"])
                   (Some ["1024x1024"; "1536x1024"; "1024x1536"]) (Some "b64_json")
                   None)
                eq_refl eq_refl) as H.
  cbv zeta in H. destruct H as [Hshape Hsame].
  destruct (OpenAI.run_inference sample_models (fun content => content) "gpt_image_1"
              sample_image_input) as [e | [payload | payload]] eqn:Hrun.
  - destruct Hshape as [_ Hnil]. discriminate Hnil.
  - exists payload. destruct Hshape as (_ & _ & _ & Hsize & Hpre).
    split; [reflexivity |]. split; [| split; [exact Hpre |]].
    + cbn - [ImagePayload.size] in Hsize. now injection Hsize as <-.
    + apply Hsame.
  - destruct Hshape.
Defined.

(** ** The default model of a composite job *)

Section DefaultModel.

Import Handler ImageHandler Validation.

Variable module_models : list (string * ModuleModels.t).
Variable env : Env.t.

Lemma parse_request_unsupported_model (module model generation_mode : string)
    (raw : RawParams.t) (provider : option string) :
  existsb (String.eqb model)
    (AssetSettings.get_module_supported_models module_models module) = false ->
  exists e,
    _parse_request (AssetSettings.with_module_models module_models env) module model
      generation_mode raw provider = inl e.
Proof.
  intros Hm. unfold _parse_request.
  destruct (_get_service module) as [e | service] eqn:Hs;
    cbn [bind Monad_result]; [eauto |].
  assert (Hname : ImageService.get_module_name service = module).
  { unfold _get_service in Hs.
    destruct (String.eqb_spec module "symbols") as [-> | _];
      [now injection Hs as <- |].
    destruct (String.eqb_spec module "ui") as [-> | _]; [now injection Hs as <- |].
    destruct (String.eqb_spec module "backgrounds") as [-> | _];
      [now injection Hs as <- | discriminate]. }
  destruct (param_class module) as [init |]; [| eauto].
  destruct (init raw) as [e | params]; cbn [bind Monad_result]; [eauto |].
  cbn [AssetSettings.with_module_models Env.get_module_supported_models].
  rewrite Hname, Hm. cbn [negb]. eauto.
Qed.

(** X20.  The model that a composite job uses when its global configuration
    names none, [gpt_image_1], is not the model that an unconfigured module
    supports, [gpt-image-1].  With the settings read from [module_models],
    a composite job without a model whose first module has no list of
    supported models is always rejected with HTTP 400 and generates
    nothing, and so is a single-module job that asks for [gpt_image_1] on
    such a module, whereas the model check accepts [gpt-image-1] there. *)
Theorem default_model_is_not_supported_by_default
    (global_config : GlobalConfig.t) (module_name : string)
    (module_config : RawParams.t) (rest : list (string * RawParams.t))
    (task_id : string) :
  GlobalConfig.model global_config = None ->
  match lookup module_name module_models with
  | Some module_settings => ModuleModels.supported_models module_settings = None
  | None => True
  end ->
  (exists why,
      handle_complete_game_generation_json
        (AssetSettings.with_module_models module_models env) global_config
        ((module_name, module_config) :: rest) task_id
      = inl (HTTPException 400 why))
  /\ (forall generation_mode provider,
        exists why,
          handle_module_generation_json
            (AssetSettings.with_module_models module_models env) module_name
            "gpt_image_1" generation_mode module_config provider task_id
          = inl (HTTPException 400 why))
  /\ existsb (String.eqb "gpt-image-1")
       (Env.get_module_supported_models
          (AssetSettings.with_module_models module_models env) module_name) = true.
Proof.
  intros Hmodel Hsettings.
  assert (Hsupported : AssetSettings.get_module_supported_models module_models
                         module_name = ["gpt-image-1"]).
  { unfold AssetSettings.get_module_supported_models.
    destruct (lookup module_name module_models) as [settings |]; [| reflexivity].
    now rewrite Hsettings. }
  assert (Hno : existsb (String.eqb "gpt_image_1")
                  (AssetSettings.get_module_supported_models module_models
                     module_name) = false)
    by now rewrite Hsupported.
  split; [| split].
  - unfold handle_complete_game_generation_json.
    destruct (negb _); [cbn; eauto |].
    cbn [_build_module_requests bind Monad_result]. rewrite Hmodel.
    cbn [get_default].
    destruct (parse_request_unsupported_model module_name "gpt_image_1"
                (get_default (GlobalConfig.generation_mode global_config)
                   "prompt_only")
                (with_global_art_style global_config module_config)
                (GlobalConfig.provider global_config) Hno) as [e ->].
    cbn. eauto.
  - intros generation_mode provider. unfold handle_module_generation_json.
    destruct (negb _); [cbn; eauto |].
    destruct (parse_request_unsupported_model module_name "gpt_image_1"
                generation_mode module_config provider Hno) as [e ->].
    cbn. eauto.
  - cbn [AssetSettings.with_module_models Env.get_module_supported_models].
    now rewrite Hsupported.
Qed.

End DefaultModel.

Lemma default_model_is_not_supported_by_default_witness :
  exists why,
    Validation.handle_complete_game_generation_json
      (AssetSettings.with_module_models [] Scenario.env_ok)
      Sample.prompt_only_config [("symbols", Sample.six_task_params)] "complete_0"
    = inl (HTTPException 400 why).
Proof.
  exact (proj1 (default_model_is_not_supported_by_default [] Scenario.env_ok
                  Sample.prompt_only_config "symbols" Sample.six_task_params []
                  "complete_0" eq_refl I)).
Defined.

Lemma execute_generation_isolates_failures_witness :
  map output_identity
    (Handler._execute_generation
       (Scenario.env_with (Scenario.ai_failing_on "King of Spades") [])
       Scenario.six_task_request ImageHandler.fallback_style "symbols_0" None)
  = [("base_symbols", "low_value", "heart_ace", 1%Z);
     ("base_symbols", "low_value", "heart_ace", 2%Z);
     ("special_symbols", "wild", "dragon_wild", 1%Z);
     ("special_symbols", "wild", "dragon_wild", 2%Z);
     ("special_symbols", "wild", "dragon_wild", 3%Z)].
Proof.
  rewrite (proj1 (execute_generation_isolates_failures
                    (Scenario.env_with (Scenario.ai_failing_on "King of Spades") [])
                    Scenario.six_task_request ImageHandler.fallback_style
                    "symbols_0" None)).
  reflexivity.
Defined.
